(** * Quiz: generated-text parsing and the timed quiz session

    A shallow embedding of the four quiz agents of the repository
    ([quiz.py], [quiz1.py], [quiz3.py], [quiz5.py]): the parsing of the
    generated text into question dictionaries, the retry of the generator,
    the per-question race between the countdown thread and the input loop,
    and the final report.

    Text is a [string] of characters read as ASCII code points; colours and
    the wording of the printed messages are abstracted into the constructors
    of [output]. *)

From Stdlib Require Import String Ascii List ZArith QArith Lia Bool Arith.
Import ListNotations.
Open Scope string_scope.
Open Scope list_scope.

(** ** The Python string and list operations the agents use *)

Module Py.

(** [str.isspace] on the ASCII range: TAB..CR, FS..US and the space. *)
Definition isspace (c : ascii) : bool :=
  let n := nat_of_ascii c in
  ((9 <=? n)%nat && (n <=? 13)%nat) || ((28 <=? n)%nat && (n <=? 32)%nat).

Definition upper_char (c : ascii) : ascii :=
  let n := nat_of_ascii c in
  if ((97 <=? n)%nat && (n <=? 122)%nat) then ascii_of_nat (n - 32) else c.

Definition lower_char (c : ascii) : ascii :=
  let n := nat_of_ascii c in
  if ((65 <=? n)%nat && (n <=? 90)%nat) then ascii_of_nat (n + 32) else c.

Fixpoint map_chars (f : ascii -> ascii) (s : string) : string :=
  match s with
  | EmptyString => EmptyString
  | String c s' => String (f c) (map_chars f s')
  end.

(** [s.upper()] and [s.lower()]. *)
Definition upper : string -> string := map_chars upper_char.
Definition lower : string -> string := map_chars lower_char.

(** [s.lstrip()], [s.rstrip()], [s.strip()]. *)
Fixpoint lstrip (s : string) : string :=
  match s with
  | EmptyString => EmptyString
  | String c s' => if isspace c then lstrip s' else s
  end.

Fixpoint rstrip (s : string) : string :=
  match s with
  | EmptyString => EmptyString
  | String c s' =>
      match rstrip s' with
      | EmptyString => if isspace c then EmptyString else String c EmptyString
      | r => String c r
      end
  end.

Definition strip (s : string) : string := rstrip (lstrip s).

(** [s[n:]]. *)
Fixpoint drop (n : nat) (s : string) : string :=
  match n, s with
  | O, _ => s
  | S _, EmptyString => EmptyString
  | S k, String _ s' => drop k s'
  end.

(** [s.startswith(p)]. *)
Definition startswith (s p : string) : bool := prefix p s.

(** [s.partition(sep)], as an option: the text before the leftmost occurrence
    of [sep] and the text after it, [None] when [sep] does not occur. *)
Fixpoint partition (sep s : string) : option (string * string) :=
  if prefix sep s then Some (EmptyString, drop (String.length sep) s)
  else
    match s with
    | EmptyString => None
    | String c s' =>
        match partition sep s' with
        | Some (a, b) => Some (String c a, b)
        | None => None
        end
    end.

(** [s.split(sep)] for a non-empty separator: cut at the leftmost occurrence
    and go on in the rest.  Every cut removes at least one character, so
    [String.length s] rounds are enough. *)
Fixpoint split_fuel (fuel : nat) (sep s : string) : list string :=
  match fuel with
  | O => [s]
  | S k =>
      match partition sep s with
      | None => [s]
      | Some (a, b) => a :: split_fuel k sep b
      end
  end.

Definition split (sep s : string) : list string := split_fuel (String.length s) sep s.

(** [sep.join(l)]. *)
Definition join (sep : string) (l : list string) : string := String.concat sep l.

(** [s.replace(old, new)], [old] non-empty. *)
Definition replace (old new s : string) : string := join new (split old s).

(** [x in l] for a list of strings. *)
Definition in_list (x : string) (l : list string) : bool :=
  existsb (String.eqb x) l.

(** [l.index(x, start)]: [None] stands for [ValueError]. *)
Fixpoint index_from (x : string) (start : nat) (l : list string) : option nat :=
  match l with
  | [] => None
  | y :: l' =>
      match start with
      | S k => option_map S (index_from x k l')
      | O => if String.eqb y x then Some O else option_map S (index_from x O l')
      end
  end.

(** [l[a:b]]. *)
Definition slice {A} (a b : nat) (l : list A) : list A := firstn (b - a) (skipn a l).

Definition nl : string := String (ascii_of_nat 10) EmptyString.

(** The text whose lines are [l]. *)
Definition text (l : list string) : string := join nl l.

End Py.

(** ** Question dictionaries and printed messages *)

(** The dictionary built for one parsed question.  [code] is the ["code"] key
    of [quiz3.py] and [quiz5.py]; [quiz.py] and [quiz1.py] have no such key
    ([None]).  [options] keeps the insertion order of the dict literal. *)
Record question_dict := {
  question : string;
  code : option string;
  options : list (string * string);
  correct : string;
  explanation : string
}.

(** One entry of the [answers] list of [run_quiz]. *)
Record answer_dict := {
  question_num : nat;
  user_answer : string;
  correct_answer : string;
  answer_explanation : string
}.

(** What the agents print, one constructor per [print] (or [input] prompt). *)
Inductive output : Type :=
| SkippingPoorlyFormatted (q : string)
| ErrorParsingQuestion
| OnlyGeneratedRetrying (n : nat)
| InvalidDifficulty
| GeneratingQuiz (level topic : string)
| FailedToGenerate
| QuestionHeader (i : nat) (num_questions : Z)
| QuestionText (s : string)
| CodeSnippet (s : string)
| OptionLine (opt text : string)
| TimeRemaining (remaining : nat)
| TimesUp
| AnswerPrompt
| InvalidChoice
| QuizTerminatedByUser
| ResultsHeader
| ScoreLine (score num_questions : Z)
| FeedbackHeader
| FeedbackQuestion (q_num : nat)
| TimeExpired
| YourAnswer (a : string)
| CorrectAnswer (a : string)
| ExplanationLine (e : string)
| AnalysisHeader
| Excellent (topic : string)
| GoodJob
| NeedMorePractice (topic : string)
| ReviewConcepts (topic : string).

(** [self.difficulty_levels]. *)
Definition difficulty_levels : list string := ["beginner"; "intermediate"; "advanced"].

(** How the [try] body of the parsing loop ends for one candidate. *)
Inductive parsed : Type :=
| Parsed (d : question_dict)
| TooShort
| Raised.

Definition bind {A B} (o : option A) (f : A -> option B) : option B :=
  match o with Some a => f a | None => None end.

Notation "x <- e ;; k" := (bind e (fun x => k))
  (at level 61, e at next level, right associativity).

(** The body shared by the parsing loops: a too-short candidate is announced
    and skipped, an exception is announced and skipped, a parsed question is
    appended. *)
Section ParsingLoop.
Variable parse_one : string -> parsed.

Fixpoint parse_loop (raw_questions : list string)
  : list question_dict * list output :=
  match raw_questions with
  | [] => ([], [])
  | q :: rest =>
      let (questions, printed) := parse_loop rest in
      match parse_one q with
      | Parsed d => (d :: questions, printed)
      | TooShort => (questions, SkippingPoorlyFormatted q :: printed)
      | Raised => (questions, ErrorParsingQuestion :: printed)
      end
  end.
End ParsingLoop.

(** ** The question loop of run_quiz: countdown thread against input loop

    For every question [run_quiz] starts a thread that counts the seconds
    down and runs the input loop in the main thread; the two share the flag
    [timer_expired].  The threads are modelled statement by statement, and a
    schedule, a list of thread names, says which of them makes the next
    step.  A step of the timer thread out of [time.sleep(1)] is the passing
    of a second; a step of the main thread out of [input] is the arrival of
    what the operator types next. *)

Inductive thread : Type := MainThread | TimerThread.

(** What a call of [input] delivers: a line, or [KeyboardInterrupt]. *)
Inductive key : Type := Line (s : string) | CtrlC.

(** Where the countdown thread is: at the head of the [for] loop with
    [remaining] iterations to go ([TFor 0]: the loop is over, the final test
    is next), inside [time.sleep(1)] with [remaining] iterations to go after
    it, or returned. *)
Inductive timer_pc : Type :=
| TFor (remaining : nat)
| TSleep (remaining : nat)
| TReturned.

(** Where the main thread is: at the [while] test, blocked in [input], past
    the loop, or in the [except KeyboardInterrupt] handler's [return]. *)
Inductive main_pc : Type := AtWhile | InInput | PastLoop | Interrupted.

(** The state shared by the two threads of a question. *)
Record gate := {
  timer_expired : bool;          (* timer_expired[0] *)
  answer : option string;        (* None is Python's None *)
  timer : timer_pc;
  main : main_pc;
  stdin : list key;              (* what the operator has yet to deliver *)
  shown : list output            (* printed so far, oldest first *)
}.

(** The countdown thread sets the flag, moves on and prints. *)
Definition set_timer (g : gate) (flag : bool) (pc : timer_pc) (out : list output) : gate :=
  {| timer_expired := flag; answer := answer g; timer := pc; main := main g;
     stdin := stdin g; shown := shown g ++ out |}.

(** [["A", "B", "C", "D"]]. *)
Definition valid_choices : list string := ["A"; "B"; "C"; "D"].

Section Gate.
(** [stops_timer] is quiz1.py: its countdown returns as soon as it sees the
    flag, and its interrupt handler sets the flag and joins the thread.  In
    quiz.py, quiz3.py and quiz5.py neither happens. *)
Variable stops_timer : bool.

(** One statement of [countdown_timer]. *)
Definition timer_step (g : gate) : gate :=
  match timer g with
  | TFor (S r) =>
      if timer_expired g then
        set_timer g true (if stops_timer then TReturned else TFor r) []
      else set_timer g false (TSleep r) [TimeRemaining (S r)]
  | TSleep r => set_timer g (timer_expired g) (TFor r) []
  | TFor O =>
      if timer_expired g then set_timer g true TReturned []
      else set_timer g true TReturned [TimesUp]
  | TReturned => g
  end.

(** [timer_thread.join()]: the countdown runs alone until it returns. *)
Fixpoint run_timer (fuel : nat) (g : gate) : gate :=
  match fuel with
  | O => g
  | S k => match timer g with
           | TReturned => g
           | _ => run_timer k (timer_step g)
           end
  end.

(** A bound on the statements the countdown thread has yet to execute. *)
Definition steps_left (pc : timer_pc) : nat :=
  match pc with
  | TFor r => S (2 * r)
  | TSleep r => S (S (2 * r))
  | TReturned => 0
  end.

Definition join (g : gate) : gate := run_timer (steps_left (timer g)) g.

(** What the countdown thread, left to itself, still prints. *)
Definition leftover (g : gate) : list output :=
  skipn (length (shown g)) (shown (join g)).

(** One statement of the main thread's [try] block.  Blocked in [input]
    with nothing delivered, it stays where it is. *)
Definition main_step (g : gate) : gate :=
  match main g with
  | AtWhile =>
      if timer_expired g then
        {| timer_expired := true; answer := answer g; timer := timer g;
           main := PastLoop; stdin := stdin g; shown := shown g |}
      else
        {| timer_expired := false; answer := answer g; timer := timer g;
           main := InInput; stdin := stdin g; shown := shown g ++ [AnswerPrompt] |}
  | InInput =>
      match stdin g with
      | [] => g
      | Line s :: rest =>
          let a := Py.strip (Py.upper s) in
          if Py.in_list a valid_choices then
            {| timer_expired := true; answer := Some a; timer := timer g;
               main := PastLoop; stdin := rest; shown := shown g |}
          else
            {| timer_expired := timer_expired g; answer := Some a; timer := timer g;
               main := AtWhile; stdin := rest; shown := shown g ++ [InvalidChoice] |}
      | CtrlC :: rest =>
          let g' :=
            if stops_timer then
              join {| timer_expired := true; answer := answer g; timer := timer g;
                      main := main g; stdin := rest; shown := shown g |}
            else
              {| timer_expired := timer_expired g; answer := answer g; timer := timer g;
                 main := main g; stdin := rest; shown := shown g |} in
          {| timer_expired := timer_expired g'; answer := answer g'; timer := timer g';
             main := Interrupted; stdin := stdin g'; shown := shown g' ++ [QuizTerminatedByUser] |}
      end
  | PastLoop | Interrupted => g
  end.

(** The next step is made by thread [t]. *)
Definition step (t : thread) (g : gate) : gate :=
  match t with
  | MainThread => main_step g
  | TimerThread => timer_step g
  end.

(** The two threads interleaved as [sched] says, until the main thread is
    past its loop or interrupted (or [sched] ends first: the main thread is
    then still waiting). *)
Fixpoint run_gate (sched : list thread) (g : gate) : gate :=
  match sched with
  | [] => g
  | t :: sched' =>
      match main g with
      | PastLoop | Interrupted => g
      | _ => run_gate sched' (step t g)
      end
  end.

(** The state in which the loop of a question starts: [answer = None],
    [timer_expired = [False]], the thread started. *)
Definition start_gate (time_per_question : nat) (keys : list key) (out : list output) : gate :=
  {| timer_expired := false; answer := None; timer := TFor time_per_question;
     main := AtWhile; stdin := keys; shown := out |}.

(** The local variables of [run_quiz] between two questions, with what has
    been printed and what the operator has yet to type. *)
Record session := {
  score : Z;
  answers : list answer_dict;
  display : list output;
  keyboard : list key
}.

(** How the loop over the questions stops: every question asked, the
    interrupt handler's [return] (with what a countdown thread that is still
    running prints afterwards), or the main thread waiting for a line that
    does not come. *)
Inductive loop_end : Type := AllAsked | Aborted (later : list output) | Waiting.

(** [if not answer: answer = "TIMEOUT"]. *)
Definition or_timeout (a : option string) : string :=
  match a with
  | None => "TIMEOUT"
  | Some s => if String.eqb s "" then "TIMEOUT" else s
  end.

(** The header, the question, its code (quiz3.py, quiz5.py) and its options. *)
Definition show_question (i : nat) (num_questions : Z) (q : question_dict) : list output :=
  QuestionHeader i num_questions :: QuestionText (question q)
    :: match code q with
       | Some c => if String.eqb c "" then [] else [CodeSnippet c]
       | None => []
       end
    ++ map (fun ot => OptionLine (fst ot) (snd ot)) (options q).

(** [for i, q in enumerate(questions, 1)]: the [i]-th question is raced
    under the [i]-th schedule. *)
Fixpoint ask (time_per_question : nat) (num_questions : Z) (i : nat)
    (questions : list question_dict) (scheds : list (list thread)) (st : session)
    : session * loop_end :=
  match questions with
  | [] => (st, AllAsked)
  | q :: rest =>
      let g := run_gate (hd [] scheds)
                 (start_gate time_per_question (keyboard st)
                    (display st ++ show_question i num_questions q)) in
      match main g with
      | Interrupted =>
          ({| score := score st; answers := answers st;
              display := shown g; keyboard := stdin g |}, Aborted (leftover g))
      | PastLoop =>
          let a := or_timeout (answer g) in
          let g' := join g in
          ask time_per_question num_questions (S i) rest (tl scheds)
            {| score := if String.eqb a (correct q) then (score st + 1)%Z else score st;
               answers := answers st ++
                 [{| question_num := i; user_answer := a;
                     correct_answer := correct q;
                     answer_explanation := explanation q |}];
               display := shown g'; keyboard := stdin g' |}
      | _ =>
          ({| score := score st; answers := answers st;
              display := shown g; keyboard := stdin g |}, Waiting)
      end
  end.
End Gate.

(** ** The report and run_quiz, as quiz.py and quiz1.py have them *)

(** [self.time_limits]. *)
Definition time_limits (level : string) : option nat :=
  if String.eqb level "beginner" then Some 30%nat
  else if String.eqb level "intermediate" then Some 45%nat
  else if String.eqb level "advanced" then Some 60%nat
  else None.

(** [(score / num_questions) * 100], as an exact rational; [None] is the
    [ZeroDivisionError].  (Python computes in binary floating point; for the
    scores and counts of a session the result falls on the same side of 90,
    70 and 50 as the exact value.) *)
Definition percentage (score num_questions : Z) : option Q :=
  if (num_questions =? 0)%Z then None
  else Some (inject_Z score / inject_Z num_questions * 100)%Q.

(** The [if]/[elif] chain of the performance analysis; its four messages
    are the tiers "excellent", "good", "needs practice" and "review
    recommended". *)
Definition analysis (topic : string) (p : Q) : output :=
  if Qle_bool 90 p then Excellent topic
  else if Qle_bool 70 p then GoodJob
  else if Qle_bool 50 p then NeedMorePractice topic
  else ReviewConcepts topic.

(** The detailed feedback for one answer. *)
Definition feedback (ans : answer_dict) : list output :=
  [FeedbackQuestion (question_num ans);
   (if String.eqb (user_answer ans) "TIMEOUT" then TimeExpired
    else YourAnswer (user_answer ans));
   CorrectAnswer (correct_answer ans);
   ExplanationLine (answer_explanation ans)].

(** The [return] (or the exception, or the blocked [input]) at which a call
    of [run_quiz] stops. *)
Inductive ending : Type :=
| InvalidLevel
| GenerationException
| NoQuestions
| KeyError
| TerminatedByUser
| WaitingForInput
| ZeroDivisionError
| Completed (p : Q).

(** A call of [run_quiz]: how it stops, what it has printed by then, and the
    score, the answers and the unread input at that point. *)
Record run := {
  ending_of : ending;
  output_of : list output;
  score_of : Z;
  answers_of : list answer_dict;
  unread : list key;
  printed_later : list output   (* by a countdown thread, after the return *)
}.

Section RunQuiz.
Variable stops_timer : bool.
Variable generate_quiz : string -> option (list question_dict * list output).

(** [run_quiz] stops with no thread left running. *)
Definition stopped (e : ending) (out : list output) (st : session) : run :=
  {| ending_of := e; output_of := out; score_of := score st;
     answers_of := answers st; unread := keyboard st; printed_later := [] |}.

(** Lines 193-231 of quiz.py. *)
Definition report (topic : string) (num_questions : Z) (st : session) : run :=
  let out := display st
               ++ [ResultsHeader; ScoreLine (score st) num_questions; FeedbackHeader]
               ++ flat_map feedback (answers st) in
  match percentage (score st) num_questions with
  | None => stopped ZeroDivisionError out st
  | Some p => stopped (Completed p) (out ++ [AnalysisHeader; analysis topic p]) st
  end.

(** Lines 95-231 of quiz.py.  [response_text] is what the generation
    service answers, [scheds] the schedule of each question and [keys] what
    the operator types. *)
Definition run_quiz (response_text : string) (scheds : list (list thread))
    (keys : list key) (topic level : string) (num_questions : Z) : run :=
  let idle := {| score := 0; answers := []; display := []; keyboard := keys |} in
  if negb (Py.in_list (Py.lower level) difficulty_levels) then
    stopped InvalidLevel [InvalidDifficulty] idle
  else
    match generate_quiz response_text with
    | None => stopped GenerationException [GeneratingQuiz level topic] idle
    | Some ([], msgs) =>
        stopped NoQuestions (GeneratingQuiz level topic :: msgs ++ [FailedToGenerate]) idle
    | Some (questions, msgs) =>
        match time_limits (Py.lower level) with
        | None => stopped KeyError (GeneratingQuiz level topic :: msgs) idle
        | Some time_per_question =>
            let (st, e) :=
              ask stops_timer time_per_question num_questions 1 questions scheds
                {| score := 0; answers := []; display := GeneratingQuiz level topic :: msgs;
                   keyboard := keys |} in
            match e with
            | Aborted later =>
                {| ending_of := TerminatedByUser; output_of := display st;
                   score_of := score st; answers_of := answers st;
                   unread := keyboard st; printed_later := later |}
            | Waiting => stopped WaitingForInput (display st) st
            | AllAsked => report topic num_questions st
            end
        end
    end.
End RunQuiz.

(** ** quiz.py: the parser *)

Module Quiz.

(** [line.split(marker)[1].strip()]; [None] is the [IndexError]. *)
Definition after (marker : string) (line : string) : option string :=
  option_map Py.strip (nth_error (Py.split marker line) 1).

(** Lines 62-88 of quiz.py, for one element [q] of [raw_questions]. *)
Definition parse_question (q : string) : parsed :=
  let parts := Py.split Py.nl (Py.strip q) in
  if (length parts <? 7)%nat then TooShort
  else
    match
      (p0 <- nth_error parts 0 ;; question_text <- after ". " p0 ;;
       p1 <- nth_error parts 1 ;; a <- after "A) " p1 ;;
       p2 <- nth_error parts 2 ;; b <- after "B) " p2 ;;
       p3 <- nth_error parts 3 ;; c <- after "C) " p3 ;;
       p4 <- nth_error parts 4 ;; d <- after "D) " p4 ;;
       p5 <- nth_error parts 5 ;; corr <- after "Correct: " p5 ;;
       p6 <- nth_error parts 6 ;; expl <- after "Explanation: " p6 ;;
       Some {| question := question_text;
               code := None;
               options := [("A", a); ("B", b); ("C", c); ("D", d)];
               correct := Py.upper corr;
               explanation := expl |})
    with
    | Some d => Parsed d
    | None => Raised
    end.

(** [response.text.split("Q")[1:]]. *)
Definition raw_questions (response_text : string) : list string :=
  tl (Py.split "Q" response_text).

(** [generate_quiz]: [None] is the exception raised for an empty response;
    otherwise the parsed questions and what the loop printed. *)
Definition generate_quiz (response_text : string)
  : option (list question_dict * list output) :=
  if String.eqb response_text "" then None
  else Some (parse_loop parse_question (raw_questions response_text)).

(** [run_quiz] of quiz.py. *)
Definition run_quiz := run_quiz false generate_quiz.

End Quiz.

(** ** quiz1.py: the parser *)

Module Quiz1.

Definition isdigit (c : ascii) : bool :=
  let n := nat_of_ascii c in ((48 <=? n)%nat && (n <=? 57)%nat).

Fixpoint skip_digits (s : string) : string :=
  match s with
  | EmptyString => EmptyString
  | String c s' => if isdigit c then skip_digits s' else s
  end.

(** A match of the pattern [Q\d+\.] at the start of [s]: the text after it. *)
Definition match_marker (s : string) : option string :=
  match s with
  | String "Q"%char (String d rest) =>
      if isdigit d then
        match skip_digits rest with
        | String "."%char r => Some r
        | _ => None
        end
      else None
  | _ => None
  end.

Fixpoint re_partition (s : string) : option (string * string) :=
  match match_marker s with
  | Some r => Some (EmptyString, r)
  | None =>
      match s with
      | EmptyString => None
      | String c s' =>
          match re_partition s' with
          | Some (a, b) => Some (String c a, b)
          | None => None
          end
      end
  end.

(** [re.split(r"Q\d+\.", s)]. *)
Fixpoint re_split_fuel (fuel : nat) (s : string) : list string :=
  match fuel with
  | O => [s]
  | S k =>
      match re_partition s with
      | None => [s]
      | Some (a, b) => a :: re_split_fuel k b
      end
  end.

Definition re_split (s : string) : list string := re_split_fuel (String.length s) s.

(** [[p.strip() for p in q.strip().split("\n") if p.strip()]]. *)
Definition stripped_lines (q : string) : list string :=
  map Py.strip
    (filter (fun p => negb (String.eqb (Py.strip p) ""))
       (Py.split Py.nl (Py.strip q))).

(** Lines 65-91 of quiz1.py.  Slicing and [replace] never raise, so the
    length test is the only rejection. *)
Definition parse_question (q : string) : parsed :=
  let parts := stripped_lines q in
  if (length parts <? 7)%nat then TooShort
  else
    match
      (p0 <- nth_error parts 0 ;;
       p1 <- nth_error parts 1 ;;
       p2 <- nth_error parts 2 ;;
       p3 <- nth_error parts 3 ;;
       p4 <- nth_error parts 4 ;;
       p5 <- nth_error parts 5 ;;
       p6 <- nth_error parts 6 ;;
       Some {| question := p0;
               code := None;
               options := [("A", Py.drop 3 p1); ("B", Py.drop 3 p2);
                           ("C", Py.drop 3 p3); ("D", Py.drop 3 p4)];
               correct := Py.upper (Py.strip (Py.replace "Correct: " "" p5));
               explanation := Py.strip (Py.replace "Explanation: " "" p6) |})
    with
    | Some d => Parsed d
    | None => Raised
    end.

Definition raw_questions (response_text : string) : list string :=
  tl (re_split response_text).

(** [generate_quiz]: the response must be non-empty and contain ["Q1."]. *)
Definition generate_quiz (response_text : string)
  : option (list question_dict * list output) :=
  if String.eqb response_text "" then None
  else
    match Py.partition "Q1." response_text with
    | None => None
    | Some _ => Some (parse_loop parse_question (raw_questions response_text))
    end.

(** [run_quiz] of quiz1.py. *)
Definition run_quiz := run_quiz true generate_quiz.

End Quiz1.

(** ** quiz3.py and quiz5.py: code snippets and the retry *)

(** How a call of the retrying [generate_quiz] ends.  The code sets no limit
    to its own nesting; the interpreter does: [fuel] is the number of nested
    calls of [generate_quiz] that its recursion limit leaves room for (under
    CPython's default limit of 1000 frames somewhat fewer than 1000, the
    frames of the callers taking up the rest), and the call that would go
    beyond it raises [RecursionError], which nothing in the file catches
    around the recursive call. *)
Inductive generated : Type :=
| Questions (qs : list question_dict)
| GenerationFailed          (* Exception("Failed to generate quiz questions.") *)
| PromptKeyError            (* quiz5.py: self.quiz_prompts[level] *)
| RecursionError.           (* the interpreter's recursion limit is reached *)

Record generation := {
  outcome : generated;
  printed : list output;
  calls : nat               (* requests sent to the generation service *)
}.

Section Retrying.
(** [snippets] says whether a fenced block after the question line is
    looked for: always in quiz3.py, for the intermediate and advanced
    levels in quiz5.py. *)
Variable snippets : bool.

(** Lines 62-101 of quiz3.py (93-131 of quiz5.py). *)
Definition parse_snippet_question (q : string) : parsed :=
  let parts := Py.split Py.nl (Py.strip q) in
  if (length parts <? 6)%nat then TooShort
  else
    match
      (p0 <- nth_error parts 0 ;; question_text <- Quiz.after ". " p0 ;;
       p1 <- nth_error parts 1 ;;
       cs <- (if snippets && Py.startswith p1 "```python"
              then close <- Py.index_from "```" 2 parts ;;
                   Some (Py.join Py.nl (Py.slice 1 (close + 1) parts), (close + 1)%nat)
              else Some ("", 1%nat)) ;;
       let (code_snippet, options_start) := cs in
       pa <- nth_error parts options_start ;; a <- Quiz.after "A) " pa ;;
       pb <- nth_error parts (options_start + 1) ;; b <- Quiz.after "B) " pb ;;
       pc <- nth_error parts (options_start + 2) ;; c <- Quiz.after "C) " pc ;;
       pd <- nth_error parts (options_start + 3) ;; d <- Quiz.after "D) " pd ;;
       p5 <- nth_error parts (options_start + 4) ;; corr <- Quiz.after "Correct: " p5 ;;
       p6 <- nth_error parts (options_start + 5) ;; expl <- Quiz.after "Explanation: " p6 ;;
       Some {| question := question_text;
               code := Some code_snippet;
               options := [("A", a); ("B", b); ("C", c); ("D", d)];
               correct := Py.upper corr;
               explanation := expl |})
    with
    | Some d => Parsed d
    | None => Raised
    end.

(** The service answers the [n]-th request with [model n]; the prompt is the
    same in every retry.  Lines 52-117 of quiz3.py: parse, and call
    [generate_quiz] again when fewer than [num_questions] were parsed. *)
Fixpoint generate_retrying (fuel : nat) (model : nat -> string) (call : nat)
    (num_questions : Z) : generation :=
  match fuel with
  | O => {| outcome := RecursionError; printed := []; calls := 0 |}
  | S fuel' =>
      let response_text := model call in
      if String.eqb response_text "" then
        {| outcome := GenerationFailed; printed := []; calls := 1 |}
      else
        let (questions, msgs) :=
          parse_loop parse_snippet_question (Quiz.raw_questions response_text) in
        if (Z.of_nat (length questions) <? num_questions)%Z then
          let again := generate_retrying fuel' model (S call) num_questions in
          {| outcome := outcome again;
             printed := msgs ++ OnlyGeneratedRetrying (length questions) :: printed again;
             calls := S (calls again) |}
        else
          {| outcome := Questions questions; printed := msgs; calls := 1 |}
  end.
End Retrying.

Module Quiz3.
Definition parse_question : string -> parsed := parse_snippet_question true.

Definition generate_quiz (fuel : nat) (model : nat -> string) (num_questions : Z)
  : generation :=
  generate_retrying true fuel model 0 num_questions.
End Quiz3.

Module Quiz5.
Definition snippets_for (level : string) : bool :=
  Py.in_list level ["intermediate"; "advanced"].

Definition parse_question (level : string) : string -> parsed :=
  parse_snippet_question (snippets_for level).

(** The prompt is looked up under [level] before anything else. *)
Definition generate_quiz (fuel : nat) (model : nat -> string) (level : string)
    (num_questions : Z) : generation :=
  if Py.in_list level difficulty_levels then
    generate_retrying (snippets_for level) fuel model 0 num_questions
  else {| outcome := PromptKeyError; printed := []; calls := 0 |}.
End Quiz5.

(** ** What the claims speak of *)

(** *** Candidates and their fields *)

(** [marker in line]. *)
Definition occurs (marker line : string) : Prop :=
  exists pre post, line = (pre ++ marker ++ post)%string.

(** The marker each line of a quiz.py candidate has to carry. *)
Definition required_markers : list (nat * string) :=
  [(0, ". "); (1, "A) "); (2, "B) "); (3, "C) "); (4, "D) ");
   (5, "Correct: "); (6, "Explanation: ")]%nat.

(** The lines of a candidate as quiz.py takes them. *)
Definition candidate_lines (q : string) : list string := Py.split Py.nl (Py.strip q).

(** Line [i] is absent or does not contain [marker]. *)
Definition marker_missing (parts : list string) (i : nat) (marker : string) : Prop :=
  forall line, nth_error parts i = Some line -> ~ occurs marker line.

(** A candidate that lacks a line or a marker. *)
Definition missing_field (q : string) : Prop :=
  (length (candidate_lines q) < 7)%nat \/
  exists im, In im required_markers /\
             marker_missing (candidate_lines q) (fst im) (snd im).

(** The candidate is skipped: too short, or an exception in the [try]. *)
Definition rejected (r : parsed) : Prop := r = TooShort \/ r = Raised.

(** The keys of the options of a dictionary, in their order. *)
Definition option_keys (d : question_dict) : list string := map fst (options d).

(** The parsing loop announces every candidate it drops: the count of the
    rejected candidates is the number of those announcements. *)
Definition rejected_count (r : list question_dict * list output) : nat := length (snd r).

(** The messages of the parsing loop. *)
Definition is_parse_message (o : output) : bool :=
  match o with
  | SkippingPoorlyFormatted _ | ErrorParsingQuestion => true
  | _ => false
  end.

(** A generator that prints nothing but parsing messages. *)
Definition prints_parse_messages
    (generate_quiz : string -> option (list question_dict * list output)) : Prop :=
  forall response_text questions msgs,
    generate_quiz response_text = Some (questions, msgs) ->
    forallb is_parse_message msgs = true.

(** The generation service never yields [num_questions] parseable questions
    (and never an empty text). *)
Definition always_short (snippets : bool) (model : nat -> string) (num_questions : Z) : Prop :=
  forall n,
    model n <> "" /\
    (Z.of_nat (length (fst (parse_loop (parse_snippet_question snippets)
                              (Quiz.raw_questions (model n))))) < num_questions)%Z.

(** *** What a session prints and reads *)

(** The lines of the final report: results, feedback and analysis. *)
Definition is_report (o : output) : bool :=
  match o with
  | ResultsHeader | ScoreLine _ _ | FeedbackHeader | FeedbackQuestion _ | TimeExpired
  | YourAnswer _ | CorrectAnswer _ | ExplanationLine _ | AnalysisHeader
  | Excellent _ | GoodJob | NeedMorePractice _ | ReviewConcepts _ => true
  | _ => false
  end.

(** The line that presents a question. *)
Definition is_header (o : output) : bool :=
  match o with QuestionHeader _ _ => true | _ => false end.

(** What the two threads print while a question is open. *)
Definition is_loop_output (o : output) : bool :=
  match o with
  | TimeRemaining _ | TimesUp | AnswerPrompt | InvalidChoice => true
  | _ => false
  end.

(** The question headers among the printed lines. *)
Definition headers (out : list output) : list output := filter is_header out.

(** The headers "Question i/num_questions" for [n] questions from [i] on. *)
Definition headers_from (i n : nat) (num_questions : Z) : list output :=
  map (fun j => QuestionHeader j num_questions) (seq i n).

(** What the loop has read from the keyboard besides lines. *)
Definition interrupt_read (e : loop_end) : list key :=
  match e with Aborted _ => [CtrlC] | _ => [] end.


(** The [run_quiz] of quiz.py or of quiz1.py. *)
Definition run_quiz_of (quiz1 : bool) :=
  if quiz1 then Quiz1.run_quiz else Quiz.run_quiz.

(** What a step leaves alone, and what it may print. *)
Definition only_prints (g g' : gate) : Prop :=
  main g' = main g /\ stdin g' = stdin g /\ answer g' = answer g /\
  exists o, shown g' = shown g ++ o /\ forallb is_loop_output o = true.

(** While a question is open: what has been printed since it was shown is
    loop output, and what has been read from the keyboard are lines. *)
Definition gate_open (out0 : list output) (keys : list key) (g : gate) : Prop :=
  main g <> Interrupted /\
  exists extra lines,
    shown g = out0 ++ extra /\ forallb is_loop_output extra = true /\
    keys = map Line lines ++ stdin g.

(** After the interrupt: the termination notice is the last line printed and
    the interrupt the last thing read; where the handler joins the countdown
    thread ([joined]), that thread has returned. *)
Definition gate_aborted (joined : bool) (out0 : list output) (keys : list key)
    (g : gate) : Prop :=
  main g = Interrupted /\
  (joined = true -> timer g = TReturned) /\
  exists extra lines,
    shown g = out0 ++ extra ++ [QuizTerminatedByUser] /\
    forallb is_loop_output extra = true /\
    keys = map Line lines ++ CtrlC :: stdin g.

(** *** Sample texts, schedules and sessions *)

(** A well-formed candidate in the format of the prompt, with the given
    answer line. *)
Definition sample (answer_line : string) : string :=
  Py.text ["1. What does len([]) return?"; "A) 0"; "B) 1"; "C) None"; "D) an error";
           answer_line; "Explanation: the list is empty"].

(** The first option line has text before its marker. *)
Definition sample_shifted_marker : string :=
  Py.text ["1. What does len([]) return?"; "x A) 0"; "B) 1"; "C) None"; "D) an error";
           "Correct: a"; "Explanation: the list is empty"].

(** Seven lines, none with a marker. *)
Definition sample_without_markers : string :=
  Py.text ["what"; "one"; "two"; "three"; "four"; "b"; "why"].

(** A response with one well-formed question per answer letter given. *)
Definition quiz_text (answers : list string) : string :=
  String.concat ""
    (map (fun a => "Q" ++ sample ("Correct: " ++ a) ++ Py.nl)%string answers).

(** A service that answers every request with a text without questions. *)
Definition no_questions : nat -> string := fun _ => "I cannot help with that.".

(** Schedules of one question.  The operator answers at once. *)
Definition prompt_answer : list thread := [MainThread; MainThread].

(** Nothing is typed until the countdown of [t] seconds has run out and
    announced it; a line comes afterwards. *)
Definition late_answer (t : nat) : list thread :=
  MainThread :: repeat TimerThread (2 * t + 1) ++ [MainThread; MainThread].

(** A line comes in the last of the [t] seconds, and the countdown ends
    before the loop tests the flag again. *)
Definition last_second_answer (t : nat) : list thread :=
  MainThread :: repeat TimerThread (2 * t) ++ [MainThread; TimerThread; MainThread].

(** Four questions whose answers are b, c, a, d, each answered at once: the
    operator is right on the first and the third. *)
Definition four_questions : string := quiz_text ["b"; "c"; "a"; "d"].

Definition two_of_four (quiz1 : bool) : run :=
  run_quiz_of quiz1 four_questions
    [prompt_answer; prompt_answer; prompt_answer; prompt_answer]
    [Line "b"; Line "a"; Line "a"; Line "b"] "loops" "beginner" 4.

(** One question, answer b, at the beginner level (30 seconds), one
    requested; the session is determined by the schedule of the question and
    by what is typed. *)
Definition one_question (quiz1 : bool) (sched : list thread) (keys : list key) : run :=
  run_quiz_of quiz1 (quiz_text ["b"]) [sched] keys "loops" "beginner" 1.

(** Two questions parsed where [num_questions] were asked for, both answered
    correctly at once. *)
Definition two_answered (num_questions : Z) : run :=
  Quiz.run_quiz (quiz_text ["b"; "c"]) [prompt_answer; prompt_answer]
    [Line "b"; Line "c"] "loops" "beginner" num_questions.

(** The first question is answered, the second interrupted. *)
Definition interrupted_at_second (quiz1 : bool) : run :=
  run_quiz_of quiz1 (quiz_text ["b"; "c"]) [prompt_answer; prompt_answer]
    [Line "b"; CtrlC; Line "c"] "loops" "beginner" 2.


(** *** Candidates of quiz3.py and quiz5.py *)

(** Where the option lines of a candidate begin: after the fenced block when
    the second line opens one (and code is looked for), at the second line
    otherwise; [None] when the fence is never closed ([parts.index] raises)
    or there is no second line. *)
Definition snippet_options_start (snippets : bool) (parts : list string) : option nat :=
  match nth_error parts 1 with
  | None => None
  | Some p1 =>
      if snippets && Py.startswith p1 "```python"
      then option_map (fun close => (close + 1)%nat) (Py.index_from "```" 2 parts)
      else Some 1%nat
  end.

(** The markers of the six lines from the options on. *)
Definition option_markers (start : nat) : list (nat * string) :=
  [(start, "A) "); (start + 1, "B) "); (start + 2, "C) "); (start + 3, "D) ");
   (start + 4, "Correct: "); (start + 5, "Explanation: ")]%nat.

(** A candidate of quiz3.py or quiz5.py that lacks a line or a marker: fewer
    than six lines, no ". " in the first, a fence that is not closed, or one
    of the six lines from the options on absent or without its marker. *)
Definition missing_snippet_field (snippets : bool) (q : string) : Prop :=
  (length (candidate_lines q) < 6)%nat \/
  marker_missing (candidate_lines q) 0 ". " \/
  match snippet_options_start snippets (candidate_lines q) with
  | None => True
  | Some start =>
      exists im, In im (option_markers start) /\
                 marker_missing (candidate_lines q) (fst im) (snd im)
  end.

(** A candidate with a fenced block of one line, in the format of the prompt
    of quiz3.py. *)
Definition sample_with_code : string :=
  Py.text ["1. What does this print?"; "```python"; "print(len([]))"; "```";
           "A) 0"; "B) 1"; "C) None"; "D) an error";
           "Correct: a"; "Explanation: the list is empty"].

(** The same with the fence left open. *)
Definition sample_open_fence : string :=
  Py.text ["1. What does this print?"; "```python"; "print(len([]))";
           "A) 0"; "B) 1"; "C) None"; "D) an error";
           "Correct: a"; "Explanation: the list is empty"].

(** *** What it is to ask a question *)










(** ** Further notions: well-formed texts *)

(** The character [c] is nowhere in [s]. *)
Definition free_of (c : ascii) (s : string) : Prop := ~ occurs (String c EmptyString) s.

(** No whitespace around, and no line break inside. *)
Definition one_line (s : string) : Prop :=
  Py.strip s = s /\ free_of (ascii_of_nat 10) s.

(** The candidate the prompt of quiz.py asks for: the numbered question, the
    four options, the answer and the explanation, one per line. *)
Definition render (number : string) (d : question_dict) : string :=
  Py.text ((number ++ ". " ++ question d)%string
             :: map (fun kv => (fst kv ++ ") " ++ snd kv)%string) (options d)
             ++ [("Correct: " ++ correct d)%string;
                 ("Explanation: " ++ explanation d)%string]).

(** The dictionary quiz.py builds from a question, four option texts, an
    answer and an explanation. *)
Definition item (q a b c d corr expl : string) : question_dict :=
  {| question := q; code := None;
     options := [("A", a); ("B", b); ("C", c); ("D", d)];
     correct := corr; explanation := expl |}.

(** What [render] needs to be read back: a number without dot or line break
    that does not start with whitespace; fields on one line, without
    whitespace around; no field containing the marker that precedes it; a
    non-empty explanation; the answer in upper case. *)
Definition readable (number q a b c d corr expl : string) : Prop :=
  Py.lstrip number = number /\ free_of "."%char number /\
  free_of (ascii_of_nat 10) number /\
  one_line q /\ one_line a /\ one_line b /\ one_line c /\ one_line d /\
  one_line corr /\ one_line expl /\
  ~ occurs ". " q /\ ~ occurs "A) " a /\ ~ occurs "B) " b /\ ~ occurs "C) " c /\
  ~ occurs "D) " d /\ ~ occurs "Correct: " corr /\ ~ occurs "Explanation: " expl /\
  expl <> "" /\ Py.upper corr = corr.

(** A response made of candidates in the format of the prompt: each begins
    with the letter Q and ends its last line. *)
Fixpoint render_quiz (qs : list (string * question_dict)) : string :=
  match qs with
  | [] => EmptyString
  | nd :: rest =>
      ("Q" ++ render (fst nd) (snd nd) ++ Py.nl ++ render_quiz rest)%string
  end.

(** A numbered question that [render] shows readably, and without the letter
    Q, at which quiz.py cuts the response. *)
Definition well_formed (number : string) (d : question_dict) : Prop :=
  exists q a b c e corr expl,
    d = item q a b c e corr expl /\
    readable number q a b c e corr expl /\
    free_of "Q"%char (render number d).

(** Two questions for a sample response. *)
Definition first_item : question_dict :=
  item "What does len([]) return?" "0" "1" "None" "an error" "A" "the list is empty".

Definition second_item : question_dict :=
  item "Which keyword defines a function?" "def" "fun" "lambda" "function" "A"
       "def introduces a function definition".

(** The questions the parser of quiz3.py or quiz5.py makes of a response. *)
Definition yield (snippets : bool) (response_text : string) : list question_dict :=
  fst (parse_loop (parse_snippet_question snippets) (Quiz.raw_questions response_text)).

(** A service whose third answer holds a question, after one answer without
    questions and one with a candidate that is too short. *)
Definition third_time_lucky (n : nat) : string :=
  match n with
  | O => "I cannot help with that."
  | S O => "Q1. What is a list?"
  | _ => quiz_text ["b"]
  end.

(** ** Further notions: what the countdown shows, and the score *)

(** The seconds shown by the "Time remaining" lines, in their order. *)
Definition ticks (out : list output) : list nat :=
  flat_map (fun o => match o with TimeRemaining r => [r] | _ => [] end) out.

(** [t], [t - 1], ..., 1. *)
Fixpoint countdown (t : nat) : list nat :=
  match t with
  | O => []
  | S r => S r :: countdown r
  end.

(** The iterations the countdown thread has still to go. *)
Definition to_go (pc : timer_pc) : option nat :=
  match pc with
  | TFor r | TSleep r => Some r
  | TReturned => None
  end.

(** While a question is open, the seconds shown so far and those still to be
    shown make up the countdown; once "Time's up" is printed none is left;
    and as long as the flag is down, "Time's up" has not been printed and the
    seconds to be shown are those of the iterations to go. *)
Definition counting (t : nat) (out0 : list output) (g : gate) : Prop :=
  exists extra rest,
    shown g = out0 ++ extra /\
    (ticks extra ++ rest = countdown t)%list /\
    (In TimesUp extra -> rest = []) /\
    (timer_expired g = false ->
     ~ In TimesUp extra /\ option_map countdown (to_go (timer g)) = Some rest).

(** The loop is left only with the flag up, and the flag is up only after
    "Time's up" was printed, after the interrupt, or with a valid answer. *)
Definition flag_raised_by (g : gate) : Prop :=
  (main g = PastLoop -> timer_expired g = true) /\
  (timer_expired g = true ->
   In TimesUp (shown g) \/ main g = Interrupted \/
   (main g = PastLoop /\
    exists a, answer g = Some a /\ Py.in_list a valid_choices = true)).

(** The answer of the record is one of A, B, C, D. *)
Definition valid_record (a : answer_dict) : Prop :=
  Py.in_list (user_answer a) valid_choices = true.

(** Either "Time's up" was printed, or every answer so far is valid. *)
Definition timely (st : session) : Prop :=
  In TimesUp (display st) \/ Forall valid_record (answers st).

(** The records whose answer is the correct one. *)
Definition count_correct (l : list answer_dict) : Z :=
  Z.of_nat (length (filter (fun a => String.eqb (user_answer a) (correct_answer a)) l)).

(** The questions [generate_quiz] of quiz.py or quiz1.py hands to
    [run_quiz]; none when it raises. *)
Definition generated_questions (quiz1 : bool) (response_text : string) : list question_dict :=
  match (if quiz1 then Quiz1.generate_quiz else Quiz.generate_quiz) response_text with
  | Some (questions, _) => questions
  | None => []
  end.

(** ** quiz3.py and quiz5.py: run_quiz *)

(** How a call of [run_quiz] of quiz3.py or quiz5.py stops.  [SFinalScore p]
    stands for the last line of quiz3.py, "Final Score: score/num_questions
    (p%)", printed before the return; [SReturned] is the return of quiz5.py
    after the score. *)
Inductive snippet_ending : Type :=
| SInvalidLevel
| SPromptKeyError           (* quiz5.py: self.quiz_prompts[level] *)
| SGenerationException
| SRecursionError           (* raised in generate_quiz, caught nowhere *)
| SNoQuestions
| SLimitKeyError            (* self.time_limits[level.lower()] *)
| STerminatedByUser
| SWaitingForInput
| SZeroDivisionError
| SFinalScore (p : Q)
| SReturned.

(** A call of that [run_quiz]: [s_output] is what it has printed, the
    "Final Score" line apart. *)
Record snippet_run := {
  s_ending : snippet_ending;
  s_output : list output;
  s_score : Z;
  s_answers : list answer_dict;
  s_unread : list key;
  s_later : list output        (* by a countdown thread, after the return *)
}.

Definition halted (e : snippet_ending) (out : list output) (st : session) : snippet_run :=
  {| s_ending := e; s_output := out; s_score := score st; s_answers := answers st;
     s_unread := keyboard st; s_later := [] |}.

(** [self.generate_quiz(topic, level, num_questions)] of quiz3.py, or of
    quiz5.py ([quiz5]). *)
Definition snippet_generate (quiz5 : bool) (fuel : nat) (model : nat -> string)
    (level : string) (num_questions : Z) : generation :=
  if quiz5 then Quiz5.generate_quiz fuel model level num_questions
  else Quiz3.generate_quiz fuel model num_questions.

(** Lines 119-238 of quiz3.py and lines 149-229 of quiz5.py.  The level is
    checked in lower case and handed to [generate_quiz] as it is; the loop
    is that of quiz.py; quiz5.py returns after the score, quiz3.py goes on
    with the feedback and the final score. *)
Definition snippet_run_quiz (quiz5 : bool) (fuel : nat) (model : nat -> string)
    (scheds : list (list thread)) (keys : list key) (topic level : string)
    (num_questions : Z) : snippet_run :=
  let idle := {| score := 0; answers := []; display := []; keyboard := keys |} in
  if negb (Py.in_list (Py.lower level) difficulty_levels) then
    halted SInvalidLevel [InvalidDifficulty] idle
  else
    let gen := snippet_generate quiz5 fuel model level num_questions in
    let out := GeneratingQuiz level topic :: printed gen in
    match outcome gen with
    | PromptKeyError => halted SPromptKeyError out idle
    | GenerationFailed => halted SGenerationException out idle
    | RecursionError => halted SRecursionError out idle
    | Questions [] => halted SNoQuestions (out ++ [FailedToGenerate]) idle
    | Questions questions =>
        match time_limits (Py.lower level) with
        | None => halted SLimitKeyError out idle
        | Some time_per_question =>
            let (st, e) :=
              ask false time_per_question num_questions 1 questions scheds
                {| score := 0; answers := []; display := out; keyboard := keys |} in
            match e with
            | Aborted later =>
                {| s_ending := STerminatedByUser; s_output := display st;
                   s_score := score st; s_answers := answers st;
                   s_unread := keyboard st; s_later := later |}
            | Waiting => halted SWaitingForInput (display st) st
            | AllAsked =>
                let results := display st ++ [ResultsHeader; ScoreLine (score st) num_questions] in
                if quiz5 then halted SReturned results st
                else
                  let out' := results ++ FeedbackHeader :: flat_map feedback (answers st)
                                ++ [AnalysisHeader] in
                  match percentage (score st) num_questions with
                  | None => halted SZeroDivisionError out' st
                  | Some p => halted (SFinalScore p) out' st
                  end
            end
        end
    end.

Module Quiz3Session.
Definition run_quiz := snippet_run_quiz false.
End Quiz3Session.

Module Quiz5Session.
Definition run_quiz := snippet_run_quiz true.
End Quiz5Session.

(** The questions [generate_quiz] hands to that [run_quiz]; none when it
    raises. *)
Definition snippet_questions (quiz5 : bool) (fuel : nat) (model : nat -> string)
    (level : string) (num_questions : Z) : list question_dict :=
  match outcome (snippet_generate quiz5 fuel model level num_questions) with
  | Questions questions => questions
  | _ => []
  end.

(** The books of a session over [questions]: the score counts the records
    with the correct answer, and the records are numbered from 1 on and
    carry the correct answer and the explanation of the questions, in
    their order. *)
Definition keeps_book (questions : list question_dict) (sc : Z)
    (records : list answer_dict) : Prop :=
  sc = count_correct records /\
  (0 <= sc <= Z.of_nat (length records))%Z /\
  map question_num records = seq 1 (length records) /\
  map correct_answer records = map correct (firstn (length records) questions) /\
  map answer_explanation records = map explanation (firstn (length records) questions).

(** The run that stopped before the first question, nothing read. *)
Definition stopped_early (e : ending) (out : list output) (keys : list key) : run :=
  {| ending_of := e; output_of := out; score_of := 0; answers_of := [];
     unread := keys; printed_later := [] |}.

(** Where the interrupt handler does not touch the flag (quiz.py, quiz3.py,
    quiz5.py): with the flag up, "Time's up" has been printed for this
    question or the loop was left with a valid answer. *)
Definition expiring (out0 : list output) (g : gate) : Prop :=
  exists extra,
    shown g = out0 ++ extra /\
    (timer_expired g = true -> In TimesUp extra \/ main g = PastLoop).

(** The operator interrupts the first prompt of a question at once. *)
Definition interrupted_at_once : list thread := [MainThread; MainThread].

(** ** Strings *)

Lemma prefix_append (p s : string) :
  prefix p s = true <-> exists t, s = (p ++ t)%string.
Proof.
  revert s; induction p as [|a p IH]; intros s.
  - split; [intros _; now exists s | intros _; now destruct s].
  - destruct s as [|b s]; simpl.
    + split; [discriminate | intros [t Ht]; discriminate].
    + destruct (ascii_dec a b) as [->|Hab].
      * rewrite IH. split; intros [t Ht]; exists t; [now subst | now inversion Ht].
      * split; [discriminate | intros [t Ht]; inversion Ht; subst; now elim Hab].
Qed.

Lemma drop_append (p t : string) : Py.drop (String.length p) (p ++ t)%string = t.
Proof. induction p; simpl; [now destruct t | assumption]. Qed.

Lemma partition_eq (sep s : string) :
  Py.partition sep s =
  if prefix sep s then Some (EmptyString, Py.drop (String.length sep) s)
  else match s with
       | EmptyString => None
       | String c s' =>
           match Py.partition sep s' with
           | Some (a, b) => Some (String c a, b)
           | None => None
           end
       end.
Proof. destruct s; reflexivity. Qed.

Lemma partition_cut (sep s a b : string) :
  Py.partition sep s = Some (a, b) -> s = (a ++ sep ++ b)%string.
Proof.
  revert a b; induction s as [|c s IH]; intros a b; rewrite partition_eq;
    destruct (prefix sep _) eqn:Hp.
  - intros [= <- <-]. apply prefix_append in Hp as [t Ht].
    cbn [append]. rewrite Ht at 2. now rewrite drop_append.
  - discriminate.
  - intros [= <- <-]. apply prefix_append in Hp as [t Ht].
    cbn [append]. rewrite Ht at 2. now rewrite drop_append.
  - destruct (Py.partition sep s) as [[a' b']|]; [|discriminate].
    intros [= <- <-]. cbn [append]. f_equal. now apply IH.
Qed.

Lemma occurs_partition (sep s : string) :
  occurs sep s <-> Py.partition sep s <> None.
Proof.
  split.
  - intros (pre & post & ->). induction pre as [|c pre IH]; rewrite partition_eq.
    + assert (Hp : prefix sep (sep ++ post)%string = true)
        by (apply prefix_append; now exists post).
      cbn [append]. rewrite Hp. discriminate.
    + destruct (prefix sep _); [discriminate|]. cbn [append].
      destruct (Py.partition sep (pre ++ sep ++ post)%string) as [[a b]|];
        [discriminate | contradiction].
  - destruct (Py.partition sep s) as [[a b]|] eqn:Hp; [|contradiction].
    intros _. exists a, b. now apply partition_cut.
Qed.

Lemma split_fuel_head (n : nat) (sep s : string) :
  nth_error (Py.split_fuel n sep s) 0 <> None.
Proof.
  destruct n; simpl; [discriminate|].
  destruct (Py.partition sep s) as [[a b]|]; discriminate.
Qed.

Lemma partition_empty (sep : string) : sep <> "" -> Py.partition sep "" = None.
Proof. destruct sep; [contradiction | reflexivity]. Qed.

(** [s.split(sep)] has a second piece exactly when [sep in s]. *)
Lemma split_second (sep s : string) :
  sep <> "" -> (nth_error (Py.split sep s) 1 <> None <-> occurs sep s).
Proof.
  intros Hsep. rewrite occurs_partition. unfold Py.split.
  destruct s as [|c s].
  - rewrite (partition_empty sep Hsep). simpl. tauto.
  - cbn [String.length Py.split_fuel].
    destruct (Py.partition sep (String c s)) as [[a b]|]; simpl.
    + split; [discriminate | intros _; apply split_fuel_head].
    + tauto.
Qed.

Lemma after_occurs (marker line : string) :
  marker <> "" -> (Quiz.after marker line <> None <-> occurs marker line).
Proof.
  intros Hm. rewrite <- (split_second marker line Hm). unfold Quiz.after.
  destruct (nth_error (Py.split marker line) 1); simpl; split; congruence.
Qed.

Lemma after_value (marker line v : string) :
  Quiz.after marker line = Some v ->
  exists raw, nth_error (Py.split marker line) 1 = Some raw /\ v = Py.strip raw.
Proof.
  unfold Quiz.after. destruct (nth_error (Py.split marker line) 1) as [raw|]; simpl;
    [intros [= <-]; now exists raw | discriminate].
Qed.

(** The pieces of a split, joined again by the separator, are the text. *)
Lemma join_split_fuel (n : nat) (sep s : string) :
  Py.join sep (Py.split_fuel n sep s) = s.
Proof.
  revert s; induction n as [|n IH]; intros s; simpl; [reflexivity|].
  destruct (Py.partition sep s) as [[a b]|] eqn:Hp; [|reflexivity].
  apply partition_cut in Hp. specialize (IH b).
  unfold Py.join in *. simpl.
  destruct (Py.split_fuel n sep b) eqn:Hs.
  - exfalso. generalize (split_fuel_head n sep b). now rewrite Hs.
  - now rewrite IH.
Qed.

Lemma upper_char_idempotent (c : ascii) :
  Py.upper_char (Py.upper_char c) = Py.upper_char c.
Proof. destruct c as [[] [] [] [] [] [] [] []]; reflexivity. Qed.

Lemma upper_idempotent (s : string) : Py.upper (Py.upper s) = Py.upper s.
Proof.
  induction s as [|c s IH]; simpl; [reflexivity|].
  unfold Py.upper in *. simpl. now rewrite upper_char_idempotent, IH.
Qed.

Lemma length_append (s t : string) :
  String.length (s ++ t)%string = (String.length s + String.length t)%nat.
Proof. induction s as [|c s IH]; simpl; [reflexivity | now rewrite IH]. Qed.

Lemma append_assoc (s t u : string) : ((s ++ t) ++ u = s ++ t ++ u)%string.
Proof. induction s as [|c s IH]; simpl; [reflexivity | now rewrite IH]. Qed.

Lemma occurs_cons (sep : string) (c : ascii) (s : string) :
  occurs sep (String c s) -> prefix sep (String c s) = true \/ occurs sep s.
Proof.
  intros (pre & post & H). destruct pre as [|c' pre].
  - left. apply prefix_append. exists post. exact H.
  - right. exists pre, post. now inversion H.
Qed.

(** The text before the cut holds no separator: the cut is the leftmost. *)
Lemma partition_leftmost (sep s a b : string) :
  sep <> "" -> Py.partition sep s = Some (a, b) -> ~ occurs sep a.
Proof.
  intros Hsep. revert a b; induction s as [|c s IH]; intros a b;
    rewrite partition_eq; destruct (prefix sep _) eqn:Hp.
  - intros [= <- _] (pre & post & H). destruct pre, sep; try discriminate. now elim Hsep.
  - discriminate.
  - intros [= <- _] (pre & post & H). destruct pre, sep; try discriminate. now elim Hsep.
  - destruct (Py.partition sep s) as [[a' b']|] eqn:Hcut; [|discriminate].
    intros [= <- <-] Hocc. apply occurs_cons in Hocc as [Hpre | Hocc].
    + apply partition_cut in Hcut. apply prefix_append in Hpre as [t Ht].
      assert (Hp' : prefix sep (String c s) = true).
      { apply prefix_append. exists (t ++ sep ++ b')%string.
        rewrite Hcut. change (String c (a' ++ sep ++ b')%string)
          with (String c a' ++ sep ++ b')%string.
        rewrite Ht. apply append_assoc. }
      congruence.
    + exact (IH a' b' eq_refl Hocc).
Qed.

(** With a round for every character, no piece of the split holds a
    separator: the rounds never run out before the text does. *)
Lemma split_fuel_pieces (sep : string) :
  sep <> "" ->
  forall fuel s, (String.length s <= fuel)%nat ->
    Forall (fun piece => ~ occurs sep piece) (Py.split_fuel fuel sep s).
Proof.
  intros Hsep. induction fuel as [|fuel IH]; intros s Hlen.
  - destruct s; [|simpl in Hlen; lia]. constructor; [|constructor].
    rewrite occurs_partition, (partition_empty sep Hsep). tauto.
  - cbn [Py.split_fuel]. destruct (Py.partition sep s) as [[a b]|] eqn:Hcut.
    + constructor; [now apply partition_leftmost with (s := s) (b := b)|].
      apply IH. apply partition_cut in Hcut. subst s.
      rewrite !length_append in Hlen.
      destruct sep; [now elim Hsep | simpl in Hlen; lia].
    + constructor; [|constructor]. rewrite occurs_partition, Hcut. tauto.
Qed.

Lemma split_pieces (sep s : string) :
  sep <> "" ->
  Py.join sep (Py.split sep s) = s /\
  Forall (fun piece => ~ occurs sep piece) (Py.split sep s).
Proof.
  intros Hsep. split; [apply join_split_fuel | now apply split_fuel_pieces].
Qed.

(** ** The parser of quiz.py *)

Lemma parsed_or_rejected (r : parsed) : (exists d, r = Parsed d) \/ rejected r.
Proof. destruct r as [d| |]; unfold rejected; eauto. Qed.

Lemma rejected_not_parsed (r : parsed) (d : question_dict) : rejected r -> r <> Parsed d.
Proof. intros [-> | ->]; discriminate. Qed.

Ltac marker_present Hwf i m Hi :=
  match goal with
  | |- context [Quiz.after m ?l] =>
      let Ha := fresh "Ha" in
      destruct (Quiz.after m l) eqn:Ha; cbn [bind];
      [ | exfalso; apply Hwf; right; exists (i, m); split;
          [ simpl; tauto
          | intros line Hline Hocc; cbn [fst snd] in Hline, Hocc; rewrite Hi in Hline;
            injection Hline as <-; apply after_occurs in Hocc;
            [ congruence | discriminate ] ] ]
  end.

Ltac line_present parts i Hlen Hi :=
  destruct (nth_error parts i) eqn:Hi; cbn [bind];
  [ | exfalso; apply nth_error_None in Hi; apply Nat.ltb_ge in Hlen; lia ].

(** A candidate of quiz.py is parsed exactly when no line and no marker is
    missing. *)
Lemma parse_question_accepts (q : string) :
  (exists d, Quiz.parse_question q = Parsed d) <-> ~ missing_field q.
Proof.
  unfold Quiz.parse_question, missing_field. fold (candidate_lines q).
  set (parts := candidate_lines q).
  destruct (length parts <? 7)%nat eqn:Hlen.
  - split; [intros [d Hd]; discriminate|].
    intros Hwf. exfalso. apply Hwf. left. now apply Nat.ltb_lt.
  - split.
    + intros [d Hd] [Hshort | [[i m] [Hin Hmiss]]].
      * apply Nat.ltb_ge in Hlen. lia.
      * cbn [fst snd] in Hmiss. unfold marker_missing in Hmiss.
        destruct (nth_error parts 0) as [l0|] eqn:H0; cbn [bind] in Hd; [|discriminate].
        destruct (Quiz.after ". " l0) eqn:A0; cbn [bind] in Hd; [|discriminate].
        destruct (nth_error parts 1) as [l1|] eqn:H1; cbn [bind] in Hd; [|discriminate].
        destruct (Quiz.after "A) " l1) eqn:A1; cbn [bind] in Hd; [|discriminate].
        destruct (nth_error parts 2) as [l2|] eqn:H2; cbn [bind] in Hd; [|discriminate].
        destruct (Quiz.after "B) " l2) eqn:A2; cbn [bind] in Hd; [|discriminate].
        destruct (nth_error parts 3) as [l3|] eqn:H3; cbn [bind] in Hd; [|discriminate].
        destruct (Quiz.after "C) " l3) eqn:A3; cbn [bind] in Hd; [|discriminate].
        destruct (nth_error parts 4) as [l4|] eqn:H4; cbn [bind] in Hd; [|discriminate].
        destruct (Quiz.after "D) " l4) eqn:A4; cbn [bind] in Hd; [|discriminate].
        destruct (nth_error parts 5) as [l5|] eqn:H5; cbn [bind] in Hd; [|discriminate].
        destruct (Quiz.after "Correct: " l5) eqn:A5; cbn [bind] in Hd; [|discriminate].
        destruct (nth_error parts 6) as [l6|] eqn:H6; cbn [bind] in Hd; [|discriminate].
        destruct (Quiz.after "Explanation: " l6) eqn:A6; cbn [bind] in Hd; [|discriminate].
        simpl in Hin.
        repeat (destruct Hin as [[= <- <-] | Hin];
                [ eapply Hmiss; [eassumption | apply after_occurs; first [discriminate | congruence]] | ]).
        contradiction.
    + intros Hwf.
      line_present parts 0%nat Hlen H0. marker_present Hwf 0%nat ". " H0.
      line_present parts 1%nat Hlen H1. marker_present Hwf 1%nat "A) " H1.
      line_present parts 2%nat Hlen H2. marker_present Hwf 2%nat "B) " H2.
      line_present parts 3%nat Hlen H3. marker_present Hwf 3%nat "C) " H3.
      line_present parts 4%nat Hlen H4. marker_present Hwf 4%nat "D) " H4.
      line_present parts 5%nat Hlen H5. marker_present Hwf 5%nat "Correct: " H5.
      line_present parts 6%nat Hlen H6. marker_present Hwf 6%nat "Explanation: " H6.
      eexists. reflexivity.
Qed.

(** What a parsed dictionary of quiz.py holds. *)
Lemma parse_question_fields (q : string) (d : question_dict) :
  Quiz.parse_question q = Parsed d ->
  option_keys d = ["A"; "B"; "C"; "D"] /\
  code d = None /\
  exists line corr, nth_error (candidate_lines q) 5 = Some line /\
                    Quiz.after "Correct: " line = Some corr /\
                    correct d = Py.upper corr.
Proof.
  unfold Quiz.parse_question. fold (candidate_lines q).
  set (parts := candidate_lines q).
  destruct (length parts <? 7)%nat; [discriminate|].
  destruct (nth_error parts 0) as [l0|]; cbn [bind]; [|discriminate].
  destruct (Quiz.after ". " l0); cbn [bind]; [|discriminate].
  destruct (nth_error parts 1) as [l1|]; cbn [bind]; [|discriminate].
  destruct (Quiz.after "A) " l1); cbn [bind]; [|discriminate].
  destruct (nth_error parts 2) as [l2|]; cbn [bind]; [|discriminate].
  destruct (Quiz.after "B) " l2); cbn [bind]; [|discriminate].
  destruct (nth_error parts 3) as [l3|]; cbn [bind]; [|discriminate].
  destruct (Quiz.after "C) " l3); cbn [bind]; [|discriminate].
  destruct (nth_error parts 4) as [l4|]; cbn [bind]; [|discriminate].
  destruct (Quiz.after "D) " l4); cbn [bind]; [|discriminate].
  destruct (nth_error parts 5) as [l5|]; cbn [bind]; [|discriminate].
  destruct (Quiz.after "Correct: " l5) as [corr|] eqn:A5; cbn [bind]; [|discriminate].
  destruct (nth_error parts 6) as [l6|]; cbn [bind]; [|discriminate].
  destruct (Quiz.after "Explanation: " l6); cbn [bind]; [|discriminate].
  intros [= <-]. repeat split. exists l5, corr. now repeat split.
Qed.

(** What a parsed dictionary of quiz1.py holds. *)
Lemma parse_question1_fields (q : string) (d : question_dict) :
  Quiz1.parse_question q = Parsed d ->
  option_keys d = ["A"; "B"; "C"; "D"] /\
  code d = None /\
  exists line, nth_error (Quiz1.stripped_lines q) 5 = Some line /\
               correct d = Py.upper (Py.strip (Py.replace "Correct: " "" line)).
Proof.
  unfold Quiz1.parse_question.
  set (parts := Quiz1.stripped_lines q).
  destruct (length parts <? 7)%nat; [discriminate|].
  destruct (nth_error parts 0) as [l0|]; cbn [bind]; [|discriminate].
  destruct (nth_error parts 1) as [l1|]; cbn [bind]; [|discriminate].
  destruct (nth_error parts 2) as [l2|]; cbn [bind]; [|discriminate].
  destruct (nth_error parts 3) as [l3|]; cbn [bind]; [|discriminate].
  destruct (nth_error parts 4) as [l4|]; cbn [bind]; [|discriminate].
  destruct (nth_error parts 5) as [l5|]; cbn [bind]; [|discriminate].
  destruct (nth_error parts 6) as [l6|]; cbn [bind]; [|discriminate].
  intros [= <-]. repeat split. now exists l5.
Qed.

(** quiz1.py rejects a candidate only for its number of non-blank lines. *)
Lemma parse_question1_accepts (q : string) :
  (exists d, Quiz1.parse_question q = Parsed d) <->
  (7 <= length (Quiz1.stripped_lines q))%nat.
Proof.
  unfold Quiz1.parse_question.
  set (parts := Quiz1.stripped_lines q).
  destruct (length parts <? 7)%nat eqn:Hlen.
  - apply Nat.ltb_lt in Hlen. split; [intros [d Hd]; discriminate | lia].
  - split; [intros _; apply Nat.ltb_ge in Hlen; lia | intros _].
    line_present parts 0%nat Hlen H0. line_present parts 1%nat Hlen H1.
    line_present parts 2%nat Hlen H2. line_present parts 3%nat Hlen H3.
    line_present parts 4%nat Hlen H4. line_present parts 5%nat Hlen H5.
    line_present parts 6%nat Hlen H6.
    eexists. reflexivity.
Qed.

(** ** The parsing loop *)

Section LoopFacts.
Variable parse_one : string -> parsed.

Lemma parse_loop_app (l1 l2 : list string) :
  parse_loop parse_one (l1 ++ l2) =
  (fst (parse_loop parse_one l1) ++ fst (parse_loop parse_one l2),
   snd (parse_loop parse_one l1) ++ snd (parse_loop parse_one l2)).
Proof.
  induction l1 as [|q l1 IH]; simpl.
  - now destruct (parse_loop parse_one l2).
  - rewrite IH. destruct (parse_loop parse_one l1) as [qs1 out1].
    destruct (parse_one q); reflexivity.
Qed.

Lemma parse_loop_all_parsed (l : list string) :
  Forall (fun q => exists d, parse_one q = Parsed d) l ->
  Forall2 (fun q d => parse_one q = Parsed d) l (fst (parse_loop parse_one l)) /\
  snd (parse_loop parse_one l) = [].
Proof.
  induction 1 as [|q l [d Hd] _ [IH1 IH2]]; simpl; [now split|].
  destruct (parse_loop parse_one l) as [qs out]. rewrite Hd. simpl in *.
  split; [now constructor | assumption].
Qed.

Lemma parse_loop_one_rejected (q : string) :
  rejected (parse_one q) ->
  fst (parse_loop parse_one [q]) = [] /\ length (snd (parse_loop parse_one [q])) = 1%nat.
Proof. simpl. intros [-> | ->]; now split. Qed.

(** One rejected candidate among parsed ones: the others come out as they
    do without it, and one announcement is printed. *)
Lemma parse_loop_drops_one (before after : list string) (bad : string) :
  rejected (parse_one bad) ->
  Forall (fun q => exists d, parse_one q = Parsed d) (before ++ after) ->
  let r := parse_loop parse_one (before ++ bad :: after) in
  fst r = fst (parse_loop parse_one (before ++ after)) /\
  Forall2 (fun q d => parse_one q = Parsed d) (before ++ after) (fst r) /\
  rejected_count r = 1%nat.
Proof.
  intros Hbad Hall. cbv zeta.
  change (bad :: after) with ([bad] ++ after).
  unfold rejected_count. rewrite !parse_loop_app. cbn [fst snd].
  destruct (parse_loop_one_rejected bad Hbad) as [-> Hone].
  pose proof (parse_loop_all_parsed _ Hall) as [Hitems _].
  rewrite parse_loop_app in Hitems. cbn [fst] in Hitems.
  apply Forall_app in Hall as [Hb Ha].
  destruct (parse_loop_all_parsed _ Hb) as [_ ->].
  destruct (parse_loop_all_parsed _ Ha) as [_ ->].
  rewrite app_nil_r. cbn [app]. repeat split; assumption.
Qed.
End LoopFacts.

(** ** Claims about the parser *)

(** C5, as the code has it: a quiz.py candidate that lacks a line or whose
    line lacks its marker is rejected as a whole and adds nothing to the
    questions, and a candidate whose seven lines contain their markers
    anywhere is parsed; quiz1.py rejects exactly the candidates with fewer
    than seven non-blank lines. *)
Theorem candidate_rejected_as_a_whole (q : string) :
  (missing_field q ->
   rejected (Quiz.parse_question q) /\ fst (parse_loop Quiz.parse_question [q]) = []) /\
  (~ missing_field q -> exists d, Quiz.parse_question q = Parsed d) /\
  (rejected (Quiz1.parse_question q) <-> (length (Quiz1.stripped_lines q) < 7)%nat).
Proof.
  split; [|split].
  - intros Hm.
    assert (Hr : rejected (Quiz.parse_question q)).
    { destruct (parsed_or_rejected (Quiz.parse_question q)) as [Hd | Hr]; [|assumption].
      apply parse_question_accepts in Hd. contradiction. }
    split; [assumption | apply parse_loop_one_rejected; assumption].
  - apply parse_question_accepts.
  - pose proof (parse_question1_accepts q) as Hacc. split.
    + intros Hr. destruct (Nat.lt_ge_cases (length (Quiz1.stripped_lines q)) 7) as [|Hge];
        [assumption|].
      apply Hacc in Hge as [d Hd]. now apply rejected_not_parsed with (d := d) in Hr.
    + intros Hlt. destruct (parsed_or_rejected (Quiz1.parse_question q)) as [Hd | Hr];
        [|assumption].
      apply Hacc in Hd. lia.
Qed.

Lemma candidate_rejected_as_a_whole_witness :
  rejected (Quiz.parse_question "1. What is a list?") /\
  fst (parse_loop Quiz.parse_question ["1. What is a list?"]) = [].
Proof.
  apply (proj1 (candidate_rejected_as_a_whole "1. What is a list?")).
  left. vm_compute. lia.
Defined.

(** C5 as stated fails: an option line that does not begin with its marker
    is accepted by quiz.py, and quiz1.py accepts seven lines without any
    marker. *)
Lemma marker_not_at_line_start_accepted :
  Py.startswith "x A) 0" "A) " = false /\
  (exists d, Quiz.parse_question sample_shifted_marker = Parsed d /\
             options d = [("A", "0"); ("B", "1"); ("C", "None"); ("D", "an error")]) /\
  (exists d, Quiz1.parse_question sample_without_markers = Parsed d /\
             options d = [("A", ""); ("B", ""); ("C", "ee"); ("D", "r")] /\
             correct d = "B").
Proof.
  split; [reflexivity|].
  split; eexists; (split; [vm_compute; reflexivity|]); repeat split.
Qed.

(** ** The two threads of a question *)

Lemma loop_output_not_report (o : output) :
  is_loop_output o = true -> is_report o = false /\ is_header o = false.
Proof. destruct o; simpl; intros; (discriminate || now split). Qed.

Lemma loop_outputs_not_report (l : list output) :
  forallb is_loop_output l = true ->
  forallb (fun o => negb (is_report o)) l = true /\ headers l = [].
Proof.
  induction l as [|o l IH]; simpl; [now split|].
  intros [Ho Hl]%andb_prop. destruct (loop_output_not_report o Ho) as [-> Hh].
  destruct (IH Hl) as [-> IHh]. split; [reflexivity|].
  unfold headers in *. simpl. now rewrite Hh.
Qed.

(** ** The countdown thread ends *)

Lemma timer_step_progress (stops_timer : bool) (g : gate) :
  timer g <> TReturned ->
  (steps_left (timer (timer_step stops_timer g)) < steps_left (timer g))%nat.
Proof.
  unfold timer_step.
  destruct (timer g) as [[|r]|r|]; try destruct (timer_expired g);
    try destruct stops_timer; cbn [set_timer timer steps_left]; intros H;
    solve [lia | now elim H].
Qed.

Lemma run_timer_returns (stops_timer : bool) (fuel : nat) (g : gate) :
  (steps_left (timer g) <= fuel)%nat ->
  timer (run_timer stops_timer fuel g) = TReturned.
Proof.
  revert g; induction fuel as [|fuel IH]; intros g Hfuel; cbn [run_timer].
  - destruct (timer g); simpl in Hfuel; [lia | lia | reflexivity].
  - destruct (timer g) eqn:Ht; [| |exact Ht];
      apply IH;
      (assert (Hp : timer g <> TReturned) by (rewrite Ht; discriminate));
      apply (timer_step_progress stops_timer) in Hp; rewrite Ht in Hp; lia.
Qed.

(** [timer_thread.join()] comes back: the thread has returned. *)
Lemma join_returns (stops_timer : bool) (g : gate) :
  timer (join stops_timer g) = TReturned.
Proof. apply run_timer_returns. lia. Qed.

Lemma leftover_returned (stops_timer : bool) (g : gate) :
  timer g = TReturned -> leftover stops_timer g = [].
Proof.
  intros Ht. unfold leftover, join. rewrite Ht. cbn [steps_left run_timer].
  apply skipn_all.
Qed.

Section GateFacts.
Variable stops_timer : bool.

Lemma only_prints_refl (g : gate) : only_prints g g.
Proof. repeat split. exists []. now rewrite app_nil_r. Qed.

Lemma only_prints_trans (g1 g2 g3 : gate) :
  only_prints g1 g2 -> only_prints g2 g3 -> only_prints g1 g3.
Proof.
  intros (Hm1 & Hi1 & Ha1 & o1 & Hs1 & Ho1) (Hm2 & Hi2 & Ha2 & o2 & Hs2 & Ho2).
  repeat split; try congruence.
  exists (o1 ++ o2). now rewrite Hs2, Hs1, app_assoc, forallb_app, Ho1, Ho2.
Qed.

(** The countdown only prints, and only loop output. *)
Lemma timer_step_frame (g : gate) : only_prints g (timer_step stops_timer g).
Proof.
  unfold timer_step, only_prints.
  destruct (timer g) as [[|r]|r|]; try destruct (timer_expired g);
    cbn [set_timer main stdin answer shown]; repeat split;
    try (exists []; now rewrite app_nil_r);
    eexists; split; reflexivity.
Qed.

Lemma run_timer_frame (fuel : nat) (g : gate) :
  only_prints g (run_timer stops_timer fuel g).
Proof.
  revert g; induction fuel as [|fuel IH]; intros g; cbn [run_timer].
  - apply only_prints_refl.
  - assert (Hstep : only_prints g (run_timer stops_timer fuel (timer_step stops_timer g)))
      by (eapply only_prints_trans; [apply timer_step_frame | apply IH]).
    destruct (timer g); try exact Hstep. apply only_prints_refl.
Qed.

(** The interrupt handler: quiz1.py joins the countdown first. *)
Lemma handler_frame (b : bool) (g1 g2 : gate) :
  stdin g1 = stdin g2 -> shown g1 = shown g2 ->
  exists o, shown (if b then join stops_timer g1 else g2) = shown g2 ++ o /\
            forallb is_loop_output o = true /\
            stdin (if b then join stops_timer g1 else g2) = stdin g2 /\
            (b = true -> timer (if b then join stops_timer g1 else g2) = TReturned).
Proof.
  intros Hi Hs. destruct b.
  - destruct (run_timer_frame (steps_left (timer g1)) g1) as (_ & Hi1 & _ & o & Hs1 & Ho).
    exists o. unfold join at 1 2. rewrite Hs1, Hi1, Hs, Hi.
    repeat split; try assumption. intros _. apply join_returns.
  - exists []. rewrite app_nil_r. repeat split. discriminate.
Qed.

(** What the countdown thread prints when left to itself is loop output. *)
Lemma leftover_loop_output (g : gate) :
  forallb is_loop_output (leftover stops_timer g) = true.
Proof.
  unfold leftover, join.
  destruct (run_timer_frame (steps_left (timer g)) g) as (_ & _ & _ & o & Hs & Ho).
  rewrite Hs, skipn_app, skipn_all, Nat.sub_diag. exact Ho.
Qed.

Variables (out0 : list output) (keys : list key).

Lemma only_prints_open (g g' : gate) :
  only_prints g g' -> gate_open out0 keys g -> gate_open out0 keys g'.
Proof.
  intros (Hm1 & Hi1 & _ & o & Hs1 & Ho) (Hm & extra & lines & Hs & He & Hk).
  split; [now rewrite Hm1|].
  exists (extra ++ o), lines.
  now rewrite Hs1, Hs, app_assoc, forallb_app, He, Ho, Hi1.
Qed.

Lemma join_open (g : gate) :
  gate_open out0 keys g -> gate_open out0 keys (join stops_timer g).
Proof. apply only_prints_open, run_timer_frame. Qed.

Lemma main_step_open (g : gate) :
  gate_open out0 keys g ->
  gate_open out0 keys (main_step stops_timer g) \/
  gate_aborted stops_timer out0 keys (main_step stops_timer g).
Proof.
  intros Hg. pose proof Hg as (Hm & extra & lines & Hs & He & Hk).
  unfold main_step. destruct (main g) eqn:Hmain.
  - left. destruct (timer_expired g); (split; [discriminate|]); cbn [shown stdin].
    + now exists extra, lines.
    + exists (extra ++ [AnswerPrompt]), lines.
      rewrite Hs, app_assoc, forallb_app, He. now repeat split.
  - destruct (stdin g) as [|[s|] rest] eqn:Hin; rewrite ?Hin in Hk.
    + now left.
    + left. destruct (Py.in_list _ valid_choices); (split; [discriminate|]);
        cbn [shown stdin].
      * exists extra, (lines ++ [s]). rewrite map_app, <- (app_assoc (map Line lines)).
        now repeat split.
      * exists (extra ++ [InvalidChoice]), (lines ++ [s]).
        rewrite Hs, app_assoc, forallb_app, He, map_app, <- (app_assoc (map Line lines)).
        now repeat split.
    + right. split; [reflexivity|]. cbn [shown stdin timer].
      match goal with
      | |- context [if stops_timer then join stops_timer ?g1 else ?g2] =>
          destruct (handler_frame stops_timer g1 g2 eq_refl eq_refl)
            as (o & Hs1 & Ho & Hi1 & Ht1)
      end.
      cbn [shown stdin] in Hs1, Hi1.
      split; [exact Ht1|].
      exists (extra ++ o), lines.
      rewrite Hs1, Hi1, Hs, forallb_app, He, Ho, <- !app_assoc. now repeat split.
  - now left.
  - now left.
Qed.

Lemma step_open (t : thread) (g : gate) :
  gate_open out0 keys g ->
  gate_open out0 keys (step stops_timer t g) \/
  gate_aborted stops_timer out0 keys (step stops_timer t g).
Proof.
  destruct t; cbn [step]; [apply main_step_open|].
  left. eapply only_prints_open; [apply timer_step_frame | assumption].
Qed.

Lemma run_gate_stopped (sched : list thread) (g : gate) :
  main g = Interrupted \/ main g = PastLoop -> run_gate stops_timer sched g = g.
Proof. destruct sched; cbn [run_gate]; [reflexivity|]. now intros [-> | ->]. Qed.

Lemma run_gate_open (sched : list thread) (g : gate) :
  gate_open out0 keys g ->
  gate_open out0 keys (run_gate stops_timer sched g) \/
  gate_aborted stops_timer out0 keys (run_gate stops_timer sched g).
Proof.
  revert g; induction sched as [|t sched IH]; intros g Hg; cbn [run_gate]; [now left|].
  destruct (main g) eqn:Hmain; try now left.
  - destruct (step_open t g Hg) as [Ho | Ha]; [now apply IH|].
    right. rewrite run_gate_stopped; [assumption | left; apply Ha].
  - destruct (step_open t g Hg) as [Ho | Ha]; [now apply IH|].
    right. rewrite run_gate_stopped; [assumption | left; apply Ha].
Qed.

Lemma start_gate_open (t : nat) :
  gate_open out0 keys (start_gate t keys out0).
Proof.
  split; [discriminate|]. exists [], []. cbn. now rewrite app_nil_r.
Qed.
End GateFacts.

(** ** The question loop *)

Lemma show_question_outputs (i : nat) (num_questions : Z) (q : question_dict) :
  headers (show_question i num_questions q) = [QuestionHeader i num_questions] /\
  forallb (fun o => negb (is_report o)) (show_question i num_questions q) = true.
Proof.
  unfold show_question, headers. cbn [filter is_header forallb is_report negb andb].
  rewrite filter_app, forallb_app.
  assert (Hopt : forall l : list (string * string),
            filter is_header (map (fun ot => OptionLine (fst ot) (snd ot)) l) = [] /\
            forallb (fun o => negb (is_report o))
              (map (fun ot => OptionLine (fst ot) (snd ot)) l) = true)
    by (induction l as [|x l [IH1 IH2]]; simpl; now split).
  destruct (Hopt (options q)) as [-> ->].
  destruct (code q) as [c|]; [destruct (String.eqb c "")|]; now split.
Qed.

Lemma headers_from_cons (i n : nat) (num_questions : Z) :
  headers_from i (S n) num_questions
  = QuestionHeader i num_questions :: headers_from (S i) n num_questions.
Proof. reflexivity. Qed.

Section AskFacts.
Variables (stops_timer : bool) (time_per_question : nat) (num_questions : Z).

(** What the loop has done when it stops: the lines it added are not
    report lines and what it read before an interrupt are lines; after all
    questions, one header and one answer each; after an interrupt, the
    termination notice is the last line and the interrupted question the
    last one presented. *)
Lemma ask_spec (questions : list question_dict) :
  forall (i : nat) (scheds : list (list thread)) (st st' : session) (e : loop_end),
  ask stops_timer time_per_question num_questions i questions scheds st = (st', e) ->
  exists extra lines,
    display st' = display st ++ extra /\
    forallb (fun o => negb (is_report o)) extra = true /\
    keyboard st = map Line lines ++ interrupt_read e ++ keyboard st' /\
    match e with
    | AllAsked =>
        headers extra = headers_from i (length questions) num_questions /\
        length (answers st') = (length (answers st) + length questions)%nat
    | Aborted later =>
        (exists before, extra = before ++ [QuizTerminatedByUser]) /\
        (exists k, (k < length questions)%nat /\
                   length (answers st') = (length (answers st) + k)%nat /\
                   headers extra = headers_from i (S k) num_questions) /\
        forallb is_loop_output later = true /\
        (stops_timer = true -> later = [])
    | Waiting => True
    end.
Proof.
  induction questions as [|q rest IH]; intros i scheds st st' e; cbn [ask].
  - intros [= <- <-]. exists [], []. rewrite app_nil_r. cbn. repeat split. lia.
  - set (out0 := display st ++ show_question i num_questions q).
    set (g := run_gate stops_timer (hd [] scheds)
                (start_gate time_per_question (keyboard st) out0)).
    destruct (show_question_outputs i num_questions q) as [Hhead Hshow].
    assert (Hg : gate_open out0 (keyboard st) g \/
                 gate_aborted stops_timer out0 (keyboard st) g)
      by apply run_gate_open, start_gate_open.
    destruct Hg as [Hopen | Habort].
    + pose proof (join_open stops_timer out0 (keyboard st) g Hopen) as Hjoin.
      destruct Hopen as (Hm & ex & lines & Hs & Hex & Hk).
      destruct (loop_outputs_not_report ex Hex) as [Hrep Hhd].
      assert (Hwait : forall sc an,
                exists (extra : list output) (lines0 : list string),
                  display {| score := sc; answers := an; display := shown g;
                             keyboard := stdin g |} = display st ++ extra /\
                  forallb (fun o => negb (is_report o)) extra = true /\
                  keyboard st = map Line lines0 ++ interrupt_read Waiting ++ stdin g /\
                  True).
      { intros sc an. exists (show_question i num_questions q ++ ex), lines.
        cbn [display interrupt_read app]. rewrite Hs. unfold out0.
        now rewrite <- app_assoc, forallb_app, Hshow, Hrep. }
      destruct (main g) eqn:Hmain.
      * intros [= <- <-]. apply Hwait.
      * intros [= <- <-]. apply Hwait.
      * clear Hwait. intros Hask.
        destruct Hjoin as (_ & exj & linesj & Hsj & Hexj & Hkj).
        destruct (loop_outputs_not_report exj Hexj) as [Hrepj Hhdj].
        apply IH in Hask as (extra & lines2 & Hd & Hnr & Hkeys & Hend).
        cbn [display answers keyboard] in Hd, Hend, Hkeys.
        exists (show_question i num_questions q ++ exj ++ extra), (linesj ++ lines2).
        split; [rewrite Hd, Hsj; unfold out0; now rewrite <- !app_assoc|].
        split; [now rewrite !forallb_app, Hshow, Hrepj, Hnr|].
        split; [now rewrite Hkj, Hkeys, map_app, <- app_assoc|].
        assert (Hheads : headers (show_question i num_questions q ++ exj ++ extra)
                         = QuestionHeader i num_questions :: headers extra).
        { unfold headers in *. now rewrite !filter_app, Hhead, Hhdj. }
        destruct e.
        -- destruct Hend as (Hh & Hlen).
           rewrite Hheads, Hh, Hlen, length_app. cbn [length]. repeat split. lia.
        -- destruct Hend as ([before Hb] & (k & Hlt & Hlen & Hh) & Hlater).
           split; [exists (show_question i num_questions q ++ exj ++ before);
                   now rewrite Hb, <- !app_assoc|].
           split; [|exact Hlater].
           exists (S k). rewrite Hheads, Hh, Hlen, length_app. cbn [length].
           repeat split; lia.
        -- exact I.
      * contradiction.
    + destruct Habort as (Hm & Hret & ex & lines & Hs & Hex & Hk).
      destruct (loop_outputs_not_report ex Hex) as [Hrep Hhd].
      rewrite Hm. intros [= <- <-]. cbn [display answers keyboard interrupt_read app].
      exists (show_question i num_questions q ++ ex ++ [QuizTerminatedByUser]), lines.
      split; [rewrite Hs; unfold out0; now rewrite <- app_assoc|].
      split; [now rewrite !forallb_app, Hshow, Hrep|].
      split; [assumption|].
      split; [exists (show_question i num_questions q ++ ex); now rewrite <- app_assoc|].
      split; [|split; [apply leftover_loop_output
                      | intros Hst; apply leftover_returned, Hret, Hst]].
      exists 0%nat. cbn [length]. repeat split; try lia.
      unfold headers in *. now rewrite !filter_app, Hhead, Hhd.
Qed.
End AskFacts.

(** ** Prompts and lines read while a question is open *)



Section Reading.
Variable stops_timer : bool.



Variables (out0 : list output) (keys : list key).






End Reading.


(** ** run_quiz *)

Lemma parse_message_plain (l : list output) :
  forallb is_parse_message l = true ->
  headers l = [] /\ forallb (fun o => negb (is_report o)) l = true.
Proof.
  induction l as [|o l IH]; simpl; [now split|].
  intros [Ho Hl]%andb_prop. destruct (IH Hl) as [IH1 IH2].
  unfold headers in *. destruct o; try discriminate; simpl; now split.
Qed.

Lemma parse_loop_messages (parse_one : string -> parsed) (l : list string) :
  forallb is_parse_message (snd (parse_loop parse_one l)) = true.
Proof.
  induction l as [|q l IH]; simpl; [reflexivity|].
  destruct (parse_loop parse_one l) as [qs out]. now destruct (parse_one q).
Qed.


Lemma quiz1_prints_parse_messages : prints_parse_messages Quiz1.generate_quiz.
Proof.
  intros response qs msgs. unfold Quiz1.generate_quiz.
  destruct (String.eqb response ""); [discriminate|].
  destruct (Py.partition "Q1." response); [|discriminate].
  intros [= H]. pose proof (parse_loop_messages Quiz1.parse_question (Quiz1.raw_questions response)) as Hm.
  now rewrite H in Hm.
Qed.

Lemma feedback_headers (l : list answer_dict) : headers (flat_map feedback l) = [].
Proof.
  induction l as [|a l IH]; [reflexivity|].
  unfold headers in *. cbn [flat_map]. rewrite filter_app, IH.
  unfold feedback. cbn [filter is_header]. now destruct (String.eqb _ _).
Qed.


Lemma level_has_time_limit (level : string) :
  Py.in_list level difficulty_levels = true -> time_limits level <> None.
Proof.
  unfold time_limits, difficulty_levels, Py.in_list. cbn [existsb].
  destruct (String.eqb level "beginner"); [discriminate|].
  destruct (String.eqb level "intermediate"); [discriminate|].
  destruct (String.eqb level "advanced"); [discriminate|]. discriminate.
Qed.

Section RunFacts.
Variable stops_timer : bool.
Variable generate_quiz : string -> option (list question_dict * list output).
Hypothesis generate_quiz_messages : prints_parse_messages generate_quiz.

Variables (response_text : string) (scheds : list (list thread)) (keys : list key).
Variables (topic level : string) (num_questions : Z).

End RunFacts.

(** ** The retrying generator of quiz3.py and quiz5.py *)

Lemma generate_retrying_short (snippets : bool) (model : nat -> string) (num_questions : Z) :
  always_short snippets model num_questions ->
  forall fuel call,
    outcome (generate_retrying snippets fuel model call num_questions) = RecursionError /\
    calls (generate_retrying snippets fuel model call num_questions) = fuel.
Proof.
  intros Hshort. induction fuel as [|fuel IH]; intros call; cbn [generate_retrying].
  - now split.
  - destruct (Hshort call) as [Hne Hlt].
    destruct (String.eqb_spec (model call) ""); [contradiction|].
    destruct (parse_loop _ _) as [questions msgs]. cbn [fst] in Hlt.
    apply Z.ltb_lt in Hlt. rewrite Hlt. cbn [outcome calls].
    destruct (IH (S call)) as [-> ->]. now split.
Qed.

Lemma no_questions_always_short (snippets : bool) : always_short snippets no_questions 1.
Proof. intros n. split; [discriminate | destruct snippets; vm_compute; reflexivity]. Qed.

(** C3, as the code has it: quiz3.py and quiz5.py call [generate_quiz] again
    whenever fewer than [num_questions] questions were parsed, without
    counting the attempts and without an error of their own.  If the service
    never yields enough, the attempts are as many as the interpreter's
    recursion limit leaves room for, whatever that number is, and the call
    then ends in the interpreter's [RecursionError]. *)
Theorem retry_ends_in_recursion_error (model : nat -> string) (num_questions : Z)
    (fuel : nat) :
  (always_short true model num_questions ->
   outcome (Quiz3.generate_quiz fuel model num_questions) = RecursionError /\
   calls (Quiz3.generate_quiz fuel model num_questions) = fuel) /\
  (forall level,
     Py.in_list level difficulty_levels = true ->
     always_short (Quiz5.snippets_for level) model num_questions ->
     outcome (Quiz5.generate_quiz fuel model level num_questions) = RecursionError /\
     calls (Quiz5.generate_quiz fuel model level num_questions) = fuel).
Proof.
  split.
  - intros Hshort. now apply generate_retrying_short.
  - intros level Hlevel Hshort. unfold Quiz5.generate_quiz. rewrite Hlevel.
    now apply generate_retrying_short.
Qed.

Lemma retry_ends_in_recursion_error_witness :
  outcome (Quiz3.generate_quiz 7 no_questions 1) = RecursionError /\
  calls (Quiz3.generate_quiz 7 no_questions 1) = 7%nat.
Proof.
  apply (proj1 (retry_ends_in_recursion_error no_questions 1 7)).
  intros n. split; [discriminate | vm_compute; reflexivity].
Defined.

(** C3 as stated fails: with a service that never yields a question, the
    call does not stop at an attempt count of its own and does not end in an
    error of its own.  Where the interpreter leaves room for 500 nested
    calls, 500 requests are sent, where it leaves room for 1000, 1000 are,
    and so for any depth; what ends the call is the [RecursionError] of the
    interpreter, in quiz3.py and in quiz5.py. *)
Lemma retry_limited_by_interpreter_only :
  (outcome (Quiz3.generate_quiz 500 no_questions 1) = RecursionError /\
   calls (Quiz3.generate_quiz 500 no_questions 1) = 500%nat) /\
  (outcome (Quiz3.generate_quiz 1000 no_questions 1) = RecursionError /\
   calls (Quiz3.generate_quiz 1000 no_questions 1) = 1000%nat) /\
  (forall fuel,
     outcome (Quiz3.generate_quiz fuel no_questions 1) = RecursionError /\
     calls (Quiz3.generate_quiz fuel no_questions 1) = fuel /\
     outcome (Quiz5.generate_quiz fuel no_questions "beginner" 1) = RecursionError /\
     calls (Quiz5.generate_quiz fuel no_questions "beginner" 1) = fuel).
Proof.
  assert (H : forall fuel,
            outcome (Quiz3.generate_quiz fuel no_questions 1) = RecursionError /\
            calls (Quiz3.generate_quiz fuel no_questions 1) = fuel /\
            outcome (Quiz5.generate_quiz fuel no_questions "beginner" 1) = RecursionError /\
            calls (Quiz5.generate_quiz fuel no_questions "beginner" 1) = fuel).
  { intros fuel.
    destruct (generate_retrying_short true no_questions 1 (no_questions_always_short true)
                fuel 0) as [H1 H2].
    destruct (generate_retrying_short false no_questions 1 (no_questions_always_short false)
                fuel 0) as [H3 H4].
    repeat split; assumption. }
  split; [|split]; [| |exact H].
  - destruct (H 500%nat) as (H1 & H2 & _). now split.
  - destruct (H 1000%nat) as (H1 & H2 & _). now split.
Qed.

(** The retry ends as soon as a response yields enough questions: the
    parsed questions of that response are returned. *)
Lemma retry_returns_first_sufficient (snippets : bool) (model : nat -> string)
    (num_questions : Z) (k : nat) :
  (forall n, (n <= k)%nat -> model n <> "") ->
  (forall n, (n < k)%nat ->
     (Z.of_nat (length (fst (parse_loop (parse_snippet_question snippets)
                               (Quiz.raw_questions (model n))))) < num_questions)%Z) ->
  (num_questions <= Z.of_nat (length (fst (parse_loop (parse_snippet_question snippets)
                                             (Quiz.raw_questions (model k))))))%Z ->
  forall fuel, (k < fuel)%nat ->
    outcome (generate_retrying snippets fuel model 0 num_questions)
    = Questions (fst (parse_loop (parse_snippet_question snippets)
                        (Quiz.raw_questions (model k)))) /\
    calls (generate_retrying snippets fuel model 0 num_questions) = S k.
Proof.
  intros Hne Hshort Henough.
  assert (H : forall j fuel call, (call + j = k)%nat -> (j < fuel)%nat ->
            outcome (generate_retrying snippets fuel model call num_questions)
            = Questions (fst (parse_loop (parse_snippet_question snippets)
                                (Quiz.raw_questions (model k)))) /\
            calls (generate_retrying snippets fuel model call num_questions) = S j).
  { induction j as [|j IH]; intros fuel call Hk Hf;
      (destruct fuel as [|fuel]; [lia|]); cbn [generate_retrying];
      (destruct (String.eqb_spec (model call) "") as [He|_];
       [exfalso; apply (Hne call); [lia | exact He]|]).
    - replace call with k in * by lia.
      destruct (parse_loop _ _) as [questions msgs]. cbn [fst] in *.
      apply Z.ltb_ge in Henough. rewrite Henough. now split.
    - specialize (Hshort call ltac:(lia)).
      destruct (parse_loop _ (Quiz.raw_questions (model call))) as [questions msgs].
      cbn [fst] in Hshort. apply Z.ltb_lt in Hshort. rewrite Hshort. cbn [outcome calls].
      destruct (IH fuel (S call) ltac:(lia) ltac:(lia)) as [-> ->]. now split. }
  intros fuel Hf. apply H; [reflexivity | assumption].
Qed.

(** ** Claims about the session *)

Lemma Qle_bool_false (a b : Q) : (b < a)%Q -> Qle_bool a b = false.
Proof.
  intros Hlt. destruct (Qle_bool a b) eqn:H; [|reflexivity].
  apply Qle_bool_iff in H. now apply Qlt_not_le in Hlt.
Qed.

(** C8: the analysis picks the highest threshold the percentage reaches: 90
    and more is "excellent", 70 and more "good job", 50 and more "need more
    practice", anything lower "review"; two right answers out of four make
    50 percent and "need more practice" (in quiz.py and in quiz1.py). *)
Theorem tier_by_thresholds (topic : string) (p : Q) :
  ((90 <= p)%Q -> analysis topic p = Excellent topic) /\
  ((70 <= p)%Q -> (p < 90)%Q -> analysis topic p = GoodJob) /\
  ((50 <= p)%Q -> (p < 70)%Q -> analysis topic p = NeedMorePractice topic) /\
  ((p < 50)%Q -> analysis topic p = ReviewConcepts topic) /\
  (exists half, percentage 2 4 = Some half /\ (half == 50)%Q /\
                analysis topic half = NeedMorePractice topic) /\
  (forall quiz1,
     exists half, ending_of (two_of_four quiz1) = Completed half /\ (half == 50)%Q /\
                  score_of (two_of_four quiz1) = 2%Z /\
                  In (ScoreLine 2 4) (output_of (two_of_four quiz1)) /\
                  last (output_of (two_of_four quiz1)) GoodJob = NeedMorePractice "loops").
Proof.
  unfold analysis. repeat split.
  - intros H. apply Qle_bool_iff in H. now rewrite H.
  - intros H70 H90. apply Qle_bool_iff in H70. now rewrite (Qle_bool_false _ _ H90), H70.
  - intros H50 H70. apply Qle_bool_iff in H50.
    assert (H90 : (p < 90)%Q) by (eapply Qlt_trans; [exact H70 | reflexivity]).
    now rewrite (Qle_bool_false _ _ H90), (Qle_bool_false _ _ H70), H50.
  - intros H50.
    assert (H70 : (p < 70)%Q) by (eapply Qlt_trans; [exact H50 | reflexivity]).
    assert (H90 : (p < 90)%Q) by (eapply Qlt_trans; [exact H70 | reflexivity]).
    now rewrite (Qle_bool_false _ _ H90), (Qle_bool_false _ _ H70), (Qle_bool_false _ _ H50).
  - exists (200 # 4)%Q. repeat split.
  - intros quiz1. exists (200 # 4)%Q.
    destruct quiz1; (split; [vm_compute; reflexivity|]); (split; [reflexivity|]);
      (split; [vm_compute; reflexivity|]); (split; [vm_compute; tauto | vm_compute; reflexivity]).
Qed.

(** The loop shows its first question before anything else. *)
Lemma ask_shows_first (stops_timer : bool) (t : nat) (num_questions : Z) (i : nat)
    (q : question_dict) (rest : list question_dict) (scheds : list (list thread))
    (st st' : session) (e : loop_end) :
  ask stops_timer t num_questions i (q :: rest) scheds st = (st', e) ->
  exists more, display st' = display st ++ show_question i num_questions q ++ more.
Proof.
  cbn [ask].
  set (out0 := display st ++ show_question i num_questions q).
  set (g := run_gate stops_timer (hd [] scheds) (start_gate t (keyboard st) out0)).
  assert (Hg : gate_open out0 (keyboard st) g \/
               gate_aborted stops_timer out0 (keyboard st) g)
    by apply run_gate_open, start_gate_open.
  assert (Hshown : exists ex, shown g = out0 ++ ex).
  { destruct Hg as [(_ & ex & l & Hs & _) | (_ & _ & ex & l & Hs & _)]; eauto. }
  destruct Hshown as [ex Hs].
  destruct (main g) eqn:Hmain;
    try (intros [= <- <-]; cbn [display]; exists ex; rewrite Hs; unfold out0;
         now rewrite <- app_assoc).
  intros Hask. apply ask_spec in Hask as (extra & _ & Hd & _).
  cbn [display] in Hd.
  destruct (run_timer_frame stops_timer (steps_left (timer g)) g) as (_ & _ & _ & o & Hj & _).
  exists (ex ++ o ++ extra). rewrite Hd. unfold join. rewrite Hj, Hs. unfold out0.
  now rewrite <- !app_assoc.
Qed.

(** C7, as the code has it: [run_quiz] of quiz.py refuses a level that is
    not beginner, intermediate or advanced (in any letter case) by printing
    the notice and returning, before anything is generated or asked; it does
    not look at the count: with a valid level and a generated question, the
    first question is shown under any count. *)
Theorem run_quiz_checks_level_only (response_text : string) (scheds : list (list thread))
    (keys : list key) (topic level : string) (num_questions : Z) :
  (Py.in_list (Py.lower level) difficulty_levels = false ->
   Quiz.run_quiz response_text scheds keys topic level num_questions
   = {| ending_of := InvalidLevel; output_of := [InvalidDifficulty];
        score_of := 0; answers_of := []; unread := keys; printed_later := [] |}) /\
  (Py.in_list (Py.lower level) difficulty_levels = true ->
   forall q questions msgs,
     Quiz.generate_quiz response_text = Some (q :: questions, msgs) ->
     exists more,
       output_of (Quiz.run_quiz response_text scheds keys topic level num_questions)
       = GeneratingQuiz level topic :: msgs ++ show_question 1 num_questions q ++ more).
Proof.
  unfold Quiz.run_quiz, run_quiz. split; intros Hlevel.
  - now rewrite Hlevel.
  - intros q questions msgs Hgen. rewrite Hlevel, Hgen. cbn [negb].
    destruct (time_limits (Py.lower level)) as [t|] eqn:Ht;
      [|now apply level_has_time_limit in Hlevel].
    destruct (ask false t num_questions 1 (q :: questions) scheds _) as [st e] eqn:Hask.
    apply ask_shows_first in Hask as [more Hd]. cbn [display] in Hd.
    destruct e; cbn [stopped output_of].
    + unfold report. destruct (percentage (score st) num_questions);
        cbn [stopped output_of]; rewrite Hd; eexists;
        cbn [app]; rewrite <- !app_assoc; reflexivity.
    + exists more. now rewrite Hd.
    + exists more. now rewrite Hd.
Qed.

Lemma run_quiz_checks_level_only_witness :
  Quiz.run_quiz (quiz_text ["b"]) [prompt_answer] [Line "b"] "loops" "expert" 1
  = {| ending_of := InvalidLevel; output_of := [InvalidDifficulty];
       score_of := 0; answers_of := []; unread := [Line "b"]; printed_later := [] |}.
Proof.
  apply (proj1 (run_quiz_checks_level_only (quiz_text ["b"]) [prompt_answer] [Line "b"]
                  "loops" "expert" 1)).
  reflexivity.
Defined.

(** C7 as stated fails: with a count of zero the session starts and runs to
    the report, where the division raises; with a count of minus one it
    runs to the end. *)
Lemma nonpositive_count_starts_session :
  ending_of (two_answered 0) = ZeroDivisionError /\
  headers (output_of (two_answered 0)) = [QuestionHeader 1 0; QuestionHeader 2 0] /\
  length (answers_of (two_answered 0)) = 2%nat /\
  ending_of (two_answered (-1)) = Completed (-200 # 1) /\
  headers (output_of (two_answered (-1))) = [QuestionHeader 1 (-1); QuestionHeader 2 (-1)].
Proof. vm_compute. repeat split. Qed.

(** C1 on the code: nothing is typed during the thirty seconds of the
    question, the countdown announces that the time is up, and the answer
    typed afterwards is taken as the answer to this question and scored, in
    quiz.py and in quiz1.py alike; as long as nothing is typed, the session
    waits and no outcome is recorded. *)
Theorem late_answer_is_accepted (quiz1 : bool) :
  In TimesUp (output_of (one_question quiz1 (late_answer 30) [Line "b"])) /\
  user_answer (hd {| question_num := 0; user_answer := ""; correct_answer := "";
                     answer_explanation := "" |}
                 (answers_of (one_question quiz1 (late_answer 30) [Line "b"]))) = "B" /\
  score_of (one_question quiz1 (late_answer 30) [Line "b"]) = 1%Z /\
  ending_of (one_question quiz1 (late_answer 30) []) = WaitingForInput /\
  In TimesUp (output_of (one_question quiz1 (late_answer 30) [])) /\
  answers_of (one_question quiz1 (late_answer 30) []) = [].
Proof.
  destruct quiz1; vm_compute; repeat split;
    repeat (try (left; reflexivity); right).
Qed.

(** C2 on the code: the operator types X in the last second, the countdown
    runs out before the loop tests the flag again, and X is the recorded
    answer; the same when X is typed after the time is up.  (quiz.py and
    quiz1.py; quiz3.py and quiz5.py have the loop of quiz.py.) *)
Theorem invalid_answer_is_recorded (quiz1 : bool) :
  map user_answer (answers_of (one_question quiz1 (last_second_answer 30) [Line "x"])) = ["X"] /\
  In InvalidChoice (output_of (one_question quiz1 (last_second_answer 30) [Line "x"])) /\
  In (YourAnswer "X") (output_of (one_question quiz1 (last_second_answer 30) [Line "x"])) /\
  map user_answer (answers_of (one_question quiz1 (late_answer 30) [Line "x"])) = ["X"] /\
  Py.in_list "X" ("TIMEOUT" :: valid_choices) = false.
Proof.
  destruct quiz1; vm_compute; repeat split;
    repeat (try (left; reflexivity); right).
Qed.

(** ** More about strings: stripping, and splitting what was joined *)

Lemma lstrip_length (s : string) : (String.length (Py.lstrip s) <= String.length s)%nat.
Proof.
  induction s as [|c s IH]; simpl; [lia|]. destruct (Py.isspace c); simpl; lia.
Qed.

Lemma lstrip_fixed_head (c : ascii) (s : string) :
  Py.lstrip (String c s) = String c s -> Py.isspace c = false.
Proof.
  simpl. destruct (Py.isspace c); [|reflexivity].
  intros H. pose proof (lstrip_length s) as Hl. rewrite H in Hl. simpl in Hl. lia.
Qed.

Lemma lstrip_idempotent (s : string) : Py.lstrip (Py.lstrip s) = Py.lstrip s.
Proof.
  induction s as [|c s IH]; simpl; [reflexivity|].
  destruct (Py.isspace c) eqn:Hc; [exact IH | simpl; now rewrite Hc].
Qed.

Lemma rstrip_idempotent (s : string) : Py.rstrip (Py.rstrip s) = Py.rstrip s.
Proof.
  induction s as [|c s IH]; [reflexivity|]. cbn [Py.rstrip].
  destruct (Py.rstrip s) as [|c' r] eqn:Hr.
  - destruct (Py.isspace c) eqn:Hc; [reflexivity|]. cbn [Py.rstrip]. now rewrite Hc.
  - cbn [Py.rstrip] in *. now rewrite IH.
Qed.

Lemma lstrip_rstrip (s : string) :
  Py.lstrip s = s -> Py.lstrip (Py.rstrip s) = Py.rstrip s.
Proof.
  destruct s as [|c s]; [reflexivity|]. intros H%lstrip_fixed_head.
  cbn [Py.rstrip]. destruct (Py.rstrip s); [rewrite H|]; simpl; now rewrite H.
Qed.

(** [strip] leaves nothing to strip. *)
Lemma strip_idempotent (s : string) : Py.strip (Py.strip s) = Py.strip s.
Proof.
  unfold Py.strip. rewrite (lstrip_rstrip (Py.lstrip s) (lstrip_idempotent s)).
  apply rstrip_idempotent.
Qed.

Lemma strip_fixed (s : string) :
  Py.strip s = s -> Py.lstrip s = s /\ Py.rstrip s = s.
Proof.
  intros H. split.
  - rewrite <- H at 1. unfold Py.strip.
    now rewrite (lstrip_rstrip (Py.lstrip s) (lstrip_idempotent s)).
  - rewrite <- H at 1. unfold Py.strip. now rewrite rstrip_idempotent.
Qed.

Lemma rstrip_append (s t : string) :
  Py.rstrip t = t -> t <> "" -> Py.rstrip (s ++ t)%string = (s ++ t)%string.
Proof.
  intros Ht Hne. induction s as [|c s IH]; [exact Ht|].
  cbn [append Py.rstrip]. rewrite IH.
  destruct (s ++ t)%string eqn:E; [|reflexivity].
  destruct s; [now elim Hne | discriminate].
Qed.

Lemma lstrip_append (s t : string) :
  Py.lstrip s = s -> s <> "" -> Py.lstrip (s ++ t)%string = (s ++ t)%string.
Proof.
  destruct s as [|c s]; [now intros _ H; elim H|].
  intros H%lstrip_fixed_head _. simpl. now rewrite H.
Qed.

Lemma free_of_cons (c a : ascii) (s : string) :
  free_of c (String a s) -> a <> c /\ free_of c s.
Proof.
  intros H. split.
  - intros ->. apply H. now exists "", s.
  - intros (pre & post & ->). apply H. now exists (String a pre), post.
Qed.

Lemma prefix_head (c a : ascii) (sep s : string) :
  a <> c -> prefix (String c sep) (String a s) = false.
Proof. intros H. simpl. destruct (ascii_dec c a); [now subst | reflexivity]. Qed.

(** The leftmost cut of [a ++ sep ++ b] is after [a] when the first character
    of [sep] is not in [a]. *)
Lemma partition_append (c : ascii) (sep a b : string) :
  free_of c a ->
  Py.partition (String c sep) (a ++ String c sep ++ b)%string = Some (a, b).
Proof.
  remember (String c sep ++ b)%string as rest eqn:Hrest.
  induction a as [|x a IH]; intros Hfree; rewrite partition_eq.
  - assert (Hp : prefix (String c sep) rest = true)
      by (apply prefix_append; now exists b).
    cbn [append]. rewrite Hp, Hrest. now rewrite drop_append.
  - apply free_of_cons in Hfree as [Hx Hfree]. cbn [append].
    rewrite (prefix_head c x sep _ Hx), (IH Hfree). reflexivity.
Qed.

Lemma free_of_partition (c : ascii) (s : string) :
  free_of c s -> Py.partition (String c EmptyString) s = None.
Proof.
  intros H. destruct (Py.partition (String c "") s) eqn:E; [|reflexivity].
  exfalso. apply H, occurs_partition. congruence.
Qed.

Lemma split_fuel_whole (fuel : nat) (sep s : string) :
  ~ occurs sep s -> Py.split_fuel fuel sep s = [s].
Proof.
  intros H. destruct fuel; [reflexivity|]. cbn [Py.split_fuel].
  destruct (Py.partition sep s) eqn:E; [|reflexivity].
  exfalso. apply H, occurs_partition. congruence.
Qed.

(** Splitting at a character what was joined by it gives the pieces back,
    when the character is in none of them. *)
Lemma split_fuel_join (c : ascii) (l : string) (ls : list string) :
  Forall (free_of c) (l :: ls) ->
  forall fuel, (String.length (Py.join (String c "") (l :: ls)) <= fuel)%nat ->
    Py.split_fuel fuel (String c "") (Py.join (String c "") (l :: ls)) = l :: ls.
Proof.
  revert l; induction ls as [|l2 ls IH]; intros l Hfree fuel Hfuel.
  - cbn [Py.join String.concat]. apply split_fuel_whole. now inversion Hfree.
  - change (Py.join (String c "") (l :: l2 :: ls))
      with (l ++ String c "" ++ Py.join (String c "") (l2 :: ls))%string in *.
    rewrite !length_append in Hfuel. cbn [String.length] in Hfuel.
    destruct fuel as [|fuel]; [lia|]. cbn [Py.split_fuel].
    inversion Hfree as [|? ? Hl Hrest]; subst.
    rewrite (partition_append c "" l _ Hl). f_equal. apply IH; [assumption | lia].
Qed.

Lemma split_join (c : ascii) (l : string) (ls : list string) :
  Forall (free_of c) (l :: ls) ->
  Py.split (String c "") (Py.join (String c "") (l :: ls)) = l :: ls.
Proof. intros H. unfold Py.split. now apply split_fuel_join. Qed.

Lemma free_of_append (c : ascii) (s t : string) :
  free_of c s -> free_of c t -> free_of c (s ++ t)%string.
Proof.
  intros Hs Ht. induction s as [|a s IH]; [exact Ht|].
  apply free_of_cons in Hs as [Ha Hs]. cbn [append].
  intros Hocc. apply occurs_cons in Hocc as [Hp | Hocc].
  - simpl in Hp. destruct (ascii_dec c a); [now subst | discriminate].
  - now apply IH.
Qed.

(** The text after a marker at the start of a line that holds the marker
    nowhere else. *)
Lemma after_marker (marker pre body : string) :
  marker <> "" ->
  Py.partition marker (pre ++ marker ++ body)%string = Some (pre, body) ->
  ~ occurs marker body ->
  Quiz.after marker (pre ++ marker ++ body)%string = Some (Py.strip body).
Proof.
  intros Hm Hcut Hfree. unfold Quiz.after, Py.split.
  destruct (String.length (pre ++ marker ++ body)) as [|n] eqn:Hlen.
  - rewrite !length_append in Hlen. destruct marker; [now elim Hm | simpl in Hlen; lia].
  - cbn [Py.split_fuel]. rewrite Hcut. cbn [nth_error].
    now rewrite (split_fuel_whole n marker body Hfree).
Qed.

Lemma partition_prefix (marker body : string) :
  Py.partition marker (marker ++ body)%string = Some (EmptyString, body).
Proof.
  rewrite partition_eq.
  assert (Hp : prefix marker (marker ++ body)%string = true)
    by (apply prefix_append; now exists body).
  now rewrite Hp, drop_append.
Qed.

(** ** Reading back what the prompt asks for *)

Lemma free_of_literal (c : ascii) (s : string) :
  Py.partition (String c EmptyString) s = None -> free_of c s.
Proof. intros H Hocc. apply occurs_partition in Hocc. contradiction. Qed.

(** A text whose last line has no whitespace at its end has none itself. *)
Lemma rstrip_text (lines : list string) (last : string) :
  Py.rstrip last = last -> last <> "" ->
  Py.rstrip (Py.text (lines ++ [last])) = Py.text (lines ++ [last]) /\
  Py.text (lines ++ [last]) <> "".
Proof.
  intros Hl Hne. induction lines as [|l lines [IH1 IH2]]; [now split|].
  assert (E : Py.text ((l :: lines) ++ [last])
              = ((l ++ Py.nl) ++ Py.text (lines ++ [last]))%string).
  { unfold Py.text, Py.join in *. cbn [app String.concat].
    destruct (lines ++ [last]) eqn:El; [now destruct lines|].
    now rewrite append_assoc. }
  rewrite E. split; [now apply rstrip_append|].
  destruct l; discriminate.
Qed.

Lemma one_line_fixed (s : string) :
  one_line s -> Py.strip s = s /\ Py.rstrip s = s /\ free_of (ascii_of_nat 10) s.
Proof.
  intros [Hs Hf]. destruct (strip_fixed s Hs) as [_ Hr]. now repeat split.
Qed.

Lemma after_prefix (marker body : string) :
  marker <> "" -> ~ occurs marker body ->
  Quiz.after marker (marker ++ body)%string = Some (Py.strip body).
Proof.
  intros Hm Hfree. exact (after_marker marker "" body Hm (partition_prefix marker body) Hfree).
Qed.

Section Rendered.
Variables number q a b c d corr expl : string.
Hypothesis ok : readable number q a b c d corr expl.

Lemma rendered_lines :
  candidate_lines (render number (item q a b c d corr expl))
  = [(number ++ ". " ++ q)%string; ("A) " ++ a)%string; ("B) " ++ b)%string;
     ("C) " ++ c)%string; ("D) " ++ d)%string; ("Correct: " ++ corr)%string;
     ("Explanation: " ++ expl)%string].
Proof.
  destruct ok as (Hn & Hdot & Hnl & Hq & Ha & Hb & Hc & Hd & Hcorr & Hexpl & _ & _ & _
                  & _ & _ & _ & _ & Hne & _).
  destruct (one_line_fixed _ Hq) as (_ & _ & Fq).
  destruct (one_line_fixed _ Ha) as (_ & _ & Fa).
  destruct (one_line_fixed _ Hb) as (_ & _ & Fb).
  destruct (one_line_fixed _ Hc) as (_ & _ & Fc).
  destruct (one_line_fixed _ Hd) as (_ & _ & Fd).
  destruct (one_line_fixed _ Hcorr) as (_ & _ & Fcorr).
  destruct (one_line_fixed _ Hexpl) as (_ & Rexpl & Fexpl).
  unfold candidate_lines, render, item.
  cbn [question options correct explanation map fst snd app].
  set (lines := [(number ++ ". " ++ q)%string; ("A" ++ ") " ++ a)%string;
                 ("B" ++ ") " ++ b)%string; ("C" ++ ") " ++ c)%string;
                 ("D" ++ ") " ++ d)%string; ("Correct: " ++ corr)%string]).
  assert (Hstrip : Py.strip (Py.text (lines ++ [("Explanation: " ++ expl)%string]))
                   = Py.text (lines ++ [("Explanation: " ++ expl)%string])).
  { unfold Py.strip.
    assert (Hl : Py.lstrip (Py.text (lines ++ [("Explanation: " ++ expl)%string]))
                 = Py.text (lines ++ [("Explanation: " ++ expl)%string])).
    { unfold lines, Py.text, Py.join. cbn [app String.concat].
      destruct number as [|x number']; [reflexivity|].
      apply lstrip_fixed_head in Hn. cbn [append Py.lstrip]. now rewrite Hn. }
    rewrite Hl. apply rstrip_text; [|discriminate].
    apply rstrip_append; [assumption | assumption]. }
  change (Py.text (((number ++ ". " ++ q)%string
                    :: [("A" ++ ") " ++ a)%string; ("B" ++ ") " ++ b)%string;
                        ("C" ++ ") " ++ c)%string; ("D" ++ ") " ++ d)%string;
                        ("Correct: " ++ corr)%string; ("Explanation: " ++ expl)%string])))
    with (Py.text (lines ++ [("Explanation: " ++ expl)%string])).
  rewrite Hstrip. unfold lines. cbn [app]. unfold Py.text.
  change Py.nl with (String (ascii_of_nat 10) "").
  apply split_join.
  repeat constructor; repeat apply free_of_append; try assumption;
    apply free_of_literal; reflexivity.
Qed.

Lemma rendered_parse :
  Quiz.parse_question (render number (item q a b c d corr expl))
  = Parsed (item q a b c d corr expl).
Proof.
  pose proof rendered_lines as Hlines.
  destruct ok as (Hn & Hdot & Hnl & Hq & Ha & Hb & Hc & Hd & Hcorr & Hexpl & Mq & Ma & Mb
                  & Mc & Md & Mcorr & Mexpl & Hne & Hup).
  unfold Quiz.parse_question. fold (candidate_lines (render number (item q a b c d corr expl))).
  rewrite Hlines. cbn [length Nat.ltb Nat.leb nth_error bind].
  rewrite (after_marker ". " number q ltac:(discriminate)
             (partition_append "."%char " " number q Hdot) Mq).
  cbn [bind].
  rewrite (after_prefix "A) " a ltac:(discriminate) Ma).
  cbn [bind].
  rewrite (after_prefix "B) " b ltac:(discriminate) Mb).
  cbn [bind].
  rewrite (after_prefix "C) " c ltac:(discriminate) Mc).
  cbn [bind].
  rewrite (after_prefix "D) " d ltac:(discriminate) Md).
  cbn [bind].
  rewrite (after_prefix "Correct: " corr ltac:(discriminate) Mcorr).
  cbn [bind].
  rewrite (after_prefix "Explanation: " expl ltac:(discriminate) Mexpl).
  cbn [bind]. unfold item.
  now rewrite (proj1 Hq), (proj1 Ha), (proj1 Hb), (proj1 Hc), (proj1 Hd), (proj1 Hcorr),
    (proj1 Hexpl), Hup.
Qed.
End Rendered.

Lemma not_occurs_literal (sep s : string) :
  Py.partition sep s = None -> ~ occurs sep s.
Proof. intros H Hocc. apply occurs_partition in Hocc. contradiction. Qed.

Ltac literal_facts :=
  repeat split; try reflexivity; try discriminate;
  try (apply free_of_literal; reflexivity);
  try (apply not_occurs_literal; reflexivity).

Lemma first_item_readable :
  readable "1" "What does len([]) return?" "0" "1" "None" "an error" "A"
           "the list is empty".
Proof. unfold readable, one_line. literal_facts. Qed.

Lemma second_item_readable :
  readable "2" "Which keyword defines a function?" "def" "fun" "lambda" "function" "A"
           "def introduces a function definition".
Proof. unfold readable, one_line. literal_facts. Qed.

(** X1: a candidate written as the prompt of quiz.py asks (number, dot,
    question; the four options after their markers; the answer; the
    explanation), with fields that are readable, is parsed into exactly the
    dictionary of its fields. *)
Theorem parse_question_reads_rendered (number q a b c d corr expl : string) :
  readable number q a b c d corr expl ->
  Quiz.parse_question (render number (item q a b c d corr expl))
  = Parsed (item q a b c d corr expl).
Proof. apply rendered_parse. Qed.

Lemma parse_question_reads_rendered_witness :
  Quiz.parse_question (render "1" first_item) = Parsed first_item.
Proof.
  exact (parse_question_reads_rendered "1" "What does len([]) return?" "0" "1" "None"
           "an error" "A" "the list is empty" first_item_readable).
Defined.

(** ** Reading back a whole response *)

Lemma rstrip_trailing_newline (r : string) :
  Py.rstrip r = r -> Py.rstrip (r ++ Py.nl)%string = r.
Proof.
  induction r as [|x r IH]; [reflexivity|]. cbn [Py.rstrip append].
  destruct (Py.rstrip r) as [|y r'] eqn:Hr.
  - destruct (Py.isspace x) eqn:Hx; [discriminate|]. intros [= <-].
    cbn [append]. reflexivity.
  - intros [= <-]. now rewrite (IH eq_refl).
Qed.

Lemma strip_trailing_newline (r : string) :
  Py.strip r = r -> Py.strip (r ++ Py.nl)%string = r.
Proof.
  intros H. destruct (strip_fixed r H) as [Hl Hr]. unfold Py.strip.
  destruct r as [|x r]; [reflexivity|].
  rewrite (lstrip_append (String x r) Py.nl Hl ltac:(discriminate)).
  now apply rstrip_trailing_newline.
Qed.

Lemma parse_question_strip (q1 q2 : string) :
  Py.strip q1 = Py.strip q2 -> Quiz.parse_question q1 = Quiz.parse_question q2.
Proof. intros H. unfold Quiz.parse_question. now rewrite H. Qed.

Lemma rendered_strip (number q a b c d corr expl : string) :
  readable number q a b c d corr expl ->
  Py.strip (render number (item q a b c d corr expl))
  = render number (item q a b c d corr expl).
Proof.
  intros ok.
  pose proof ok as (Hn & _ & _ & _ & _ & _ & _ & _ & _ & Hexpl & _ & _ & _ & _ & _ & _ & _
                    & Hne & _).
  destruct (one_line_fixed _ Hexpl) as (_ & Rexpl & _).
  unfold render, item. cbn [question options correct explanation map fst snd app].
  unfold Py.strip.
  assert (Hl : forall t, Py.lstrip (number ++ ". " ++ t)%string = (number ++ ". " ++ t)%string).
  { intros t. destruct number as [|x number']; [reflexivity|].
    apply lstrip_fixed_head in Hn. cbn [append Py.lstrip]. now rewrite Hn. }
  match goal with
  | |- Py.rstrip (Py.lstrip ?t) = _ =>
      assert (E : Py.lstrip t = t)
        by (unfold Py.text, Py.join; cbn [String.concat]; rewrite append_assoc;
            cbn [append]; apply Hl)
  end.
  rewrite E.
  exact (proj1 (rstrip_text
                  [(number ++ ". " ++ q)%string; ("A" ++ ") " ++ a)%string;
                   ("B" ++ ") " ++ b)%string; ("C" ++ ") " ++ c)%string;
                   ("D" ++ ") " ++ d)%string; ("Correct: " ++ corr)%string]
                  ("Explanation: " ++ expl)%string
                  (rstrip_append "Explanation: " expl Rexpl Hne) ltac:(discriminate))).
Qed.

Lemma append_nil_r (s : string) : (s ++ "")%string = s.
Proof. induction s as [|c s IH]; simpl; [reflexivity | now rewrite IH]. Qed.

Lemma well_formed_parse (number : string) (d : question_dict) :
  well_formed number d ->
  Quiz.parse_question (render number d ++ Py.nl)%string = Parsed d.
Proof.
  intros (q & a & b & c & e & corr & expl & -> & ok & _).
  rewrite (parse_question_strip _ (render number (item q a b c e corr expl))).
  - now apply rendered_parse.
  - rewrite (rendered_strip _ _ _ _ _ _ _ _ ok).
    apply strip_trailing_newline. now apply rendered_strip.
Qed.

Lemma render_quiz_join (nd : string * question_dict) (rest : list (string * question_dict)) :
  render_quiz (nd :: rest)
  = Py.join "Q" (EmptyString
                   :: map (fun x => (render (fst x) (snd x) ++ Py.nl)%string) (nd :: rest)).
Proof.
  revert nd; induction rest as [|nd2 rest IH]; intros nd.
  - cbn [render_quiz map Py.join String.concat append]. now rewrite append_nil_r.
  - change (render_quiz (nd :: nd2 :: rest))
      with ("Q" ++ render (fst nd) (snd nd) ++ Py.nl ++ render_quiz (nd2 :: rest))%string.
    rewrite (IH nd2). unfold Py.join. cbn [map String.concat append].
    f_equal. symmetry. apply append_assoc.
Qed.

Lemma parse_loop_well_formed (qs : list (string * question_dict)) :
  Forall (fun nd => well_formed (fst nd) (snd nd)) qs ->
  parse_loop Quiz.parse_question
    (map (fun x => (render (fst x) (snd x) ++ Py.nl)%string) qs)
  = (map snd qs, []).
Proof.
  induction 1 as [|nd qs Hnd _ IH]; [reflexivity|].
  cbn [map parse_loop]. rewrite IH, (well_formed_parse _ _ Hnd). reflexivity.
Qed.

(** X2: a response made of well-formed candidates, each begun by the letter
    Q and free of it otherwise, is read back by [generate_quiz] of quiz.py as
    exactly the questions it was made of, in their order, with no candidate
    rejected. *)
Theorem generate_quiz_reads_well_formed (qs : list (string * question_dict)) :
  qs <> [] ->
  Forall (fun nd => well_formed (fst nd) (snd nd)) qs ->
  Quiz.generate_quiz (render_quiz qs) = Some (map snd qs, []) /\
  (forall r, Quiz.generate_quiz (render_quiz qs) = Some r ->
             length (fst r) = length qs /\ rejected_count r = 0%nat).
Proof.
  intros Hne Hall.
  assert (Hgen : Quiz.generate_quiz (render_quiz qs) = Some (map snd qs, [])).
  { destruct qs as [|nd rest]; [now elim Hne|].
    unfold Quiz.generate_quiz, Quiz.raw_questions.
    assert (E : String.eqb (render_quiz (nd :: rest)) "" = false) by reflexivity.
    rewrite E, render_quiz_join, (split_join "Q"%char).
    - cbn [tl]. now rewrite (parse_loop_well_formed _ Hall).
    - constructor; [apply free_of_literal; reflexivity|].
      apply Forall_map. eapply Forall_impl; [|exact Hall].
      intros x (q & a & b & c & e & corr & expl & _ & _ & Hfree).
      apply free_of_append; [exact Hfree | apply free_of_literal; reflexivity]. }
  split; [exact Hgen|].
  intros r Hr. rewrite Hgen in Hr. injection Hr as <-.
  unfold rejected_count. cbn [fst snd length]. now rewrite length_map.
Qed.

Lemma first_item_well_formed : well_formed "1" first_item.
Proof.
  exists "What does len([]) return?", "0", "1", "None", "an error", "A", "the list is empty".
  split; [reflexivity|]. split; [exact first_item_readable|].
  apply free_of_literal. reflexivity.
Qed.

Lemma second_item_well_formed : well_formed "2" second_item.
Proof.
  exists "Which keyword defines a function?", "def", "fun", "lambda", "function", "A",
    "def introduces a function definition".
  split; [reflexivity|]. split; [exact second_item_readable|].
  apply free_of_literal. reflexivity.
Qed.

(** The sample response of two questions, read back. *)
Lemma generate_quiz_reads_two :
  Quiz.generate_quiz (render_quiz [("1", first_item); ("2", second_item)])
  = Some ([first_item; second_item], []).
Proof. vm_compute. reflexivity. Qed.

Lemma generate_quiz_reads_well_formed_witness :
  Quiz.generate_quiz (render_quiz [("1", first_item); ("2", second_item)])
  = Some ([first_item; second_item], []).
Proof.
  apply (generate_quiz_reads_well_formed [("1", first_item); ("2", second_item)]).
  - discriminate.
  - repeat constructor; [exact first_item_well_formed | exact second_item_well_formed].
Defined.

(** ** More about the parsing loops *)

Section LoopAccounts.
Variable parse_one : string -> parsed.

Lemma parse_loop_accounts (l : list string) :
  (length (fst (parse_loop parse_one l)) + rejected_count (parse_loop parse_one l)
   = length l)%nat.
Proof.
  unfold rejected_count. induction l as [|q l IH]; [reflexivity|]. cbn [parse_loop].
  destruct (parse_loop parse_one l) as [qs out]. cbn [fst snd length] in *.
  destruct (parse_one q); cbn [fst snd length]; lia.
Qed.

Lemma parse_loop_origin (l : list string) (d : question_dict) :
  In d (fst (parse_loop parse_one l)) -> exists q, In q l /\ parse_one q = Parsed d.
Proof.
  induction l as [|q l IH]; [contradiction|]. cbn [parse_loop].
  destruct (parse_loop parse_one l) as [qs out]. cbn [fst] in IH.
  destruct (parse_one q) as [d'| |] eqn:Hq; cbn [fst].
  - intros [<- | Hin]; [exists q; split; [now left | assumption]|].
    destruct (IH Hin) as (q' & Hq' & Hp). exists q'. split; [now right | assumption].
  - intros Hin. destruct (IH Hin) as (q' & Hq' & Hp). exists q'. split; [now right | assumption].
  - intros Hin. destruct (IH Hin) as (q' & Hq' & Hp). exists q'. split; [now right | assumption].
Qed.
End LoopAccounts.

(** Every question returned is what the parser makes of a candidate. *)
Lemma every_candidate_origin (response_text : string)
    (r : list question_dict * list output) :
  (Quiz.generate_quiz response_text = Some r ->
   forall d, In d (fst r) ->
     exists q, In q (Quiz.raw_questions response_text) /\ Quiz.parse_question q = Parsed d) /\
  (Quiz1.generate_quiz response_text = Some r ->
   forall d, In d (fst r) ->
     exists q, In q (Quiz1.raw_questions response_text) /\
               Quiz1.parse_question q = Parsed d).
Proof.
  split.
  - unfold Quiz.generate_quiz. destruct (String.eqb response_text ""); [discriminate|].
    intros [= <-]. apply parse_loop_origin.
  - unfold Quiz1.generate_quiz. destruct (String.eqb response_text ""); [discriminate|].
    destruct (Py.partition "Q1." response_text); [|discriminate].
    intros [= <-]. apply parse_loop_origin.
Qed.

(** X3: in quiz.py and quiz1.py no candidate is lost without notice: the
    questions returned and the rejections announced add up to the number of
    candidates, and every question returned is what the parser makes of one
    of the candidates. *)
Theorem every_candidate_is_accounted_for (response_text : string)
    (r : list question_dict * list output) :
  (Quiz.generate_quiz response_text = Some r ->
   (length (fst r) + rejected_count r = length (Quiz.raw_questions response_text))%nat /\
   forall d, In d (fst r) ->
     exists q, In q (Quiz.raw_questions response_text) /\ Quiz.parse_question q = Parsed d) /\
  (Quiz1.generate_quiz response_text = Some r ->
   (length (fst r) + rejected_count r = length (Quiz1.raw_questions response_text))%nat /\
   forall d, In d (fst r) ->
     exists q, In q (Quiz1.raw_questions response_text) /\
               Quiz1.parse_question q = Parsed d).
Proof.
  split.
  - unfold Quiz.generate_quiz. destruct (String.eqb response_text ""); [discriminate|].
    intros [= <-]. split; [apply parse_loop_accounts | apply parse_loop_origin].
  - unfold Quiz1.generate_quiz. destruct (String.eqb response_text ""); [discriminate|].
    destruct (Py.partition "Q1." response_text); [|discriminate].
    intros [= <-]. split; [apply parse_loop_accounts | apply parse_loop_origin].
Qed.

Lemma every_candidate_is_accounted_for_witness :
  (length (fst (parse_loop Quiz.parse_question
                  (Quiz.raw_questions ("Q1. too short" ++ quiz_text ["b"])%string)))
   + rejected_count (parse_loop Quiz.parse_question
                       (Quiz.raw_questions ("Q1. too short" ++ quiz_text ["b"])%string))
   = length (Quiz.raw_questions ("Q1. too short" ++ quiz_text ["b"])%string))%nat.
Proof.
  exact (proj1 (proj1 (every_candidate_is_accounted_for
                         ("Q1. too short" ++ quiz_text ["b"])%string _) eq_refl)).
Defined.

(** ** quiz1.py: what its parser cannot do *)

Lemma stripped_lines_clean (q line : string) :
  In line (Quiz1.stripped_lines q) -> line <> "" /\ Py.strip line = line.
Proof.
  unfold Quiz1.stripped_lines. intros (p & <- & Hp)%in_map_iff.
  apply filter_In in Hp as [_ Hne]. apply negb_true_iff in Hne.
  split; [now apply String.eqb_neq | apply strip_idempotent].
Qed.

(** X4: the [except] branch of the parsing loop of quiz1.py is never taken:
    a candidate is parsed or skipped as too short, and no parsing error is
    announced; and the question text of a parsed candidate is never empty and
    has no whitespace around it. *)
Theorem quiz1_parser_never_raises (q : string) :
  Quiz1.parse_question q <> Raised /\
  (forall response_text r,
     Quiz1.generate_quiz response_text = Some r -> ~ In ErrorParsingQuestion (snd r)) /\
  (forall d, Quiz1.parse_question q = Parsed d ->
             question d <> "" /\ Py.strip (question d) = question d).
Proof.
  split; [|split].
  - destruct (Nat.lt_ge_cases (length (Quiz1.stripped_lines q)) 7) as [Hlt | Hge].
    + unfold Quiz1.parse_question. apply Nat.ltb_lt in Hlt. rewrite Hlt. discriminate.
    + apply parse_question1_accepts in Hge as [d Hd]. rewrite Hd. discriminate.
  - intros response_text r. unfold Quiz1.generate_quiz.
    destruct (String.eqb response_text ""); [discriminate|].
    destruct (Py.partition "Q1." response_text); [|discriminate].
    intros [= <-]. generalize (Quiz1.raw_questions response_text) as l.
    induction l as [|c l IH]; [intros []|]. cbn [parse_loop].
    destruct (parse_loop Quiz1.parse_question l) as [qs out]. cbn [snd] in IH.
    destruct (Quiz1.parse_question c) eqn:Hc; cbn [snd].
    * exact IH.
    * intros [Hx | Hin]; [discriminate | now apply IH].
    * exfalso. revert Hc.
      destruct (Nat.lt_ge_cases (length (Quiz1.stripped_lines c)) 7) as [Hlt | Hge].
      -- unfold Quiz1.parse_question. apply Nat.ltb_lt in Hlt. rewrite Hlt. discriminate.
      -- apply parse_question1_accepts in Hge as [d Hd]. rewrite Hd. discriminate.
  - intros d. unfold Quiz1.parse_question.
    destruct (length (Quiz1.stripped_lines q) <? 7)%nat; [discriminate|].
    destruct (nth_error (Quiz1.stripped_lines q) 0) as [p0|] eqn:H0; cbn [bind];
      [|discriminate].
    destruct (nth_error (Quiz1.stripped_lines q) 1); cbn [bind]; [|discriminate].
    destruct (nth_error (Quiz1.stripped_lines q) 2); cbn [bind]; [|discriminate].
    destruct (nth_error (Quiz1.stripped_lines q) 3); cbn [bind]; [|discriminate].
    destruct (nth_error (Quiz1.stripped_lines q) 4); cbn [bind]; [|discriminate].
    destruct (nth_error (Quiz1.stripped_lines q) 5); cbn [bind]; [|discriminate].
    destruct (nth_error (Quiz1.stripped_lines q) 6); cbn [bind]; [|discriminate].
    intros [= <-]. cbn [question]. apply stripped_lines_clean with (q := q).
    eapply nth_error_In. exact H0.
Qed.

(** ** quiz3.py and quiz5.py: line count and code block *)

Lemma index_from_bound (x : string) (l : list string) :
  forall start i, Py.index_from x start l = Some i -> (start <= i < length l)%nat.
Proof.
  induction l as [|y l IH]; intros start i; cbn [Py.index_from]; [discriminate|].
  destruct start as [|k].
  - destruct (String.eqb y x); [intros [= <-]; simpl; lia|].
    destruct (Py.index_from x 0 l) as [j|] eqn:Hj; [|discriminate].
    intros [= <-]. apply IH in Hj. simpl. lia.
  - destruct (Py.index_from x k l) as [j|] eqn:Hj; [|discriminate].
    intros [= <-]. apply IH in Hj. simpl. lia.
Qed.

Lemma startswith_append (s t p : string) :
  Py.startswith s p = true -> Py.startswith (s ++ t)%string p = true.
Proof.
  unfold Py.startswith. intros [u ->]%prefix_append. apply prefix_append.
  exists (u ++ t)%string. apply append_assoc.
Qed.

(** What the fenced block of a candidate is read as. *)
Lemma code_block_shape (parts : list string) (p1 : string) (close : nat) :
  nth_error parts 1 = Some p1 -> (2 <= close)%nat ->
  Py.startswith p1 "```python" = true ->
  Py.startswith (Py.join Py.nl (Py.slice 1 (close + 1) parts)) "```python" = true.
Proof.
  intros H1 Hclose Hp. destruct parts as [|p0 [|p1' rest]]; try discriminate.
  injection H1 as ->. unfold Py.slice.
  replace (close + 1 - 1)%nat with (S (S (close - 2))) by lia.
  cbn [skipn firstn]. unfold Py.join.
  destruct rest as [|p2 rest]; cbn [firstn String.concat]; [exact Hp|].
  now apply startswith_append.
Qed.

(** X5: a candidate of quiz3.py or quiz5.py passes the length test with six
    lines, but is parsed only with seven or more: one with exactly six lines
    always ends in the [except] branch.  The code of a parsed question is
    empty or begins with the opening fence; where quiz5.py does not look for
    code (levels other than intermediate and advanced) it is always empty. *)
Theorem snippet_question_lines_and_code (snippets : bool) (q : string) :
  (length (candidate_lines q) = 6%nat -> parse_snippet_question snippets q = Raised) /\
  (forall d, parse_snippet_question snippets q = Parsed d ->
     (7 <= length (candidate_lines q))%nat /\
     exists c, code d = Some c /\
       (c = "" \/ (snippets = true /\ Py.startswith c "```python" = true))) /\
  (forall level d,
     Py.in_list level ["intermediate"; "advanced"] = false ->
     Quiz5.parse_question level q = Parsed d -> code d = Some "").
Proof.
  assert (Hshape : forall s d, parse_snippet_question s q = Parsed d ->
            (7 <= length (candidate_lines q))%nat /\
            exists c, code d = Some c /\
              (c = "" \/ (s = true /\ Py.startswith c "```python" = true))).
  { intros s d. unfold parse_snippet_question. fold (candidate_lines q).
    set (parts := candidate_lines q).
    destruct (length parts <? 6)%nat; [discriminate|].
    destruct (nth_error parts 0) as [p0|]; cbn [bind]; [|discriminate].
    destruct (Quiz.after ". " p0); cbn [bind]; [|discriminate].
    destruct (nth_error parts 1) as [p1|] eqn:H1; cbn [bind]; [|discriminate].
    assert (Hrest : forall cs : string * nat,
              (1 <= snd cs)%nat ->
              (fst cs = "" \/ (s = true /\ Py.startswith (fst cs) "```python" = true)) ->
              match
                (let (code_snippet, options_start) := cs in
                 pa <- nth_error parts options_start ;; a <- Quiz.after "A) " pa ;;
                 pb <- nth_error parts (options_start + 1) ;; b <- Quiz.after "B) " pb ;;
                 pc <- nth_error parts (options_start + 2) ;; c <- Quiz.after "C) " pc ;;
                 pd <- nth_error parts (options_start + 3) ;; d <- Quiz.after "D) " pd ;;
                 p5 <- nth_error parts (options_start + 4) ;;
                 corr <- Quiz.after "Correct: " p5 ;;
                 p6 <- nth_error parts (options_start + 5) ;;
                 expl <- Quiz.after "Explanation: " p6 ;;
                 Some {| question := s0; code := Some code_snippet;
                         options := [("A", a); ("B", b); ("C", c); ("D", d)];
                         correct := Py.upper corr; explanation := expl |})
              with
              | Some d0 => Parsed d0
              | None => Raised
              end = Parsed d ->
              (7 <= length parts)%nat /\
              exists c, code d = Some c /\
                (c = "" \/ (s = true /\ Py.startswith c "```python" = true))).
    { intros [cd start] Hstart Hcode. cbn [fst snd] in *.
      destruct (nth_error parts start); cbn [bind]; [|discriminate].
      destruct (Quiz.after "A) " _); cbn [bind]; [|discriminate].
      destruct (nth_error parts (start + 1)); cbn [bind]; [|discriminate].
      destruct (Quiz.after "B) " _); cbn [bind]; [|discriminate].
      destruct (nth_error parts (start + 2)); cbn [bind]; [|discriminate].
      destruct (Quiz.after "C) " _); cbn [bind]; [|discriminate].
      destruct (nth_error parts (start + 3)); cbn [bind]; [|discriminate].
      destruct (Quiz.after "D) " _); cbn [bind]; [|discriminate].
      destruct (nth_error parts (start + 4)); cbn [bind]; [|discriminate].
      destruct (Quiz.after "Correct: " _); cbn [bind]; [|discriminate].
      destruct (nth_error parts (start + 5)) eqn:H6; cbn [bind]; [|discriminate].
      destruct (Quiz.after "Explanation: " _); cbn [bind]; [|discriminate].
      intros [= <-]. cbn [code]. split.
      - assert (start + 5 < length parts)%nat
          by (apply nth_error_Some; rewrite H6; discriminate).
        lia.
      - now exists cd. }
    destruct (s && Py.startswith p1 "```python") eqn:Hfence; cbn [bind].
    - destruct (Py.index_from "```" 2 parts) as [close|] eqn:Hclose; cbn [bind];
        [|discriminate].
      apply andb_prop in Hfence as [-> Hp1]. apply index_from_bound in Hclose.
      apply (Hrest (_, _)); cbn [fst snd]; [lia|].
      right. split; [reflexivity|]. apply code_block_shape with (p1 := p1); [assumption | lia |
        assumption].
    - apply (Hrest (_, _)); cbn [fst snd]; [lia | now left]. }
  split; [|split].
  - intros Hlen. destruct (parse_snippet_question snippets q) as [d| |] eqn:Hq;
      [| |reflexivity].
    + apply Hshape in Hq as [Hge _]. lia.
    + unfold parse_snippet_question in Hq. fold (candidate_lines q) in Hq.
      rewrite Hlen in Hq. change (6 <? 6)%nat with false in Hq. cbv iota in Hq.
      match type of Hq with
      | match ?x with Some _ => _ | None => _ end = _ => destruct x; discriminate
      end.
  - exact (Hshape snippets).
  - intros level d Hlevel Hq. unfold Quiz5.parse_question, Quiz5.snippets_for in Hq.
    rewrite Hlevel in Hq. apply Hshape in Hq as (_ & c & Hc & [-> | [Hs _]]);
      [assumption | discriminate].
Qed.

(** ** quiz.py: what the cut at every Q costs *)

Lemma occurs_refl (s : string) : occurs s s.
Proof. exists "", "". cbn [append]. now rewrite append_nil_r. Qed.

Lemma occurs_trans (x y z : string) : occurs x y -> occurs y z -> occurs x z.
Proof.
  intros (p1 & s1 & ->) (p2 & s2 & ->).
  exists (p2 ++ p1)%string, (s1 ++ s2)%string. now rewrite !append_assoc.
Qed.

Lemma occurs_prepend (x y pre : string) : occurs x y -> occurs x (pre ++ y)%string.
Proof.
  intros (p & s & ->). exists (pre ++ p)%string, s. now rewrite !append_assoc.
Qed.

Lemma occurs_append (x y post : string) : occurs x y -> occurs x (y ++ post)%string.
Proof.
  intros (p & s & ->). exists p, (s ++ post)%string. now rewrite !append_assoc.
Qed.

Lemma lstrip_occurs (s : string) : occurs (Py.lstrip s) s.
Proof.
  induction s as [|c s IH]; [apply occurs_refl|]. cbn [Py.lstrip].
  destruct (Py.isspace c); [|apply occurs_refl].
  change (String c s) with (String c "" ++ s)%string. now apply occurs_prepend.
Qed.

Lemma rstrip_prefix (s : string) : exists post, s = (Py.rstrip s ++ post)%string.
Proof.
  induction s as [|c s [post IH]]; [now exists ""|]. cbn [Py.rstrip].
  destruct (Py.rstrip s) as [|c' r] eqn:Hr.
  - destruct (Py.isspace c); [now exists (String c s) | now exists s].
  - exists post. cbn [append] in *. now rewrite <- IH.
Qed.

Lemma rstrip_occurs (s : string) : occurs (Py.rstrip s) s.
Proof. destruct (rstrip_prefix s) as [post H]. now exists "", post. Qed.

Lemma strip_occurs (s : string) : occurs (Py.strip s) s.
Proof.
  unfold Py.strip. eapply occurs_trans; [apply rstrip_occurs | apply lstrip_occurs].
Qed.

(** Every piece of a split is a part of the text. *)
Lemma split_fuel_occurs (sep : string) (fuel : nat) :
  forall s piece, In piece (Py.split_fuel fuel sep s) -> occurs piece s.
Proof.
  induction fuel as [|fuel IH]; intros s piece; cbn [Py.split_fuel].
  - intros [<- | []]. apply occurs_refl.
  - destruct (Py.partition sep s) as [[a b]|] eqn:Hcut.
    + apply partition_cut in Hcut. subst s. intros [<- | Hin].
      * apply occurs_append, occurs_refl.
      * apply occurs_prepend, occurs_prepend. now apply IH.
    + intros [<- | []]. apply occurs_refl.
Qed.

Lemma after_part (marker line v : string) :
  Quiz.after marker line = Some v -> occurs v line.
Proof.
  intros (raw & Hraw & ->)%after_value.
  eapply occurs_trans; [apply strip_occurs|].
  apply split_fuel_occurs with (sep := marker) (fuel := String.length line).
  eapply nth_error_In. exact Hraw.
Qed.

Lemma candidate_line_part (q line : string) (i : nat) :
  nth_error (candidate_lines q) i = Some line -> occurs line q.
Proof.
  intros H. eapply occurs_trans; [|apply strip_occurs].
  apply split_fuel_occurs with (sep := Py.nl) (fuel := String.length (Py.strip q)).
  eapply nth_error_In. exact H.
Qed.

(** The fields of a question parsed by quiz.py are parts of its candidate,
    but for the answer, which is put in upper case. *)
Lemma parse_question_parts (q : string) (d : question_dict) :
  Quiz.parse_question q = Parsed d ->
  occurs (question d) q /\ occurs (explanation d) q /\
  Forall (fun kv => occurs (snd kv) q) (options d).
Proof.
  unfold Quiz.parse_question. fold (candidate_lines q).
  destruct (length (candidate_lines q) <? 7)%nat; [discriminate|].
  destruct (nth_error (candidate_lines q) 0) as [l0|] eqn:H0; cbn [bind]; [|discriminate].
  destruct (Quiz.after ". " l0) eqn:A0; cbn [bind]; [|discriminate].
  destruct (nth_error (candidate_lines q) 1) as [l1|] eqn:H1; cbn [bind]; [|discriminate].
  destruct (Quiz.after "A) " l1) eqn:A1; cbn [bind]; [|discriminate].
  destruct (nth_error (candidate_lines q) 2) as [l2|] eqn:H2; cbn [bind]; [|discriminate].
  destruct (Quiz.after "B) " l2) eqn:A2; cbn [bind]; [|discriminate].
  destruct (nth_error (candidate_lines q) 3) as [l3|] eqn:H3; cbn [bind]; [|discriminate].
  destruct (Quiz.after "C) " l3) eqn:A3; cbn [bind]; [|discriminate].
  destruct (nth_error (candidate_lines q) 4) as [l4|] eqn:H4; cbn [bind]; [|discriminate].
  destruct (Quiz.after "D) " l4) eqn:A4; cbn [bind]; [|discriminate].
  destruct (nth_error (candidate_lines q) 5) as [l5|] eqn:H5; cbn [bind]; [|discriminate].
  destruct (Quiz.after "Correct: " l5) eqn:A5; cbn [bind]; [|discriminate].
  destruct (nth_error (candidate_lines q) 6) as [l6|] eqn:H6; cbn [bind]; [|discriminate].
  destruct (Quiz.after "Explanation: " l6) eqn:A6; cbn [bind]; [|discriminate].
  intros [= <-]. cbn [question explanation options].
  assert (Hpart : forall m l i v, nth_error (candidate_lines q) i = Some l ->
                    Quiz.after m l = Some v -> occurs v q).
  { intros m l i v Hl Hv. eapply occurs_trans; [exact (after_part _ _ _ Hv)|].
    exact (candidate_line_part _ _ _ Hl). }
  repeat split; [eauto | eauto |].
  repeat constructor; cbn [snd]; eauto.
Qed.

(** X6: quiz.py cuts the response at every capital Q, so no question it
    returns has a capital Q in its question text, in an option or in its
    explanation: a question that mentions a Queue or SQL is never returned
    whole. *)
Theorem quiz_fields_hold_no_capital_q (response_text : string)
    (r : list question_dict * list output) :
  Quiz.generate_quiz response_text = Some r ->
  Forall (fun d => free_of "Q"%char (question d) /\
                   free_of "Q"%char (explanation d) /\
                   Forall (fun kv => free_of "Q"%char (snd kv)) (options d)) (fst r).
Proof.
  intros Hgen.
  assert (Hcand : Forall (fun q => ~ occurs "Q" q) (Quiz.raw_questions response_text)).
  { unfold Quiz.raw_questions.
    pose proof (split_fuel_pieces "Q" ltac:(discriminate) (String.length response_text)
                  response_text (Nat.le_refl _)) as Hp.
    fold (Py.split "Q" response_text) in Hp.
    destruct (Py.split "Q" response_text); [constructor | now inversion Hp]. }
  apply Forall_forall. intros d Hd.
  destruct (proj1 (every_candidate_origin response_text r) Hgen d Hd) as (q & Hq & Hparse).
  rewrite Forall_forall in Hcand. specialize (Hcand q Hq).
  destruct (parse_question_parts q d Hparse) as (Hqt & Hex & Hopt).
  unfold free_of. repeat split.
  - intros H. apply Hcand. eapply occurs_trans; eassumption.
  - intros H. apply Hcand. eapply occurs_trans; eassumption.
  - eapply Forall_impl; [|exact Hopt]. cbn beta.
    intros kv Hkv H. apply Hcand. eapply occurs_trans; eassumption.
Qed.

Lemma quiz_fields_hold_no_capital_q_witness :
  Forall (fun d => free_of "Q"%char (question d) /\
                   free_of "Q"%char (explanation d) /\
                   Forall (fun kv => free_of "Q"%char (snd kv)) (options d))
    [first_item; second_item].
Proof.
  exact (quiz_fields_hold_no_capital_q _ _ generate_quiz_reads_two).
Defined.

(** ** More about the retry of quiz3.py and quiz5.py *)

(** What a call that comes back with questions has done. *)
Lemma generate_retrying_questions (snippets : bool) (model : nat -> string)
    (num_questions : Z) :
  forall fuel call qs,
    outcome (generate_retrying snippets fuel model call num_questions) = Questions qs ->
    exists k,
      calls (generate_retrying snippets fuel model call num_questions) = S k /\
      qs = yield snippets (model (call + k)%nat) /\
      (num_questions <= Z.of_nat (length qs))%Z /\
      forall j, (j < k)%nat ->
        model (call + j)%nat <> "" /\
        (Z.of_nat (length (yield snippets (model (call + j)%nat))) < num_questions)%Z.
Proof.
  induction fuel as [|fuel IH]; intros call qs; cbn [generate_retrying outcome];
    [discriminate|].
  destruct (String.eqb_spec (model call) "") as [He|Hne]; cbn [outcome]; [discriminate|].
  destruct (parse_loop _ _) as [questions msgs] eqn:Hparse.
  assert (Hy : yield snippets (model call) = questions)
    by (unfold yield; now rewrite Hparse).
  destruct (Z.of_nat (length questions) <? num_questions)%Z eqn:Hlt; cbn [outcome calls].
  - intros Hout. apply IH in Hout as (k & Hcalls & Hqs & Hge & Hbefore).
    exists (S k). rewrite Hcalls. split; [reflexivity|].
    split; [now rewrite Hqs, Nat.add_succ_comm|]. split; [assumption|].
    intros [|j] Hj.
    + rewrite Nat.add_0_r, Hy. split; [assumption | now apply Z.ltb_lt].
    + rewrite <- Nat.add_succ_comm. apply Hbefore. lia.
  - intros [= <-]. exists 0%nat. rewrite Nat.add_0_r, Hy.
    split; [reflexivity|]. split; [reflexivity|]. split; [now apply Z.ltb_ge|].
    intros j Hj. lia.
Qed.

(** Every retry is announced once. *)
Lemma generate_retrying_notices (snippets : bool) (model : nat -> string)
    (num_questions : Z) :
  forall fuel call qs,
    outcome (generate_retrying snippets fuel model call num_questions) = Questions qs ->
    S (length (filter (fun o => match o with OnlyGeneratedRetrying _ => true | _ => false end)
                 (printed (generate_retrying snippets fuel model call num_questions))))
    = calls (generate_retrying snippets fuel model call num_questions).
Proof.
  induction fuel as [|fuel IH]; intros call qs; cbn [generate_retrying outcome];
    [discriminate|].
  destruct (String.eqb (model call) ""); cbn [outcome]; [discriminate|].
  pose proof (parse_loop_messages (parse_snippet_question snippets)
                (Quiz.raw_questions (model call))) as Hmsgs.
  destruct (parse_loop _ _) as [questions msgs]. cbn [snd] in Hmsgs.
  assert (Hnone : filter (fun o => match o with OnlyGeneratedRetrying _ => true
                                    | _ => false end) msgs = []).
  { clear -Hmsgs. induction msgs as [|o msgs IHm]; [reflexivity|].
    cbn [forallb] in Hmsgs. apply andb_prop in Hmsgs as [Ho Hm].
    destruct o; try discriminate; cbn [filter]; now apply IHm. }
  destruct (Z.of_nat (length questions) <? num_questions)%Z; cbn [outcome calls printed].
  - intros Hout. rewrite filter_app, Hnone. cbn [app filter length].
    now rewrite (IH _ _ Hout).
  - intros _. now rewrite Hnone.
Qed.

(** X7: when [generate_quiz] of quiz3.py or quiz5.py returns questions, they
    are all the questions parsed from the last response, not cut down to the
    count asked for, and at least as many as asked for; every earlier
    response was not empty and fell short; and each of those is announced by
    one retry notice. *)
Theorem retry_returns_whole_last_yield (snippets : bool) (model : nat -> string)
    (num_questions : Z) (fuel : nat) (qs : list question_dict) :
  outcome (generate_retrying snippets fuel model 0 num_questions) = Questions qs ->
  exists k,
    calls (generate_retrying snippets fuel model 0 num_questions) = S k /\
    qs = yield snippets (model k) /\
    (num_questions <= Z.of_nat (length qs))%Z /\
    (forall j, (j < k)%nat ->
       model j <> "" /\ (Z.of_nat (length (yield snippets (model j))) < num_questions)%Z) /\
    length (filter (fun o => match o with OnlyGeneratedRetrying _ => true | _ => false end)
              (printed (generate_retrying snippets fuel model 0 num_questions))) = k.
Proof.
  intros Hout.
  pose proof (generate_retrying_notices snippets model num_questions fuel 0 qs Hout) as Hn.
  destruct (generate_retrying_questions snippets model num_questions fuel 0 qs Hout)
    as (k & Hcalls & Hqs & Hge & Hbefore).
  exists k. cbn [Nat.add] in *. repeat split; try assumption.
  - now apply Hbefore.
  - now apply Hbefore.
  - rewrite Hcalls in Hn. now injection Hn.
Qed.

Lemma retry_returns_whole_last_yield_witness :
  exists k,
    calls (Quiz3.generate_quiz 5 third_time_lucky 1) = S k /\
    length (filter (fun o => match o with OnlyGeneratedRetrying _ => true | _ => false end)
              (printed (Quiz3.generate_quiz 5 third_time_lucky 1))) = k.
Proof.
  destruct (retry_returns_whole_last_yield true third_time_lucky 1 5
              (yield true (third_time_lucky 2)) eq_refl) as (k & Hc & _ & _ & _ & Hn).
  exists k. split; [exact Hc | exact Hn].
Defined.

(** X8: the retry stops at the first response that yields as many questions
    as asked for: if the responses before the [k]-th are not empty and fall
    short and the [k]-th yields enough, the call returns the yield of the
    [k]-th after [k + 1] requests (the depth allowing). *)
Theorem retry_stops_at_first_sufficient (snippets : bool) (model : nat -> string)
    (num_questions : Z) (k fuel : nat) :
  (forall n, (n <= k)%nat -> model n <> "") ->
  (forall n, (n < k)%nat ->
     (Z.of_nat (length (yield snippets (model n))) < num_questions)%Z) ->
  (num_questions <= Z.of_nat (length (yield snippets (model k))))%Z ->
  (k < fuel)%nat ->
  outcome (generate_retrying snippets fuel model 0 num_questions)
  = Questions (yield snippets (model k)) /\
  calls (generate_retrying snippets fuel model 0 num_questions) = S k.
Proof.
  intros Hne Hshort Henough Hfuel.
  now apply retry_returns_first_sufficient.
Qed.

Lemma retry_stops_at_first_sufficient_witness :
  outcome (Quiz3.generate_quiz 5 third_time_lucky 1)
  = Questions (yield true (third_time_lucky 2)) /\
  calls (Quiz3.generate_quiz 5 third_time_lucky 1) = 3%nat.
Proof.
  apply (retry_stops_at_first_sufficient true third_time_lucky 1 2 5).
  - intros [|[|[|n]]] Hn; discriminate.
  - intros [|[|n]] Hn; [vm_compute; reflexivity | vm_compute; reflexivity | lia].
  - vm_compute. discriminate.
  - lia.
Defined.

(** X9: edge cases of the retry.  With a count of zero or less nothing is
    ever retried: the first response is the only one asked for, and whatever
    it yields, even nothing, is returned.  An empty response at any attempt
    ends the call with the exception, with no further request.  In quiz5.py a
    level that is not one of the three keys of the prompts, such as
    "Beginner", fails on the lookup before any request is sent. *)
Theorem retry_edge_cases (snippets : bool) (model : nat -> string) (num_questions : Z)
    (fuel : nat) :
  ((num_questions <= 0)%Z -> model 0%nat <> "" ->
   generate_retrying snippets (S fuel) model 0 num_questions
   = {| outcome := Questions (yield snippets (model 0%nat));
        printed := snd (parse_loop (parse_snippet_question snippets)
                          (Quiz.raw_questions (model 0%nat)));
        calls := 1 |}) /\
  (forall k,
     (forall n, (n < k)%nat ->
        model n <> "" /\ (Z.of_nat (length (yield snippets (model n))) < num_questions)%Z) ->
     model k = "" -> (k < fuel)%nat ->
     outcome (generate_retrying snippets fuel model 0 num_questions) = GenerationFailed /\
     calls (generate_retrying snippets fuel model 0 num_questions) = S k) /\
  (forall level,
     Py.in_list level difficulty_levels = false ->
     Quiz5.generate_quiz fuel model level num_questions
     = {| outcome := PromptKeyError; printed := []; calls := 0 |}).
Proof.
  split; [|split].
  - intros Hnum Hne. cbn [generate_retrying].
    destruct (String.eqb_spec (model 0%nat) ""); [contradiction|]. unfold yield.
    destruct (parse_loop _ _) as [questions msgs]. cbn [fst snd].
    assert (Hlt : (Z.of_nat (length questions) <? num_questions)%Z = false)
      by (apply Z.ltb_ge; lia).
    now rewrite Hlt.
  - intros k.
    assert (H : forall j fuel' call, (call + j = k)%nat -> (j < fuel')%nat ->
              (forall n, (n < k)%nat ->
                 model n <> "" /\
                 (Z.of_nat (length (yield snippets (model n))) < num_questions)%Z) ->
              model k = "" ->
              outcome (generate_retrying snippets fuel' model call num_questions)
              = GenerationFailed /\
              calls (generate_retrying snippets fuel' model call num_questions) = S j).
    { induction j as [|j IH]; intros fuel' call Hk Hf Hshort Hempty;
        (destruct fuel' as [|fuel']; [lia|]); cbn [generate_retrying].
      - replace call with k by lia. rewrite Hempty. now split.
      - destruct (Hshort call ltac:(lia)) as [Hne Hlt].
        destruct (String.eqb_spec (model call) ""); [contradiction|].
        unfold yield in Hlt. destruct (parse_loop _ _) as [questions msgs].
        cbn [fst] in Hlt. apply Z.ltb_lt in Hlt. rewrite Hlt. cbn [outcome calls].
        destruct (IH fuel' (S call) ltac:(lia) ltac:(lia) Hshort Hempty) as [-> ->].
        now split. }
    intros Hshort Hempty Hfuel. now apply H.
  - intros level Hlevel. unfold Quiz5.generate_quiz. now rewrite Hlevel.
Qed.

Lemma retry_edge_cases_witness :
  Quiz5.generate_quiz 5 third_time_lucky "Beginner" 1
  = {| outcome := PromptKeyError; printed := []; calls := 0 |}.
Proof.
  apply (proj2 (proj2 (retry_edge_cases false third_time_lucky 1 5))). reflexivity.
Defined.

(** ** More about the two threads of a question *)

Section GateMore.
Variable stops_timer : bool.

(** With the flag up the countdown thread prints nothing and leaves the
    flag up. *)
Lemma timer_step_silent (g : gate) :
  timer_expired g = true ->
  shown (timer_step stops_timer g) = shown g /\
  timer_expired (timer_step stops_timer g) = true /\
  main (timer_step stops_timer g) = main g /\
  answer (timer_step stops_timer g) = answer g.
Proof.
  intros H. unfold timer_step.
  destruct (timer g) as [[|r]|r|]; rewrite ?H; unfold set_timer;
    cbn [shown timer_expired main answer];
    rewrite ?app_nil_r; now repeat split.
Qed.

Lemma run_timer_silent (fuel : nat) (g : gate) :
  timer_expired g = true ->
  shown (run_timer stops_timer fuel g) = shown g /\
  timer_expired (run_timer stops_timer fuel g) = true.
Proof.
  revert g; induction fuel as [|fuel IH]; intros g H; cbn [run_timer]; [now split|].
  destruct (timer_step_silent g H) as (Hs & Hf & _).
  destruct (IH _ Hf) as (Hs' & Hf').
  destruct (timer g); try (now split); now rewrite Hs', Hs.
Qed.

Lemma ticks_app (l1 l2 : list output) : ticks (l1 ++ l2) = ticks l1 ++ ticks l2.
Proof. unfold ticks. apply flat_map_app. Qed.

Variables (t : nat) (out0 : list output).

Lemma timer_step_counting (g : gate) :
  counting t out0 g -> counting t out0 (timer_step stops_timer g).
Proof.
  intros (extra & rest & Hs & Hsum & Hup & Hdown).
  destruct (timer_expired g) eqn:Hflag.
  - destruct (timer_step_silent g Hflag) as (Hs' & Hf' & _).
    exists extra, rest. rewrite Hs', Hf'. repeat split; try assumption; discriminate.
  - destruct (Hdown eq_refl) as [Hno Hrest]. unfold timer_step. rewrite Hflag.
    destruct (timer g) as [[|r]|r|]; cbn [to_go option_map] in Hrest;
      try discriminate; injection Hrest as <-;
      unfold set_timer; cbn [shown timer_expired timer].
    + exists (extra ++ [TimesUp]), []. rewrite Hs, <- app_assoc, ticks_app.
      cbn [ticks flat_map app] in *. rewrite app_nil_r.
      repeat split; try assumption; discriminate.
    + exists (extra ++ [TimeRemaining (S r)]), (countdown r).
      rewrite Hs, <- app_assoc, ticks_app. cbn [ticks flat_map app countdown] in *.
      rewrite <- app_assoc. cbn [app]. repeat split; try assumption.
      * intros [Hin | [Hx | []]]%in_app_or; [contradiction | discriminate].
      * intros [Hin | [Hx | []]]%in_app_or; [contradiction | discriminate].
    + exists extra, (countdown r). rewrite app_nil_r.
      repeat split; try assumption; now intros.
Qed.

Lemma run_timer_counting (fuel : nat) (g : gate) :
  counting t out0 g -> counting t out0 (run_timer stops_timer fuel g).
Proof.
  revert g; induction fuel as [|fuel IH]; intros g H; cbn [run_timer]; [assumption|].
  destruct (timer g) eqn:Ht; try assumption; apply IH, timer_step_counting, H.
Qed.

(** A line of the main thread is neither a second nor "Time's up". *)
Lemma counting_main_output (g g' : gate) (o : list output) :
  counting t out0 g ->
  shown g' = shown g ++ o -> ticks o = [] -> ~ In TimesUp o ->
  (timer_expired g' = false -> timer_expired g = false /\ timer g' = timer g) ->
  counting t out0 g'.
Proof.
  intros (extra & rest & Hs & Hsum & Hup & Hdown) Hs' Ht Hno Hflag.
  exists (extra ++ o), rest. rewrite Hs', Hs, app_assoc, ticks_app, Ht, app_nil_r.
  repeat split; try assumption.
  - intros [Hin | Hin]%in_app_or; [now apply Hup | contradiction].
  - destruct (Hflag H) as [Hf _]. destruct (Hdown Hf) as [Hn _].
    intros [Hin | Hin]%in_app_or; contradiction.
  - destruct (Hflag H) as [Hf Htm]. destruct (Hdown Hf) as [_ Hr]. now rewrite Htm.
Qed.

Lemma main_step_counting (g : gate) :
  counting t out0 g -> counting t out0 (main_step stops_timer g).
Proof.
  intros Hg. unfold main_step. destruct (main g).
  - destruct (timer_expired g) eqn:Hflag.
    + apply (counting_main_output g _ [] Hg); cbn [shown timer_expired timer];
        rewrite ?app_nil_r; try easy.
    + apply (counting_main_output g _ [AnswerPrompt] Hg); cbn [shown timer_expired timer];
        try easy. now intros [|[]].
  - destruct (stdin g) as [|[s|] rest]; [assumption| |].
    + destruct (Py.in_list _ valid_choices).
      * apply (counting_main_output g _ [] Hg); cbn [shown timer_expired timer];
          rewrite ?app_nil_r; try easy.
      * apply (counting_main_output g _ [InvalidChoice] Hg);
          cbn [shown timer_expired timer]; try easy. now intros [|[]].
    + destruct stops_timer eqn:Hst.
      * match goal with
        | |- context [join ?b ?g1] =>
            destruct (run_timer_silent (steps_left (timer g1)) g1 eq_refl) as [Hs Hf]
        end.
        apply (counting_main_output g _ [QuizTerminatedByUser] Hg);
          cbn [shown timer_expired timer].
        -- unfold join. rewrite <- Hst at 1. rewrite Hs. reflexivity.
        -- reflexivity.
        -- now intros [|[]].
        -- unfold join. rewrite <- Hst at 1. rewrite Hf. discriminate.
      * apply (counting_main_output g _ [QuizTerminatedByUser] Hg);
          cbn [shown timer_expired timer]; try easy. now intros [|[]].
  - assumption.
  - assumption.
Qed.

Lemma run_gate_counting (sched : list thread) (g : gate) :
  counting t out0 g -> counting t out0 (run_gate stops_timer sched g).
Proof.
  revert g; induction sched as [|th sched IH]; intros g Hg; cbn [run_gate]; [assumption|].
  destruct (main g); try assumption; apply IH; destruct th; cbn [step];
    (apply main_step_counting || apply timer_step_counting); assumption.
Qed.

Lemma start_gate_counting (keys : list key) :
  counting t out0 (start_gate t keys out0).
Proof.
  exists [], (countdown t). cbn. rewrite app_nil_r. repeat split; try easy.
Qed.
End GateMore.

(** X10: while a question is open, under every interleaving of the two
    threads, the countdown of each of the four files shows the seconds from
    the time limit downwards, each at most once and in order, as far as it
    gets; "Time's up" is printed only after all of them have been shown. *)
Theorem countdown_shows_every_second (stops_timer : bool) (t : nat) (keys : list key)
    (out0 : list output) (sched : list thread) :
  exists extra rest,
    shown (run_gate stops_timer sched (start_gate t keys out0)) = out0 ++ extra /\
    ticks extra ++ rest = countdown t /\
    (In TimesUp extra -> ticks extra = countdown t).
Proof.
  destruct (run_gate_counting stops_timer t out0 sched _ (start_gate_counting t out0 keys))
    as (extra & rest & Hs & Hsum & Hup & _).
  exists extra, rest. repeat split; try assumption.
  intros Hin. rewrite (Hup Hin), app_nil_r in Hsum. exact Hsum.
Qed.

(** ** The countdown thread after an interrupt that does not stop it *)

Section Expiring.
Variable out0 : list output.

Lemma timer_step_expiring (g : gate) :
  expiring out0 g -> expiring out0 (timer_step false g).
Proof.
  intros (extra & Hs & Hup). destruct (timer_expired g) eqn:Hflag.
  - destruct (timer_step_silent false g Hflag) as (Hs' & Hf' & Hm' & _).
    exists extra. rewrite Hs', Hm'. split; [exact Hs|]. intros _. now apply Hup.
  - unfold timer_step. rewrite Hflag.
    destruct (timer g) as [[|r]|r|]; unfold set_timer; cbn [shown timer_expired main].
    + exists (extra ++ [TimesUp]). rewrite Hs, <- app_assoc. split; [reflexivity|].
      intros _. left. apply in_or_app. right. now left.
    + exists (extra ++ [TimeRemaining (S r)]). rewrite Hs, <- app_assoc.
      split; [reflexivity | discriminate].
    + exists extra. rewrite app_nil_r. split; [exact Hs | discriminate].
    + exists extra. split; [exact Hs|]. rewrite Hflag. discriminate.
Qed.

Lemma run_timer_expiring (fuel : nat) (g : gate) :
  expiring out0 g -> expiring out0 (run_timer false fuel g).
Proof.
  revert g; induction fuel as [|fuel IH]; intros g H; cbn [run_timer]; [assumption|].
  destruct (timer g); try assumption; apply IH, timer_step_expiring, H.
Qed.

Lemma main_step_expiring (g : gate) :
  expiring out0 g -> expiring out0 (main_step false g).
Proof.
  intros Hg. pose proof Hg as (extra & Hs & Hup). unfold main_step.
  destruct (main g) eqn:Hmain.
  - destruct (timer_expired g) eqn:Hflag; cbn [shown timer_expired main].
    + exists extra. cbn [shown timer_expired main]. split; [exact Hs|]. now right.
    + exists (extra ++ [AnswerPrompt]). cbn [shown timer_expired main].
      rewrite Hs, <- app_assoc. split; [reflexivity | discriminate].
  - destruct (stdin g) as [|[s|] rest]; [exact Hg| |].
    + destruct (Py.in_list (Py.strip (Py.upper s)) valid_choices).
      * exists extra. cbn [shown timer_expired main]. split; [exact Hs|]. now right.
      * exists (extra ++ [InvalidChoice]). cbn [shown timer_expired main].
        rewrite Hs, <- app_assoc. split; [reflexivity|]. intros Hf.
        destruct (Hup Hf) as [Hin | Hx]; [|discriminate].
        left. apply in_or_app. now left.
    + exists (extra ++ [QuizTerminatedByUser]). cbn [shown timer_expired main].
      rewrite Hs, <- app_assoc. split; [reflexivity|]. intros Hf.
      destruct (Hup Hf) as [Hin | Hx]; [|discriminate].
      left. apply in_or_app. now left.
  - exact Hg.
  - exact Hg.
Qed.

Lemma run_gate_expiring (sched : list thread) (g : gate) :
  expiring out0 g -> expiring out0 (run_gate false sched g).
Proof.
  revert g; induction sched as [|th sched IH]; intros g Hg; cbn [run_gate]; [assumption|].
  destruct (main g); try assumption; apply IH; destruct th; cbn [step];
    (apply main_step_expiring || apply timer_step_expiring); assumption.
Qed.

Lemma start_gate_expiring (t : nat) (keys : list key) :
  expiring out0 (start_gate t keys out0).
Proof. exists []. cbn. rewrite app_nil_r. split; [reflexivity | discriminate]. Qed.
End Expiring.

(** What the thread prints when left to itself is what [join] adds. *)
Lemma shown_leftover (stops_timer : bool) (g : gate) :
  shown g ++ leftover stops_timer g = shown (join stops_timer g).
Proof.
  unfold leftover, join.
  destruct (run_timer_frame stops_timer (steps_left (timer g)) g) as (_ & _ & _ & o & Hs & _).
  now rewrite Hs, skipn_app, skipn_all, Nat.sub_diag.
Qed.

(** X17: in quiz.py, quiz3.py and quiz5.py the interrupt handler returns
    without stopping the countdown thread of the interrupted question: with
    what that thread prints after the return, every second of the time
    limit and "Time's up" are printed for the question all the same. *)
Theorem interrupted_countdown_runs_on (t : nat) (keys : list key) (out0 : list output)
    (sched : list thread) :
  let g := run_gate false sched (start_gate t keys out0) in
  main g = Interrupted ->
  exists extra,
    shown g ++ leftover false g = out0 ++ extra /\
    In TimesUp extra /\ ticks extra = countdown t.
Proof.
  cbv zeta. intros Hmain.
  set (g := run_gate false sched (start_gate t keys out0)) in *.
  rewrite shown_leftover.
  assert (Hc : counting t out0 (join false g))
    by apply run_timer_counting, run_gate_counting, start_gate_counting.
  assert (He : expiring out0 (join false g))
    by apply run_timer_expiring, run_gate_expiring, start_gate_expiring.
  pose proof (join_returns false g) as Hret.
  destruct (run_timer_frame false (steps_left (timer g)) g) as (Hm & _).
  fold (join false g) in Hm. rewrite Hmain in Hm.
  destruct Hc as (extra & rest & Hs & Hsum & Hup & Hdown).
  destruct He as (extra' & Hs' & Hflag).
  assert (extra' = extra) as -> by (rewrite Hs in Hs'; now apply app_inv_head in Hs').
  destruct (timer_expired (join false g)) eqn:Hf.
  - destruct (Hflag eq_refl) as [Hin | Hx]; [|congruence].
    exists extra. split; [exact Hs|]. split; [exact Hin|].
    rewrite (Hup Hin), app_nil_r in Hsum. exact Hsum.
  - destruct (Hdown eq_refl) as [_ Hgo]. rewrite Hret in Hgo. discriminate.
Qed.

Lemma interrupted_countdown_runs_on_witness :
  main (run_gate false interrupted_at_once (start_gate 2 [CtrlC] [])) = Interrupted /\
  exists extra,
    shown (run_gate false interrupted_at_once (start_gate 2 [CtrlC] []))
      ++ leftover false (run_gate false interrupted_at_once (start_gate 2 [CtrlC] []))
    = [] ++ extra /\
    In TimesUp extra /\ ticks extra = countdown 2.
Proof.
  split; [reflexivity|].
  apply (interrupted_countdown_runs_on 2 [CtrlC] [] interrupted_at_once). reflexivity.
Defined.

(** ** What raises the flag of a question *)

Section FlagFacts.
Variable stops_timer : bool.

Lemma timer_step_flag (g : gate) :
  flag_raised_by g -> flag_raised_by (timer_step stops_timer g).
Proof.
  intros [H1 H2]. unfold timer_step, flag_raised_by.
  destruct (timer g) as [[|r]|r|]; [destruct (timer_expired g) eqn:Hf
                                  | destruct (timer_expired g) eqn:Hf | | ];
    unfold set_timer; cbn [shown timer_expired main answer]; rewrite ?app_nil_r.
  - split; [reflexivity | intros _; now apply H2].
  - split; [reflexivity | intros _; left; apply in_or_app; right; now left].
  - split; [reflexivity | intros _; now apply H2].
  - split; [exact H1 | discriminate].
  - now split.
  - now split.
Qed.

Lemma run_timer_flag (fuel : nat) (g : gate) :
  flag_raised_by g -> flag_raised_by (run_timer stops_timer fuel g).
Proof.
  revert g; induction fuel as [|fuel IH]; intros g H; cbn [run_timer]; [assumption|].
  destruct (timer g); try assumption; apply IH, timer_step_flag, H.
Qed.

Lemma main_step_flag (g : gate) :
  flag_raised_by g -> flag_raised_by (main_step stops_timer g).
Proof.
  intros Hg. pose proof Hg as [H1 H2]. unfold main_step. destruct (main g) eqn:Hmain.
  - destruct (timer_expired g) eqn:Hf; unfold flag_raised_by;
      cbn [shown timer_expired main answer].
    + split; [reflexivity|]. intros _.
      destruct (H2 eq_refl) as [H | [H | [H _]]]; [now left | discriminate | discriminate].
    + split; discriminate.
  - destruct (stdin g) as [|[s|] rest]; [exact Hg| |].
    + destruct (Py.in_list (Py.strip (Py.upper s)) valid_choices) eqn:Hv;
        unfold flag_raised_by; cbn [shown timer_expired main answer].
      * split; [reflexivity|]. intros _. right; right. split; [reflexivity|].
        now exists (Py.strip (Py.upper s)).
      * split; [discriminate|]. intros Hf.
        destruct (H2 Hf) as [H | [H | [H _]]]; [|discriminate|discriminate].
        left. apply in_or_app. now left.
    + unfold flag_raised_by; cbn [shown timer_expired main answer].
      split; [discriminate|]. intros _. right. now left.
  - exact Hg.
  - exact Hg.
Qed.

Lemma run_gate_flag (sched : list thread) (g : gate) :
  flag_raised_by g -> flag_raised_by (run_gate stops_timer sched g).
Proof.
  revert g; induction sched as [|th sched IH]; intros g Hg; cbn [run_gate]; [assumption|].
  destruct (main g); try assumption; apply IH; destruct th; cbn [step];
    (apply main_step_flag || apply timer_step_flag); assumption.
Qed.

Lemma start_gate_flag (t : nat) (keys : list key) (out0 : list output) :
  flag_raised_by (start_gate t keys out0).
Proof. split; discriminate. Qed.

(** What has been printed before a question is still there after it. *)
Lemma run_gate_keeps (sched : list thread) (t : nat) (keys : list key)
    (out0 : list output) :
  exists extra, shown (run_gate stops_timer sched (start_gate t keys out0)) = out0 ++ extra.
Proof.
  destruct (run_gate_open stops_timer out0 keys sched _ (start_gate_open out0 keys t))
    as [(_ & extra & _ & Hs & _) | (_ & _ & extra & _ & Hs & _)]; eauto.
Qed.

Lemma join_keeps (g : gate) : exists o, shown (join stops_timer g) = shown g ++ o.
Proof.
  destruct (run_timer_frame stops_timer (steps_left (timer g)) g) as (_ & _ & _ & o & Hs & _).
  now exists o.
Qed.

(** A valid choice is not the empty string. *)
Lemma valid_or_timeout (a : string) :
  Py.in_list a valid_choices = true -> or_timeout (Some a) = a.
Proof.
  intros H. unfold or_timeout. destruct (String.eqb a "") eqn:E; [|reflexivity].
  apply String.eqb_eq in E. subst a. discriminate.
Qed.

Variables (time_per_question : nat) (num_questions : Z).

(** Unless "Time's up" is printed, the loop records valid answers only. *)
Lemma ask_timely (questions : list question_dict) :
  forall (i : nat) (scheds : list (list thread)) (st st' : session) (e : loop_end),
  ask stops_timer time_per_question num_questions i questions scheds st = (st', e) ->
  timely st -> timely st'.
Proof.
  induction questions as [|q rest IH]; intros i scheds st st' e; cbn [ask].
  - now intros [= <- <-].
  - set (out0 := display st ++ show_question i num_questions q).
    destruct (run_gate_keeps (hd [] scheds) time_per_question (keyboard st) out0)
      as [extra Hs].
    pose proof (run_gate_flag (hd [] scheds) _
                  (start_gate_flag time_per_question (keyboard st) out0)) as [H1 H2].
    set (g := run_gate stops_timer (hd [] scheds)
                (start_gate time_per_question (keyboard st) out0)) in *.
    assert (Hkept : In TimesUp (display st) -> In TimesUp (shown g)).
    { intros Hin. rewrite Hs. unfold out0. rewrite <- app_assoc. apply in_or_app. now left. }
    assert (Hsame : forall sc kb,
              timely st ->
              timely {| score := sc; answers := answers st; display := shown g;
                        keyboard := kb |}).
    { intros sc kb [Hin | Hall]; [left; now apply Hkept | now right]. }
    destruct (main g) eqn:Hmain.
    + intros [= <- <-]. apply Hsame.
    + intros [= <- <-]. apply Hsame.
    + intros Hask Hst. apply IH in Hask; [exact Hask|]. clear IH Hask.
      destruct (join_keeps g) as [o Ho]. unfold timely. cbn [display answers]. rewrite Ho.
      destruct (H2 (H1 eq_refl)) as [Hin | [Hx | (_ & a & Ha & Hv)]].
      * left. apply in_or_app. now left.
      * discriminate.
      * destruct Hst as [Hin | Hall]; [left; apply in_or_app; left; now apply Hkept|].
        right. apply Forall_app. split; [assumption|]. constructor; [|constructor].
        unfold valid_record. cbn [user_answer]. now rewrite Ha, valid_or_timeout.
    + intros [= <- <-]. apply Hsame.
Qed.

(** The score counts the records with the correct answer; the records are
    numbered from [i] on and carry the correct answer and the explanation of
    their questions, in order. *)
Lemma ask_records (questions : list question_dict) :
  forall (i : nat) (scheds : list (list thread)) (st st' : session) (e : loop_end),
  ask stops_timer time_per_question num_questions i questions scheds st = (st', e) ->
  exists new,
    answers st' = answers st ++ new /\
    score st' = (score st + count_correct new)%Z /\
    map question_num new = seq i (length new) /\
    map correct_answer new = map correct (firstn (length new) questions) /\
    map answer_explanation new = map explanation (firstn (length new) questions).
Proof.
  assert (Hnone : forall (st st' : session) qs i,
            answers st' = answers st -> score st' = score st ->
            exists new : list answer_dict,
              answers st' = answers st ++ new /\
              score st' = (score st + count_correct new)%Z /\
              map question_num new = seq i (length new) /\
              map correct_answer new = map correct (firstn (length new) qs) /\
              map answer_explanation new = map explanation (firstn (length new) qs)).
  { intros st st' qs i -> ->. exists []. cbn. rewrite app_nil_r. repeat split. lia. }
  induction questions as [|q rest IH]; intros i scheds st st' e; cbn [ask].
  - intros [= <- <-]. now apply Hnone.
  - match goal with |- context [main ?g0] => set (g := g0) end.
    destruct (main g).
    + intros [= <- <-]. now apply Hnone.
    + intros [= <- <-]. now apply Hnone.
    + intros Hask. apply IH in Hask as (new & Ha & Hsc & Hn & Hc & He).
      cbn [answers score] in Ha, Hsc.
      match type of Ha with _ = (_ ++ [?r]) ++ _ => exists (r :: new) end.
      rewrite Ha, Hsc, <- app_assoc. cbn [app length firstn map seq question_num
        correct_answer answer_explanation]. rewrite Hn, Hc, He.
      repeat split. unfold count_correct. cbn [filter user_answer correct_answer].
      destruct (String.eqb (or_timeout (answer g)) (correct q)); cbn [length]; lia.
    + intros [= <- <-]. now apply Hnone.
Qed.
End FlagFacts.

(** ** Sessions as a whole *)

Lemma in_list_In (x : string) (l : list string) : Py.in_list x l = true <-> In x l.
Proof.
  unfold Py.in_list. rewrite existsb_exists. split.
  - intros (y & Hy & E). apply String.eqb_eq in E. now subst y.
  - intros H. exists x. split; [assumption | apply String.eqb_refl].
Qed.

Lemma valid_records_In (l : list answer_dict) :
  Forall valid_record l -> Forall (fun a => In (user_answer a) valid_choices) l.
Proof. apply Forall_impl. intros a. apply in_list_In. Qed.

Lemma count_correct_bounds (l : list answer_dict) :
  (0 <= count_correct l <= Z.of_nat (length l))%Z.
Proof.
  unfold count_correct. pose proof (filter_length_le
    (fun a => String.eqb (user_answer a) (correct_answer a)) l). lia.
Qed.

(** The lines of the report hold no "Time's up". *)
Lemma report_lines_no_times_up (l : list answer_dict) : ~ In TimesUp (flat_map feedback l).
Proof.
  induction l as [|a l IH]; cbn [flat_map]; [easy|].
  intros [H | H]%in_app_or; [|contradiction].
  unfold feedback in H. cbn [In] in H.
  destruct (String.eqb (user_answer a) "TIMEOUT"); intuition discriminate.
Qed.

Section RunMore.
Variable stops_timer : bool.
Variable generate_quiz : string -> option (list question_dict * list output).
Variables (response_text : string) (scheds : list (list thread)) (keys : list key).
Variables (topic level : string) (num_questions : Z).

(** A call of [run_quiz] either stops before the first question, with
    nothing recorded, or goes through the loop of the questions. *)
Lemma run_quiz_asks :
  let r := run_quiz stops_timer generate_quiz response_text scheds keys topic level
             num_questions in
  (answers_of r = [] /\ score_of r = 0%Z /\ unread r = keys /\
   (ending_of r = InvalidLevel \/ ending_of r = GenerationException \/
    ending_of r = NoQuestions /\ exists msgs, generate_quiz response_text = Some ([], msgs))) \/
  exists questions msgs t st e,
    generate_quiz response_text = Some (questions, msgs) /\
    time_limits (Py.lower level) = Some t /\
    ask stops_timer t num_questions 1 questions scheds
      {| score := 0; answers := []; display := GeneratingQuiz level topic :: msgs;
         keyboard := keys |} = (st, e) /\
    answers_of r = answers st /\ score_of r = score st /\
    match e with
    | AllAsked => r = report topic num_questions st
    | Aborted _ => ending_of r = TerminatedByUser /\ output_of r = display st
    | Waiting => ending_of r = WaitingForInput /\ output_of r = display st
    end.
Proof.
  cbv zeta. unfold run_quiz.
  destruct (Py.in_list (Py.lower level) difficulty_levels) eqn:Hlevel; cbn [negb].
  2:{ left. cbn. repeat split. now left. }
  destruct (generate_quiz response_text) as [[questions msgs]|] eqn:Hgen.
  2:{ left. cbn. repeat split. right. now left. }
  destruct questions as [|q questions].
  { left. cbn. repeat split. right. right. split; [reflexivity|]. now exists msgs. }
  destruct (time_limits (Py.lower level)) as [t|] eqn:Ht;
    [|now apply level_has_time_limit in Hlevel].
  destruct (ask stops_timer t num_questions 1 (q :: questions) scheds _) as [st e] eqn:Hask.
  right. exists (q :: questions), msgs, t, st, e.
  destruct e; repeat split; try assumption; try reflexivity;
    unfold report; now destruct (percentage (score st) num_questions).
Qed.
End RunMore.

(** The retry never ends in the [KeyError] of the prompt lookup, and what it
    prints holds no question header and no "Time's up". *)
Lemma generate_retrying_outcome (snippets : bool) (model : nat -> string)
    (num_questions : Z) (fuel : nat) :
  forall call,
    outcome (generate_retrying snippets fuel model call num_questions) <> PromptKeyError /\
    headers (printed (generate_retrying snippets fuel model call num_questions)) = [] /\
    ~ In TimesUp (printed (generate_retrying snippets fuel model call num_questions)).
Proof.
  induction fuel as [|fuel IH]; intros call; cbn [generate_retrying].
  - cbn. repeat split; easy.
  - destruct (String.eqb (model call) ""); [cbn; repeat split; easy|].
    pose proof (parse_loop_messages (parse_snippet_question snippets)
                  (Quiz.raw_questions (model call))) as Hmsgs.
    destruct (parse_loop _ _) as [questions msgs]. cbn [snd] in Hmsgs.
    destruct (parse_message_plain msgs Hmsgs) as [Hh Hr].
    assert (Hno : ~ In TimesUp msgs).
    { intros Hin. rewrite forallb_forall in Hmsgs. now apply Hmsgs in Hin. }
    destruct (Z.ltb _ _); cbn [outcome printed].
    + destruct (IH (S call)) as (Ho & Hp & Ht). split; [exact Ho|]. split.
      * unfold headers in *. rewrite filter_app, Hh. cbn [filter is_header app]. exact Hp.
      * intros [Hin | [Hin | Hin]]%in_app_or; [contradiction | discriminate | contradiction].
    + repeat split; [discriminate | exact Hh | exact Hno].
Qed.

Section SnippetRunMore.
Variables (quiz5 : bool) (fuel : nat) (model : nat -> string).
Variables (scheds : list (list thread)) (keys : list key).
Variables (topic level : string) (num_questions : Z).

(** The same for quiz3.py and quiz5.py. *)
Lemma snippet_run_quiz_asks :
  let r := snippet_run_quiz quiz5 fuel model scheds keys topic level num_questions in
  let gen := snippet_generate quiz5 fuel model level num_questions in
  (s_answers r = [] /\ s_score r = 0%Z /\ s_unread r = keys /\
   (Py.in_list (Py.lower level) difficulty_levels = false /\
    s_ending r = SInvalidLevel /\ s_output r = [InvalidDifficulty] \/
    Py.in_list (Py.lower level) difficulty_levels = true /\
    (s_output r = GeneratingQuiz level topic :: printed gen /\
     (outcome gen = PromptKeyError /\ s_ending r = SPromptKeyError \/
      outcome gen = GenerationFailed /\ s_ending r = SGenerationException \/
      outcome gen = RecursionError /\ s_ending r = SRecursionError) \/
     s_output r = GeneratingQuiz level topic :: printed gen ++ [FailedToGenerate] /\
     outcome gen = Questions [] /\ s_ending r = SNoQuestions))) \/
  exists questions t st e,
    Py.in_list (Py.lower level) difficulty_levels = true /\
    outcome gen = Questions questions /\ questions <> [] /\
    time_limits (Py.lower level) = Some t /\
    ask false t num_questions 1 questions scheds
      {| score := 0; answers := []; display := GeneratingQuiz level topic :: printed gen;
         keyboard := keys |} = (st, e) /\
    s_answers r = answers st /\ s_score r = score st /\
    match e with
    | AllAsked =>
        exists report_lines,
          s_output r = display st ++ [ResultsHeader; ScoreLine (score st) num_questions]
                         ++ report_lines /\
          headers report_lines = [] /\ ~ In TimesUp report_lines /\
          s_ending r = (if quiz5 then SReturned
                        else match percentage (score st) num_questions with
                             | None => SZeroDivisionError
                             | Some p => SFinalScore p
                             end)
    | Aborted _ => s_ending r = STerminatedByUser /\ s_output r = display st
    | Waiting => s_ending r = SWaitingForInput /\ s_output r = display st
    end.
Proof.
  cbv zeta. unfold snippet_run_quiz.
  destruct (Py.in_list (Py.lower level) difficulty_levels) eqn:Hlevel; cbn [negb].
  2:{ left. cbn. repeat split. now left. }
  destruct (outcome (snippet_generate quiz5 fuel model level num_questions))
    as [[|q questions]| | |] eqn:Hgen.
  - left. cbn. repeat split. right. split; [reflexivity|]. now right.
  - destruct (time_limits (Py.lower level)) as [t|] eqn:Ht;
      [|now apply level_has_time_limit in Hlevel].
    destruct (ask false t num_questions 1 (q :: questions) scheds _) as [st e] eqn:Hask.
    right. exists (q :: questions), t, st, e.
    do 5 (split; [first [assumption | reflexivity | discriminate]|]).
    destruct e; [|now repeat split..].
    split; [|split].
    + destruct quiz5; [reflexivity|].
      now destruct (percentage (score st) num_questions).
    + destruct quiz5; [reflexivity|].
      now destruct (percentage (score st) num_questions).
    + destruct quiz5.
      * exists []. cbn [halted s_output s_ending]. rewrite app_nil_r.
        repeat split; easy.
      * exists (FeedbackHeader :: flat_map feedback (answers st) ++ [AnalysisHeader]).
        assert (Hh : headers (FeedbackHeader :: flat_map feedback (answers st)
                                ++ [AnalysisHeader]) = []).
        { unfold headers. cbn [filter is_header]. rewrite filter_app.
          fold (headers (flat_map feedback (answers st))). now rewrite feedback_headers. }
        assert (Ht' : ~ In TimesUp (FeedbackHeader :: flat_map feedback (answers st)
                                      ++ [AnalysisHeader])).
        { intros [Hx | [Hx | [Hx | []]]%in_app_or]; try discriminate.
          now apply report_lines_no_times_up in Hx. }
        destruct (percentage (score st) num_questions);
          cbn [halted s_output s_ending]; rewrite <- !app_assoc; now repeat split.
  - left. cbn. repeat split. right. split; [reflexivity|]. left. split; [reflexivity|].
    right. left. now split.
  - left. cbn. repeat split. right. split; [reflexivity|]. left. split; [reflexivity|].
    left. now split.
  - left. cbn. repeat split. right. split; [reflexivity|]. left. split; [reflexivity|].
    right. right. now split.
Qed.
End SnippetRunMore.

(** ** Properties of whole sessions *)

Lemma report_keeps_display (topic : string) (num_questions : Z) (st : session) :
  exists more, output_of (report topic num_questions st) = display st ++ more.
Proof.
  unfold report. destruct (percentage (score st) num_questions);
    cbn [stopped output_of]; rewrite <- ?app_assoc; eauto.
Qed.

Lemma run_quiz_timely (stops_timer : bool)
    (generate_quiz : string -> option (list question_dict * list output))
    (response_text : string) (scheds : list (list thread)) (keys : list key)
    (topic level : string) (num_questions : Z) :
  let r := run_quiz stops_timer generate_quiz response_text scheds keys topic level
             num_questions in
  In TimesUp (output_of r) \/ Forall valid_record (answers_of r).
Proof.
  destruct (run_quiz_asks stops_timer generate_quiz response_text scheds keys topic level
              num_questions)
    as [(Ha & _) | (questions & msgs & t & st & e & _ & _ & Hask & Ha & _ & He)]; cbv zeta.
  - right. rewrite Ha. constructor.
  - apply ask_timely in Hask; [|right; constructor].
    rewrite Ha. destruct Hask as [Hin | Hall]; [left | now right].
    destruct e.
    + rewrite He. destruct (report_keeps_display topic num_questions st) as [more ->].
      apply in_or_app. now left.
    + destruct He as [_ ->]. exact Hin.
    + destruct He as [_ ->]. exact Hin.
Qed.

Lemma snippet_run_quiz_timely (quiz5 : bool) (fuel : nat) (model : nat -> string)
    (scheds : list (list thread)) (keys : list key) (topic level : string)
    (num_questions : Z) :
  let r := snippet_run_quiz quiz5 fuel model scheds keys topic level num_questions in
  In TimesUp (s_output r) \/ Forall valid_record (s_answers r).
Proof.
  destruct (snippet_run_quiz_asks quiz5 fuel model scheds keys topic level num_questions)
    as [(Ha & _) | (questions & t & st & e & _ & _ & _ & _ & Hask & Ha & _ & He)]; cbv zeta.
  - right. rewrite Ha. constructor.
  - apply ask_timely in Hask; [|right; constructor].
    rewrite Ha. destruct Hask as [Hin | Hall]; [left | now right].
    destruct e.
    + destruct He as (lines & -> & _). apply in_or_app. now left.
    + destruct He as [_ ->]. exact Hin.
    + destruct He as [_ ->]. exact Hin.
Qed.

(** X11: in all four files a session in which "Time's up" is never printed
    records only answers among A, B, C, D: a missing answer ("TIMEOUT") or an
    invalid choice gets into the records only when the time of some question
    has run out. *)
Theorem invalid_record_only_after_times_up (quiz1 quiz5 : bool) (response_text : string)
    (fuel : nat) (model : nat -> string) (scheds : list (list thread)) (keys : list key)
    (topic level : string) (num_questions : Z) :
  let r := run_quiz_of quiz1 response_text scheds keys topic level num_questions in
  let r' := snippet_run_quiz quiz5 fuel model scheds keys topic level num_questions in
  (In TimesUp (output_of r) \/
   Forall (fun a => In (user_answer a) valid_choices) (answers_of r)) /\
  (In TimesUp (s_output r') \/
   Forall (fun a => In (user_answer a) valid_choices) (s_answers r')).
Proof.
  cbv zeta. split.
  - destruct quiz1; cbn [run_quiz_of]; unfold Quiz1.run_quiz, Quiz.run_quiz;
      match goal with
      | |- context [run_quiz ?b ?g] =>
          destruct (run_quiz_timely b g response_text scheds keys topic level num_questions)
            as [H | H]; [left; exact H | right; apply valid_records_In, H]
      end.
  - destruct (snippet_run_quiz_timely quiz5 fuel model scheds keys topic level num_questions)
      as [H | H]; [now left | right; apply valid_records_In, H].
Qed.

Lemma ask_keeps_book (stops_timer : bool) (t : nat) (num_questions : Z)
    (questions : list question_dict) (scheds : list (list thread)) (out : list output)
    (keys : list key) (st : session) (e : loop_end) :
  ask stops_timer t num_questions 1 questions scheds
    {| score := 0; answers := []; display := out; keyboard := keys |} = (st, e) ->
  keeps_book questions (score st) (answers st).
Proof.
  intros Hask. apply ask_records in Hask as (new & Ha & Hs & Hn & Hc & He).
  cbn [answers score app] in Ha, Hs. rewrite Ha, Hs.
  pose proof (count_correct_bounds new). unfold keeps_book. repeat split; try assumption; lia.
Qed.

Lemma keeps_book_nil (questions : list question_dict) : keeps_book questions 0 [].
Proof. unfold keeps_book. cbn. repeat split; lia. Qed.

(** X12: in all four files the score is the number of records whose answer
    equals the correct answer; the records are numbered 1, 2, ... and carry,
    in order, the correct answer and the explanation of the questions that
    [generate_quiz] returned. *)
Theorem score_counts_correct_records (quiz1 quiz5 : bool) (response_text : string)
    (fuel : nat) (model : nat -> string) (scheds : list (list thread)) (keys : list key)
    (topic level : string) (num_questions : Z) :
  let r := run_quiz_of quiz1 response_text scheds keys topic level num_questions in
  let r' := snippet_run_quiz quiz5 fuel model scheds keys topic level num_questions in
  keeps_book (generated_questions quiz1 response_text) (score_of r) (answers_of r) /\
  keeps_book (snippet_questions quiz5 fuel model level num_questions)
    (s_score r') (s_answers r').
Proof.
  cbv zeta. split.
  - unfold generated_questions.
    destruct quiz1; cbn [run_quiz_of]; unfold Quiz1.run_quiz, Quiz.run_quiz;
      match goal with
      | |- context [run_quiz ?b ?g] =>
          destruct (run_quiz_asks b g response_text scheds keys topic level num_questions)
            as [(Ha & Hs & _) | (questions & msgs & t & st & e & Hgen & _ & Hask & Ha & Hs & _)]
      end; rewrite Ha, Hs; try apply keeps_book_nil;
      rewrite Hgen; eapply ask_keeps_book, Hask.
  - unfold snippet_questions.
    destruct (snippet_run_quiz_asks quiz5 fuel model scheds keys topic level num_questions)
      as [(Ha & Hs & _) | (questions & t & st & e & _ & Hgen & _ & _ & Hask & Ha & Hs & _)];
      rewrite Ha, Hs; [apply keeps_book_nil|].
    rewrite Hgen. eapply ask_keeps_book, Hask.
Qed.

Lemma percentage_cases (sc num_questions : Z) :
  (num_questions = 0%Z /\ percentage sc num_questions = None) \/
  (num_questions <> 0%Z /\
   percentage sc num_questions = Some (inject_Z sc / inject_Z num_questions * 100)%Q).
Proof.
  unfold percentage. destruct (Z.eqb_spec num_questions 0); [left | right]; now split.
Qed.

Lemma run_quiz_report (stops_timer : bool)
    (generate_quiz : string -> option (list question_dict * list output))
    (response_text : string) (scheds : list (list thread)) (keys : list key)
    (topic level : string) (num_questions : Z) :
  let r := run_quiz stops_timer generate_quiz response_text scheds keys topic level
             num_questions in
  ending_of r <> KeyError /\
  match ending_of r with
  | ZeroDivisionError =>
      num_questions = 0%Z /\
      exists before,
        output_of r = before ++ [ResultsHeader; ScoreLine (score_of r) 0; FeedbackHeader]
                        ++ flat_map feedback (answers_of r)
  | Completed p =>
      num_questions <> 0%Z /\
      p = (inject_Z (score_of r) / inject_Z num_questions * 100)%Q /\
      exists before,
        output_of r = before ++ [ResultsHeader; ScoreLine (score_of r) num_questions;
                                 FeedbackHeader]
                        ++ flat_map feedback (answers_of r)
                        ++ [AnalysisHeader; analysis topic p]
  | _ => True
  end.
Proof.
  cbv zeta.
  destruct (run_quiz_asks stops_timer generate_quiz response_text scheds keys topic level
              num_questions)
    as [(_ & _ & _ & [He | [He | [He _]]])
       | (questions & msgs & t & st & e & _ & _ & _ & _ & _ & He)];
    try (rewrite He; split; [discriminate | exact I]).
  destruct e; [|destruct He as [-> _]; split; [discriminate | exact I]..].
  rewrite He. unfold report.
  destruct (percentage_cases (score st) num_questions) as [[Hz ->] | [Hnz ->]];
    cbn [stopped ending_of output_of score_of answers_of].
  - split; [discriminate|]. split; [exact Hz|]. exists (display st). now rewrite Hz.
  - split; [discriminate|]. split; [exact Hnz|]. split; [reflexivity|].
    exists (display st). now rewrite <- !app_assoc.
Qed.

(** X13: in quiz.py and quiz1.py the lookup of the time limit never fails,
    since the level has passed the check; the report divides by the number
    of questions asked for: with 0 asked for and questions returned all the
    same, the session ends in a ZeroDivisionError after the score and the
    feedback, before the analysis; otherwise the analysis is that of the
    exact percentage score / num_questions * 100. *)
Theorem report_divides_by_requested_count (quiz1 : bool) (response_text : string)
    (scheds : list (list thread)) (keys : list key) (topic level : string)
    (num_questions : Z) :
  let r := run_quiz_of quiz1 response_text scheds keys topic level num_questions in
  ending_of r <> KeyError /\
  match ending_of r with
  | ZeroDivisionError =>
      num_questions = 0%Z /\
      exists before,
        output_of r = before ++ [ResultsHeader; ScoreLine (score_of r) 0; FeedbackHeader]
                        ++ flat_map feedback (answers_of r)
  | Completed p =>
      num_questions <> 0%Z /\
      p = (inject_Z (score_of r) / inject_Z num_questions * 100)%Q /\
      exists before,
        output_of r = before ++ [ResultsHeader; ScoreLine (score_of r) num_questions;
                                 FeedbackHeader]
                        ++ flat_map feedback (answers_of r)
                        ++ [AnalysisHeader; analysis topic p]
  | _ => True
  end.
Proof. destruct quiz1; cbn [run_quiz_of]; apply run_quiz_report. Qed.

(** X14: a response that is not empty but holds no capital Q makes the
    [run_quiz] of quiz.py print the failure notice and return with nothing
    read from the keyboard; a response that is not empty but holds no "Q1."
    makes the [generate_quiz] of quiz1.py raise, and its [run_quiz] with it,
    before the failure notice. *)
Theorem response_without_questions (response_text : string) (scheds : list (list thread))
    (keys : list key) (topic level : string) (num_questions : Z) :
  response_text <> "" ->
  Py.in_list (Py.lower level) difficulty_levels = true ->
  (free_of "Q" response_text ->
   Quiz.run_quiz response_text scheds keys topic level num_questions
   = stopped_early NoQuestions [GeneratingQuiz level topic; FailedToGenerate] keys) /\
  (~ occurs "Q1." response_text ->
   Quiz1.run_quiz response_text scheds keys topic level num_questions
   = stopped_early GenerationException [GeneratingQuiz level topic] keys).
Proof.
  intros Hne Hlevel. apply String.eqb_neq in Hne. split; intros Hq.
  - unfold Quiz.run_quiz, run_quiz, Quiz.generate_quiz, Quiz.raw_questions, Py.split.
    rewrite Hlevel, Hne, split_fuel_whole by exact Hq. reflexivity.
  - unfold Quiz1.run_quiz, run_quiz, Quiz1.generate_quiz. rewrite Hlevel, Hne.
    destruct (Py.partition "Q1." response_text) eqn:E; [|reflexivity].
    exfalso. apply Hq, occurs_partition. congruence.
Qed.

Lemma response_without_questions_witness :
  Quiz.run_quiz (no_questions 0) [] [Line "a"] "loops" "Beginner" 3
  = stopped_early NoQuestions [GeneratingQuiz "Beginner" "loops"; FailedToGenerate] [Line "a"] /\
  Quiz1.run_quiz (no_questions 0) [] [Line "a"] "loops" "Beginner" 3
  = stopped_early GenerationException [GeneratingQuiz "Beginner" "loops"] [Line "a"].
Proof.
  assert (Hq : free_of "Q" (no_questions 0)).
  { intros H. apply occurs_partition in H. now apply H. }
  assert (Hq1 : ~ occurs "Q1." (no_questions 0)).
  { intros H. apply occurs_partition in H. now apply H. }
  destruct (response_without_questions (no_questions 0) [] [Line "a"] "loops" "Beginner" 3)
    as [H1 H2]; [discriminate | reflexivity |].
  split; [exact (H1 Hq) | exact (H2 Hq1)].
Defined.

(** ** Sessions of quiz3.py and quiz5.py *)

Lemma snippet_generate_facts (quiz5 : bool) (fuel : nat) (model : nat -> string)
    (level : string) (num_questions : Z) :
  let gen := snippet_generate quiz5 fuel model level num_questions in
  headers (printed gen) = [] /\
  ~ In TimesUp (printed gen) /\
  (outcome gen = PromptKeyError <->
   quiz5 = true /\ Py.in_list level difficulty_levels = false) /\
  forall qs, outcome gen = Questions qs -> (num_questions <= Z.of_nat (length qs))%Z.
Proof.
  cbv zeta. unfold snippet_generate, Quiz5.generate_quiz, Quiz3.generate_quiz.
  destruct quiz5.
  - destruct (Py.in_list level difficulty_levels) eqn:E.
    + destruct (generate_retrying_outcome (Quiz5.snippets_for level) model num_questions
                  fuel 0%nat) as (Ho & Hh & Ht).
      split; [exact Hh|]. split; [exact Ht|]. split.
      * split; [intros H; contradiction | intros [_ H]; discriminate].
      * intros qs Hq. apply generate_retrying_questions in Hq as (k & _ & _ & Hle & _).
        exact Hle.
    + cbn [outcome printed]. split; [reflexivity|]. split; [intros []|]. split.
      * split; [now intros _ | reflexivity].
      * discriminate.
  - destruct (generate_retrying_outcome true model num_questions fuel 0%nat)
      as (Ho & Hh & Ht).
    split; [exact Hh|]. split; [exact Ht|]. split.
    + split; [intros H; contradiction | intros [H _]; discriminate].
    + intros qs Hq. apply generate_retrying_questions in Hq as (k & _ & _ & Hle & _).
      exact Hle.
Qed.

(** X15: how a session of quiz3.py or quiz5.py can end.  The lookup of the
    time limit never fails.  The prompt lookup of quiz5.py fails exactly for
    a level that passes the check in lower case without being in lower case
    itself.  The failure notice for an empty list of questions is reached
    only when no question was asked for; quiz3.py divides by the number of
    questions asked for, which raises when that is 0, and quiz5.py returns
    after the score without dividing. *)
Theorem snippet_session_endings (quiz5 : bool) (fuel : nat) (model : nat -> string)
    (scheds : list (list thread)) (keys : list key) (topic level : string)
    (num_questions : Z) :
  let r := snippet_run_quiz quiz5 fuel model scheds keys topic level num_questions in
  s_ending r <> SLimitKeyError /\
  (s_ending r = SPromptKeyError <->
   quiz5 = true /\ Py.in_list (Py.lower level) difficulty_levels = true /\
   Py.in_list level difficulty_levels = false) /\
  match s_ending r with
  | SNoQuestions => (num_questions <= 0)%Z
  | SZeroDivisionError => quiz5 = false /\ num_questions = 0%Z
  | SFinalScore p =>
      quiz5 = false /\ num_questions <> 0%Z /\
      p = (inject_Z (s_score r) / inject_Z num_questions * 100)%Q
  | SReturned => quiz5 = true
  | _ => True
  end.
Proof.
  cbv zeta.
  destruct (snippet_generate_facts quiz5 fuel model level num_questions)
    as (_ & _ & Hiff & Hlen).
  assert (Hother : forall e,
            outcome (snippet_generate quiz5 fuel model level num_questions) <> PromptKeyError ->
            e <> SPromptKeyError ->
            (e = SPromptKeyError <->
             quiz5 = true /\ Py.in_list (Py.lower level) difficulty_levels = true /\
             Py.in_list level difficulty_levels = false)).
  { intros e Ho He. split; [intros H; contradiction|].
    intros (Hq & _ & Hlv). exfalso. apply Ho, Hiff. now split. }
  destruct (snippet_run_quiz_asks quiz5 fuel model scheds keys topic level num_questions)
    as [(_ & _ & _ & [(Hl & He & _) | (Hl & [(_ & [[Ho He] | [[Ho He] | [Ho He]]])
                                            | (_ & Ho & He)])])
       | (questions & t & st & e & Hl & Ho & _ & _ & _ & _ & Hs & He)].
  - rewrite He. split; [discriminate|]. split; [|exact I].
    split; [discriminate | intros (_ & H & _); congruence].
  - rewrite He. split; [discriminate|]. split; [|exact I].
    split; [intros _ | reflexivity]. apply Hiff in Ho as [Hq Hlv]. now repeat split.
  - rewrite He. split; [discriminate|]. split; [|exact I].
    apply Hother; [rewrite Ho|]; discriminate.
  - rewrite He. split; [discriminate|]. split; [|exact I].
    apply Hother; [rewrite Ho|]; discriminate.
  - rewrite He. split; [discriminate|]. split.
    + apply Hother; [rewrite Ho|]; discriminate.
    + apply Hlen in Ho. exact Ho.
  - assert (Hnot : outcome (snippet_generate quiz5 fuel model level num_questions)
                   <> PromptKeyError) by (rewrite Ho; discriminate).
    destruct e.
    + destruct He as (lines & _ & _ & _ & He). rewrite He, Hs.
      destruct quiz5.
      * split; [discriminate|]. split; [apply Hother; [exact Hnot | discriminate]|].
        reflexivity.
      * destruct (percentage_cases (score st) num_questions) as [[Hz ->] | [Hnz ->]].
        -- split; [discriminate|]. split; [apply Hother; [exact Hnot | discriminate]|].
           now split.
        -- split; [discriminate|]. split; [apply Hother; [exact Hnot | discriminate]|].
           now repeat split.
    + destruct He as [-> _]. split; [discriminate|].
      split; [apply Hother; [exact Hnot | discriminate] | exact I].
    + destruct He as [-> _]. split; [discriminate|].
      split; [apply Hother; [exact Hnot | discriminate] | exact I].
Qed.


Lemma snippet_session_endings_witness :
  s_ending (Quiz5Session.run_quiz 1 (fun _ => quiz_text ["b"]) [] [] "loops" "Beginner" 1)
  = SPromptKeyError.
Proof.
  destruct (snippet_session_endings true 1 (fun _ => quiz_text ["b"]) [] [] "loops"
              "Beginner" 1) as (_ & Hiff & _).
  apply Hiff. now repeat split.
Defined.


(** ** The answer line *)

(** A text that begins with the separator and holds it nowhere else splits
    into the empty piece and the rest. *)
Lemma split_prefix (sep body : string) :
  sep <> "" -> ~ occurs sep body -> Py.split sep (sep ++ body) = [""; body].
Proof.
  intros Hsep Hfree. unfold Py.split.
  destruct (String.length (sep ++ body)) as [|n] eqn:Hlen.
  - rewrite length_append in Hlen. destruct sep; [now elim Hsep | simpl in Hlen; lia].
  - cbn [Py.split_fuel]. rewrite partition_prefix. now rewrite split_fuel_whole.
Qed.

Lemma replace_prefix (sep body : string) :
  sep <> "" -> ~ occurs sep body -> Py.replace sep "" (sep ++ body) = body.
Proof.
  intros Hsep Hfree. unfold Py.replace. now rewrite split_prefix.
Qed.

(** C4, as the code has it: every dictionary parsed by quiz.py or quiz1.py
    has exactly the option keys A, B, C, D, and its [correct] entry is in
    upper case whatever the case of the source text.  For an answer line made
    of the "Correct: " marker and a text it is that text, stripped and
    upper-cased; in general quiz.py takes what stands between the first
    marker of the line and the next one, quiz1.py the whole line with every
    marker deleted.  Nothing checks that it is one of the four letters. *)
Theorem parsed_item_keys_and_case (q : string) (d : question_dict) :
  (Quiz.parse_question q = Parsed d ->
   option_keys d = ["A"; "B"; "C"; "D"] /\
   Py.upper (correct d) = correct d /\
   (exists line written,
      nth_error (candidate_lines q) 5 = Some line /\
      nth_error (Py.split "Correct: " line) 1 = Some written /\
      correct d = Py.upper (Py.strip written)) /\
   (forall written,
      nth_error (candidate_lines q) 5 = Some ("Correct: " ++ written)%string ->
      ~ occurs "Correct: " written ->
      correct d = Py.upper (Py.strip written))) /\
  (Quiz1.parse_question q = Parsed d ->
   option_keys d = ["A"; "B"; "C"; "D"] /\
   Py.upper (correct d) = correct d /\
   (exists line,
      nth_error (Quiz1.stripped_lines q) 5 = Some line /\
      correct d = Py.upper (Py.strip (Py.replace "Correct: " "" line))) /\
   (forall written,
      nth_error (Quiz1.stripped_lines q) 5 = Some ("Correct: " ++ written)%string ->
      ~ occurs "Correct: " written ->
      correct d = Py.upper (Py.strip written))).
Proof.
  split; intros Hd.
  - destruct (parse_question_fields q d Hd) as (Hk & _ & line & corr & Hl & Ha & Hc).
    destruct (after_value _ _ _ Ha) as (written & Hw & ->).
    split; [assumption|]. split; [rewrite Hc; apply upper_idempotent|]. split.
    + now exists line, written.
    + intros w Hline Hfree.
      assert (line = ("Correct: " ++ w)%string) as -> by congruence.
      rewrite split_prefix in Hw by (discriminate || assumption).
      injection Hw as <-. exact Hc.
  - destruct (parse_question1_fields q d Hd) as (Hk & _ & line & Hl & Hc).
    split; [assumption|]. split; [rewrite Hc; apply upper_idempotent|]. split.
    + now exists line.
    + intros w Hline Hfree.
      assert (line = ("Correct: " ++ w)%string) as -> by congruence.
      rewrite replace_prefix in Hc by (discriminate || assumption). exact Hc.
Qed.

Lemma parsed_item_keys_and_case_witness :
  exists d, Quiz.parse_question (sample "Correct: b") = Parsed d /\
            option_keys d = ["A"; "B"; "C"; "D"] /\ correct d = "B".
Proof.
  eexists. split; [vm_compute; reflexivity|].
  split.
  - exact (proj1 (proj1 (parsed_item_keys_and_case (sample "Correct: b") _) eq_refl)).
  - reflexivity.
Defined.

(** C4 as stated fails: an answer line that names no option is parsed, and
    the [correct] entry is then none of A, B, C, D. *)
Lemma parsed_correct_outside_choices :
  exists d, Quiz.parse_question (sample "Correct: e") = Parsed d /\
            correct d = "E" /\
            Py.in_list (correct d) valid_choices = false.
Proof. eexists. split; [vm_compute; reflexivity | split; reflexivity]. Qed.

(** ** The parser of quiz3.py and quiz5.py *)

Lemma field_present (parts : list string) (i : nat) (m : string) :
  m <> "" -> ~ marker_missing parts i m ->
  exists line v, nth_error parts i = Some line /\ Quiz.after m line = Some v.
Proof.
  intros Hm Hpresent. destruct (nth_error parts i) as [line|] eqn:Hi.
  - destruct (Quiz.after m line) as [v|] eqn:Ha; [now exists line, v|].
    exfalso. apply Hpresent. intros line' Hline Hocc.
    assert (line' = line) as -> by congruence.
    apply (after_occurs m line Hm) in Hocc. congruence.
  - exfalso. apply Hpresent. intros line' Hline. congruence.
Qed.

Lemma field_absent (parts : list string) (i : nat) (m line v : string) :
  m <> "" -> nth_error parts i = Some line -> Quiz.after m line = Some v ->
  ~ marker_missing parts i m.
Proof.
  intros Hm Hi Ha Hmiss. apply (Hmiss line Hi), (after_occurs m line Hm). congruence.
Qed.

Ltac field_given Hall :=
  match goal with
  | |- context [bind (nth_error ?parts ?i) (fun p => bind (Quiz.after ?m p) _)] =>
      let line := fresh "line" in
      let v := fresh "v" in
      let Hn := fresh "Hn" in
      let Ha := fresh "Ha" in
      destruct (field_present parts i m) as (line & v & Hn & Ha);
      [ discriminate
      | apply (Hall (i, m)); simpl; tauto
      | rewrite Hn; cbn [bind]; rewrite Ha; cbn [bind] ]
  end.

Ltac field_taken Hd :=
  match type of Hd with
  | context [bind (nth_error ?parts ?i) (fun p => bind (Quiz.after ?m p) _)] =>
      let line := fresh "line" in
      let v := fresh "v" in
      let Hn := fresh "Hn" in
      let Ha := fresh "Ha" in
      destruct (nth_error parts i) as [line|] eqn:Hn; cbn [bind] in Hd; [|discriminate];
      destruct (Quiz.after m line) as [v|] eqn:Ha; cbn [bind] in Hd; [|discriminate];
      pose proof (field_absent parts i m line v ltac:(discriminate) Hn Ha)
  end.

(** The six lines from the options on are read exactly when each is there
    with its marker. *)
Lemma option_lines_accept (parts : list string) (start : nat) (qt : string)
    (cd : option string) :
  (exists d,
     (pa <- nth_error parts start ;; a <- Quiz.after "A) " pa ;;
      pb <- nth_error parts (start + 1) ;; b <- Quiz.after "B) " pb ;;
      pc <- nth_error parts (start + 2) ;; c <- Quiz.after "C) " pc ;;
      pd <- nth_error parts (start + 3) ;; d <- Quiz.after "D) " pd ;;
      p5 <- nth_error parts (start + 4) ;; corr <- Quiz.after "Correct: " p5 ;;
      p6 <- nth_error parts (start + 5) ;; expl <- Quiz.after "Explanation: " p6 ;;
      Some {| question := qt; code := cd;
              options := [("A", a); ("B", b); ("C", c); ("D", d)];
              correct := Py.upper corr; explanation := expl |}) = Some d) <->
  (forall im, In im (option_markers start) -> ~ marker_missing parts (fst im) (snd im)).
Proof.
  split.
  - intros [d Hd] im Him.
    do 6 field_taken Hd.
    unfold option_markers in Him. simpl in Him.
    repeat (destruct Him as [<- | Him]; [assumption|]). contradiction.
  - intros Hall.
    do 6 field_given Hall.
    eexists. reflexivity.
Qed.

(** A candidate of quiz3.py or quiz5.py is parsed exactly when no line and
    no marker is missing. *)
Lemma parse_snippet_question_accepts (snippets : bool) (q : string) :
  (exists d, parse_snippet_question snippets q = Parsed d) <->
  ~ missing_snippet_field snippets q.
Proof.
  unfold parse_snippet_question, missing_snippet_field, snippet_options_start.
  fold (candidate_lines q). set (parts := candidate_lines q).
  destruct (length parts <? 6)%nat eqn:Hlen.
  { apply Nat.ltb_lt in Hlen. split; [intros [d Hd]; discriminate | intros H; elim H; now left]. }
  apply Nat.ltb_ge in Hlen.
  assert (Hparsed : forall o : option question_dict,
            (exists d, match o with Some d => Parsed d | None => Raised end = Parsed d)
            <-> exists d, o = Some d).
  { intros [d|]; split; intros [d' H]; try discriminate; eauto. }
  rewrite Hparsed. clear Hparsed.
  destruct (nth_error parts 0) as [l0|] eqn:H0; cbn [bind];
    [|apply nth_error_None in H0; lia].
  destruct (nth_error parts 1) as [l1|] eqn:H1; cbn [bind];
    [|apply nth_error_None in H1; lia].
  destruct (Quiz.after ". " l0) as [qt|] eqn:A0; cbn [bind].
  2:{ split; [intros [d Hd]; discriminate|]. intros H. elim H. right. left.
      intros line Hline Hocc. assert (line = l0) as -> by congruence.
      apply (after_occurs ". " l0 ltac:(discriminate)) in Hocc. congruence. }
  pose proof (field_absent parts 0 ". " l0 qt ltac:(discriminate) H0 A0) as Hdot.
  destruct (snippets && Py.startswith l1 "```python").
  - destruct (Py.index_from "```" 2 parts) as [close|]; cbn [bind option_map].
    + rewrite option_lines_accept. split.
      * intros Hall [Hshort | [Hm | (im & Him & Hmiss)]]; [lia | contradiction |].
        exact (Hall im Him Hmiss).
      * intros Hnot im Him Hmiss. apply Hnot. right. right. now exists im.
    + split; [intros [d Hd]; discriminate | intros H; elim H; tauto].
  - cbn [bind]. rewrite option_lines_accept. split.
    + intros Hall [Hshort | [Hm | (im & Him & Hmiss)]]; [lia | contradiction |].
      exact (Hall im Him Hmiss).
    + intros Hnot im Him Hmiss. apply Hnot. right. right. now exists im.
Qed.

Lemma missing_rejected (q : string) : missing_field q -> rejected (Quiz.parse_question q).
Proof.
  intros Hm. destruct (parsed_or_rejected (Quiz.parse_question q)) as [Hd | Hr];
    [|assumption].
  apply parse_question_accepts in Hd. contradiction.
Qed.

Lemma missing_snippet_rejected (snippets : bool) (q : string) :
  missing_snippet_field snippets q -> rejected (parse_snippet_question snippets q).
Proof.
  intros Hm. destruct (parsed_or_rejected (parse_snippet_question snippets q)) as [Hd | Hr];
    [|assumption].
  apply parse_snippet_question_accepts in Hd. contradiction.
Qed.

(** C6, as the code has it: in a batch of candidates of which exactly one
    lacks a line, or a marker anywhere in its line, the loop returns the
    dictionaries of the others, each parsed as it is on its own and the same
    as without the bad candidate, one fewer than the candidates, and
    announces one rejection.  For quiz.py a candidate needs seven lines; for
    quiz3.py and quiz5.py six, a ". " in the first, a closed fence if one is
    opened, and the six marked lines from the options on. *)
Theorem one_bad_candidate_is_dropped (before after : list string) (bad : string) :
  (missing_field bad ->
   Forall (fun q => ~ missing_field q) (before ++ after) ->
   fst (parse_loop Quiz.parse_question (before ++ bad :: after))
   = fst (parse_loop Quiz.parse_question (before ++ after)) /\
   Forall2 (fun q d => Quiz.parse_question q = Parsed d) (before ++ after)
     (fst (parse_loop Quiz.parse_question (before ++ bad :: after))) /\
   length (fst (parse_loop Quiz.parse_question (before ++ bad :: after)))
   = (length (before ++ bad :: after) - 1)%nat /\
   rejected_count (parse_loop Quiz.parse_question (before ++ bad :: after)) = 1%nat) /\
  (forall snippets,
     missing_snippet_field snippets bad ->
     Forall (fun q => ~ missing_snippet_field snippets q) (before ++ after) ->
     fst (parse_loop (parse_snippet_question snippets) (before ++ bad :: after))
     = fst (parse_loop (parse_snippet_question snippets) (before ++ after)) /\
     Forall2 (fun q d => parse_snippet_question snippets q = Parsed d) (before ++ after)
       (fst (parse_loop (parse_snippet_question snippets) (before ++ bad :: after))) /\
     length (fst (parse_loop (parse_snippet_question snippets) (before ++ bad :: after)))
     = (length (before ++ bad :: after) - 1)%nat /\
     rejected_count (parse_loop (parse_snippet_question snippets) (before ++ bad :: after))
     = 1%nat).
Proof.
  split.
  - intros Hbad Hgood.
    assert (Hall : Forall (fun q => exists d, Quiz.parse_question q = Parsed d)
                     (before ++ after)).
    { eapply Forall_impl; [|exact Hgood]. intros q Hq. now apply parse_question_accepts. }
    destruct (parse_loop_drops_one Quiz.parse_question before after bad
                (missing_rejected bad Hbad) Hall) as (Hsame & Heach & Hcount).
    repeat split; try assumption.
    apply Forall2_length in Heach. rewrite <- Heach, !length_app. simpl. lia.
  - intros snippets Hbad Hgood.
    assert (Hall : Forall (fun q => exists d, parse_snippet_question snippets q = Parsed d)
                     (before ++ after)).
    { eapply Forall_impl; [|exact Hgood]. intros q Hq.
      now apply parse_snippet_question_accepts. }
    destruct (parse_loop_drops_one (parse_snippet_question snippets) before after bad
                (missing_snippet_rejected snippets bad Hbad) Hall) as (Hsame & Heach & Hcount).
    repeat split; try assumption.
    apply Forall2_length in Heach. rewrite <- Heach, !length_app. simpl. lia.
Qed.

Lemma one_bad_candidate_is_dropped_witness :
  (fst (parse_loop Quiz.parse_question
          [sample "Correct: b"; "1. What is a list?"; sample "Correct: a"])
   = fst (parse_loop Quiz.parse_question [sample "Correct: b"; sample "Correct: a"]) /\
   rejected_count (parse_loop Quiz.parse_question
                     [sample "Correct: b"; "1. What is a list?"; sample "Correct: a"])
   = 1%nat) /\
  (fst (parse_loop Quiz3.parse_question
          [sample_with_code; sample_open_fence; sample "Correct: a"])
   = fst (parse_loop Quiz3.parse_question [sample_with_code; sample "Correct: a"]) /\
   rejected_count (parse_loop Quiz3.parse_question
                     [sample_with_code; sample_open_fence; sample "Correct: a"])
   = 1%nat).
Proof.
  split.
  - destruct (proj1 (one_bad_candidate_is_dropped [sample "Correct: b"] [sample "Correct: a"]
                       "1. What is a list?")) as (Hsame & _ & _ & Hcount).
    + left. vm_compute. lia.
    + repeat constructor; apply parse_question_accepts; eexists; vm_compute; reflexivity.
    + split; [exact Hsame | exact Hcount].
  - destruct (proj2 (one_bad_candidate_is_dropped [sample_with_code] [sample "Correct: a"]
                       sample_open_fence) true) as (Hsame & _ & _ & Hcount).
    + right. right. vm_compute. exact I.
    + repeat constructor; apply parse_snippet_question_accepts; eexists;
        vm_compute; reflexivity.
    + split; [exact Hsame | exact Hcount].
Defined.

(** C6 as stated fails: a candidate whose first option line does not begin
    with its marker lacks a required field as the specification counts
    them, but the parsers look for the marker anywhere in the line; in a
    batch of three with this one in the middle, quiz.py and quiz3.py return
    three dictionaries and announce no rejection. *)
Lemma unmarked_candidate_is_not_dropped :
  nth_error (candidate_lines sample_shifted_marker) 1 = Some "x A) 0" /\
  Py.startswith "x A) 0" "A) " = false /\
  length (fst (parse_loop Quiz.parse_question
                 [sample "Correct: b"; sample_shifted_marker; sample "Correct: a"]))
  = 3%nat /\
  rejected_count (parse_loop Quiz.parse_question
                    [sample "Correct: b"; sample_shifted_marker; sample "Correct: a"])
  = 0%nat /\
  length (fst (parse_loop Quiz3.parse_question
                 [sample "Correct: b"; sample_shifted_marker; sample "Correct: a"]))
  = 3%nat /\
  rejected_count (parse_loop Quiz3.parse_question
                    [sample "Correct: b"; sample_shifted_marker; sample "Correct: a"])
  = 0%nat.
Proof. vm_compute. repeat split. Qed.

(** ** The interrupt and the questions asked *)

(** C9 on the code: the operator answers the first of two questions and
    interrupts the prompt of the second.  In quiz.py and in quiz1.py the
    session ends there, the termination notice is the last line [run_quiz]
    prints, the second answer is never read and no line of the results, the
    feedback or the analysis is printed.  But quiz.py returns with the
    countdown thread of the interrupted question running: the thirty seconds
    and "Time's up" are printed after the termination notice.  quiz1.py
    raises the flag and joins the thread in its handler, and nothing is
    printed afterwards. *)
Theorem interrupt_leaves_countdown_running :
  (forall quiz1,
     ending_of (interrupted_at_second quiz1) = TerminatedByUser /\
     last (output_of (interrupted_at_second quiz1)) GoodJob = QuizTerminatedByUser /\
     headers (output_of (interrupted_at_second quiz1))
     = [QuestionHeader 1 2; QuestionHeader 2 2] /\
     map user_answer (answers_of (interrupted_at_second quiz1)) = ["B"] /\
     unread (interrupted_at_second quiz1) = [Line "c"] /\
     forallb (fun o => negb (is_report o))
       (output_of (interrupted_at_second quiz1)
          ++ printed_later (interrupted_at_second quiz1)) = true) /\
  printed_later (interrupted_at_second false)
  = map TimeRemaining (rev (seq 1 30)) ++ [TimesUp] /\
  length (printed_later (interrupted_at_second false)) = 31%nat /\
  printed_later (interrupted_at_second true) = [].
Proof.
  split; [intros quiz1; destruct quiz1; vm_compute; repeat split|].
  vm_compute. repeat split.
Qed.



